(** * Macroaxis triangular-arbitrage scraper: a shallow embedding

    The development follows the three scripts of the repository:

    - [verify_binance.py]: [verify_triangular_opportunity], the three-leg
      simulation in [decimal] arithmetic (context precision 28);
    - [async_arb_verify.py]: the scraper without retry and without a
      concurrency limit;
    - [main_check_macro_verify.py]: the scraper with [MAX_RETRIES], a
      semaphore of [CONCURRENCY_LIMIT] permits, and its own
      [verify_from_binance].

    Text is modelled as ASCII strings.  The libraries the scripts call
    ([decimal], [float], [bs4], [csv], [aiohttp], [asyncio], the Binance
    client) are modelled at their interface, as far as the scripts use
    them. *)

From Stdlib Require Import ZArith List Bool Lia String Ascii.
Import ListNotations.
Set Warnings "-register-all".
Open Scope string_scope.
Open Scope Z_scope.

(** ** Python strings (ASCII) *)

Module PyStr.

(** [str.isspace] on one ASCII character: TAB, LF, VT, FF, CR, the four
    separators FS..US and the space. *)
Definition is_space (c : ascii) : bool :=
  let n := nat_of_ascii c in
  ((9 <=? n)%nat && (n <=? 13)%nat) || ((28 <=? n)%nat && (n <=? 32)%nat).

Definition is_digit (c : ascii) : bool :=
  let n := nat_of_ascii c in (48 <=? n)%nat && (n <=? 57)%nat.

Definition digit_val (c : ascii) : Z := Z.of_nat (nat_of_ascii c) - 48.

Definition upper_char (c : ascii) : ascii :=
  let n := nat_of_ascii c in
  if (97 <=? n)%nat && (n <=? 122)%nat then ascii_of_nat (n - 32) else c.

Definition lower_char (c : ascii) : ascii :=
  let n := nat_of_ascii c in
  if (65 <=? n)%nat && (n <=? 90)%nat then ascii_of_nat (n + 32) else c.

(** [s.upper()] and [s.lower()] *)
Fixpoint upper (s : string) : string :=
  match s with
  | EmptyString => EmptyString
  | String c r => String (upper_char c) (upper r)
  end.

Fixpoint lower (s : string) : string :=
  match s with
  | EmptyString => EmptyString
  | String c r => String (lower_char c) (lower r)
  end.

(** [s.lstrip()], [s.rstrip()], [s.strip()] *)
Fixpoint lstrip (s : string) : string :=
  match s with
  | EmptyString => EmptyString
  | String c r => if is_space c then lstrip r else s
  end.

Fixpoint rstrip (s : string) : string :=
  match s with
  | EmptyString => EmptyString
  | String c r =>
      match rstrip r with
      | EmptyString => if is_space c then EmptyString else String c EmptyString
      | r' => String c r'
      end
  end.

Definition strip (s : string) : string := rstrip (lstrip s).

Definition cons_head (c : ascii) (l : list string) : list string :=
  match l with
  | [] => [String c EmptyString]
  | p :: ps => String c p :: ps
  end.

(** [s.split("->")]: cut at every occurrence of the separator, scanning
    from the left; the result is never empty. *)
Fixpoint split_arrow (s : string) : list string :=
  match s with
  | EmptyString => [EmptyString]
  | String c r =>
      match r with
      | String d r' =>
          if (c =? "-")%char && (d =? ">")%char
          then EmptyString :: split_arrow r'
          else cons_head c (split_arrow r)
      | EmptyString => [String c EmptyString]
      end
  end.

(** [s.split()]: the maximal runs of non-space characters. *)
Fixpoint split_ws_aux (s : string) (cur : string) : list string :=
  match s with
  | EmptyString =>
      match cur with EmptyString => [] | _ => [cur] end
  | String c r =>
      if is_space c
      then match cur with
           | EmptyString => split_ws_aux r EmptyString
           | _ => cur :: split_ws_aux r EmptyString
           end
      else split_ws_aux r (cur ++ String c EmptyString)
  end.

Definition split_ws (s : string) : list string := split_ws_aux s EmptyString.

(** [sep.join(l)] *)
Fixpoint join (sep : string) (l : list string) : string :=
  match l with
  | [] => EmptyString
  | [x] => x
  | x :: r => x ++ sep ++ join sep r
  end.

(** [s.replace("_", "")] *)
Fixpoint remove_underscores (s : string) : string :=
  match s with
  | EmptyString => EmptyString
  | String c r =>
      if (c =? "_")%char then remove_underscores r
      else String c (remove_underscores r)
  end.

Fixpoint repeat_char (c : ascii) (n : nat) : string :=
  match n with
  | O => EmptyString
  | S k => String c (repeat_char c k)
  end.

(** [str(n)] for a non-negative integer, most significant digit first. *)
Fixpoint digits_of_pos_aux (fuel : nat) (n : Z) (acc : string) : string :=
  match fuel with
  | O => acc
  | S k =>
      let acc' := String (ascii_of_nat (Z.to_nat (48 + n mod 10))) acc in
      if n <? 10 then acc' else digits_of_pos_aux k (n / 10) acc'
  end.

Definition str_of_nonneg (n : Z) : string :=
  digits_of_pos_aux (S (Z.to_nat (Z.log2 n))) n EmptyString.

(** [str(n)] for a Python [int] *)
Definition str_of_int (n : Z) : string :=
  if n <? 0 then String "-" (str_of_nonneg (- n)) else str_of_nonneg n.

End PyStr.

(** ** Exceptions and results

    Every constructor of [ExnType] is a subclass of Python's [Exception]:
    [except Exception] catches all of them.  [exn_str] is [str(e)]. *)

Inductive ExnType : Type :=
| TypeError | AttributeError | KeyError | ValueError | IndexError
| InvalidOperation | DivisionByZero | Overflow
| OtherException (cls : string).

Record exn : Type := mkExn { exn_type : ExnType; exn_str : string }.

Inductive Res (A : Type) : Type :=
| Ok (a : A)
| Raise (e : exn).
Arguments Ok {A} a.
Arguments Raise {A} e.

Definition res_bind {A B} (r : Res A) (k : A -> Res B) : Res B :=
  match r with
  | Ok a => k a
  | Raise e => Raise e
  end.

(** ** Numeric literals shared by [Decimal(str)] and [float(str)] *)

Module NumLit.

Fixpoint take_digits (s : string) : string * string :=
  match s with
  | EmptyString => (EmptyString, EmptyString)
  | String c r =>
      if PyStr.is_digit c
      then let (d, rest) := take_digits r in (String c d, rest)
      else (EmptyString, s)
  end.

Fixpoint int_of_digits_aux (s : string) (acc : Z) : Z :=
  match s with
  | EmptyString => acc
  | String c r => int_of_digits_aux r (10 * acc + PyStr.digit_val c)
  end.

Definition int_of_digits (s : string) : Z := int_of_digits_aux s 0.

(** [[-+]?] *)
Definition take_sign (s : string) : bool * string :=
  match s with
  | String c r =>
      if (c =? "-")%char then (true, r)
      else if (c =? "+")%char then (false, r)
      else (false, s)
  | EmptyString => (false, s)
  end.

(** [([eE][-+]?\d+)?] up to the end of the string *)
Definition parse_exponent (s : string) : option Z :=
  match s with
  | EmptyString => Some 0
  | String c r =>
      if (c =? "e")%char || (c =? "E")%char then
        let (neg, r1) := take_sign r in
        match take_digits r1 with
        | (EmptyString, _) => None
        | (d, EmptyString) =>
            Some (if neg then - int_of_digits d else int_of_digits d)
        | _ => None
        end
      else None
  end.

(** An unsigned number with at least one digit: the coefficient (integer
    and fraction digits read as one integer) and the exponent. *)
Definition parse_number (s : string) : option (Z * Z) :=
  let (ip, r1) := take_digits s in
  let '(fp, r2) :=
    match r1 with
    | String c r => if (c =? ".")%char then take_digits r else (EmptyString, r1)
    | EmptyString => (EmptyString, r1)
    end in
  match (ip ++ fp)%string with
  | EmptyString => None
  | ds =>
      match parse_exponent r2 with
      | Some e => Some (int_of_digits ds, e - Z.of_nat (String.length fp))
      | None => None
      end
  end.

End NumLit.

(** ** The [decimal] module under [getcontext().prec = 28]

    The default context otherwise: rounding [ROUND_HALF_EVEN],
    [Emax = 999999], [Emin = -999999], [clamp = 0], traps on
    [InvalidOperation], [DivisionByZero] and [Overflow].  A trapped signal
    is a raised exception; untrapped ones (Inexact, Rounded, Subnormal,
    Underflow, Clamped) only set flags and are not modelled.  NaN payloads
    are dropped. *)

Module PyDecimal.

Definition prec : Z := 28.
Definition Emax : Z := 999999.
Definition Emin : Z := -999999.
Definition Etiny : Z := Emin - prec + 1.
Definition Etop : Z := Emax - prec + 1.

(** Limits of the exact constructor (CPython's C implementation, 64 bit) *)
Definition MAX_EMAX : Z := 999999999999999999.
Definition MIN_ETINY : Z := -1999999999999999997.
Definition MAX_PREC : Z := 999999999999999999.

Inductive Decimal : Type :=
| Fin (neg : bool) (coeff : Z) (exp : Z)   (* (-1)^neg * coeff * 10^exp, 0 <= coeff *)
| Inf (neg : bool)
| NaN (signaling : bool).

Definition invalid_operation {A} : Res A :=
  Raise (mkExn InvalidOperation "[<class 'decimal.InvalidOperation'>]").
Definition conversion_syntax {A} : Res A :=
  Raise (mkExn InvalidOperation "[<class 'decimal.ConversionSyntax'>]").
Definition division_undefined {A} : Res A :=
  Raise (mkExn InvalidOperation "[<class 'decimal.DivisionUndefined'>]").
Definition division_by_zero {A} : Res A :=
  Raise (mkExn DivisionByZero "[<class 'decimal.DivisionByZero'>]").
Definition overflow {A} : Res A :=
  Raise (mkExn Overflow "[<class 'decimal.Overflow'>]").

(** [len(self._int)]: the number of decimal digits, 1 for zero *)
Fixpoint ndigits_aux (fuel : nat) (c : Z) : Z :=
  match fuel with
  | O => 1
  | S k => if c <? 10 then 1 else 1 + ndigits_aux k (c / 10)
  end.

Definition ndigits (c : Z) : Z := ndigits_aux (S (Z.to_nat (Z.log2 c))) c.

(** Drop the [k] low digits of [c], rounding half to even *)
Definition round_half_even (c k : Z) : Z :=
  let p := 10 ^ k in
  let q := c / p in
  let r := c mod p in
  if 2 * r >? p then q + 1
  else if 2 * r =? p then (if Z.odd q then q + 1 else q)
  else q.

(** [Decimal._fix(context)] on a finite number *)
Definition fix_fin (s : bool) (c e : Z) : Res Decimal :=
  if c =? 0 then Ok (Fin s 0 (Z.min (Z.max e Etiny) Emax))
  else
    let exp_min0 := ndigits c + e - prec in
    if exp_min0 >? Etop then overflow
    else
      let exp_min := Z.max exp_min0 Etiny in
      if e <? exp_min then
        let digits := ndigits c + e - exp_min in
        let '(c1, e1) := if digits <? 0 then (1, exp_min - 1) else (c, e) in
        let q := round_half_even c1 (exp_min - e1) in
        let '(q', em') :=
          if ndigits q >? prec then (q / 10, exp_min + 1) else (q, exp_min) in
        if em' >? Etop then overflow else Ok (Fin s q' em')
      else Ok (Fin s c e).

Definition fix_ (d : Decimal) : Res Decimal :=
  match d with
  | Fin s c e => fix_fin s c e
  | _ => Ok d
  end.

(** [_check_nans]: a signaling NaN traps, a quiet one is the result *)
Definition check_nans (a b : Decimal) : option (Res Decimal) :=
  match a, b with
  | NaN true, _ | _, NaN true => Some invalid_operation
  | NaN false, _ | _, NaN false => Some (Ok (NaN false))
  | _, _ => None
  end.

(** Exact quotient: move towards the ideal exponent *)
Fixpoint strip_zeros (fuel : nat) (coeff exp ideal : Z) : Z * Z :=
  match fuel with
  | O => (coeff, exp)
  | S k =>
      if (exp <? ideal) && (coeff mod 10 =? 0)
      then strip_zeros k (coeff / 10) (exp + 1) ideal
      else (coeff, exp)
  end.

(** [a / b] *)
Definition div (a b : Decimal) : Res Decimal :=
  match check_nans a b with
  | Some r => r
  | None =>
      match a, b with
      | Inf _, Inf _ => invalid_operation
      | Inf s1, Fin s2 _ _ => Ok (Inf (xorb s1 s2))
      | Fin s1 _ _, Inf s2 => Ok (Fin (xorb s1 s2) 0 Etiny)
      | Fin s1 c1 e1, Fin s2 c2 e2 =>
          let s := xorb s1 s2 in
          if c2 =? 0 then
            (if c1 =? 0 then division_undefined else division_by_zero)
          else if c1 =? 0 then fix_fin s 0 (e1 - e2)
          else
            let shift := ndigits c2 - ndigits c1 + prec + 1 in
            let exp := e1 - e2 - shift in
            let '(n, d) :=
              if 0 <=? shift then (c1 * 10 ^ shift, c2)
              else (c1, c2 * 10 ^ (- shift)) in
            let coeff := n / d in
            let rem := n mod d in
            let '(coeff', exp') :=
              if rem =? 0
              then strip_zeros (Z.to_nat (e1 - e2 - exp)) coeff exp (e1 - e2)
              else (if coeff mod 5 =? 0 then coeff + 1 else coeff, exp) in
            fix_fin s coeff' exp'
      | _, _ => Ok (NaN false)
      end
  end.

(** [a * b] *)
Definition mul (a b : Decimal) : Res Decimal :=
  match check_nans a b with
  | Some r => r
  | None =>
      match a, b with
      | Inf s1, Inf s2 => Ok (Inf (xorb s1 s2))
      | Inf s1, Fin s2 c2 _ =>
          if c2 =? 0 then invalid_operation else Ok (Inf (xorb s1 s2))
      | Fin s1 c1 _, Inf s2 =>
          if c1 =? 0 then invalid_operation else Ok (Inf (xorb s1 s2))
      | Fin s1 c1 e1, Fin s2 c2 e2 => fix_fin (xorb s1 s2) (c1 * c2) (e1 + e2)
      | _, _ => Ok (NaN false)
      end
  end.

(** [a.quantize(Decimal(1) scaled to exponent e)], for a finite target *)
Definition quantize (a : Decimal) (e : Z) : Res Decimal :=
  match a with
  | NaN true => invalid_operation
  | NaN false => Ok (NaN false)
  | Inf _ => invalid_operation
  | Fin s c ea =>
      if negb ((Etiny <=? e) && (e <=? Emax)) then invalid_operation
      else if c =? 0 then fix_fin s 0 e
      else
        let adj := ea + ndigits c - 1 in
        if adj >? Emax then invalid_operation
        else if adj - e + 1 >? prec then invalid_operation
        else
          let c' :=
            if e <=? ea then c * 10 ^ (ea - e)
            else
              let digits := ndigits c + ea - e in
              if digits <? 0 then round_half_even 1 1
              else round_half_even c (e - ea) in
          if e + ndigits c' - 1 >? Emax then invalid_operation
          else if ndigits c' >? prec then invalid_operation
          else fix_fin s c' e
  end.

(** Numeric order of two finite numbers *)
Definition signed (s : bool) (c : Z) : Z := if s then - c else c.

Definition compare_fin (s1 : bool) (c1 e1 : Z) (s2 : bool) (c2 e2 : Z)
  : comparison :=
  let m := Z.min e1 e2 in
  Z.compare (signed s1 c1 * 10 ^ (e1 - m)) (signed s2 c2 * 10 ^ (e2 - m)).

(** [Decimal._cmp]; [None] when an operand is a NaN *)
Definition cmp (a b : Decimal) : option comparison :=
  match a, b with
  | NaN _, _ | _, NaN _ => None
  | Inf s1, Inf s2 =>
      Some (if Bool.eqb s1 s2 then Eq else if s1 then Lt else Gt)
  | Inf s1, Fin _ _ _ => Some (if s1 then Lt else Gt)
  | Fin _ _ _, Inf s2 => Some (if s2 then Gt else Lt)
  | Fin s1 c1 e1, Fin s2 c2 e2 => Some (compare_fin s1 c1 e1 s2 c2 e2)
  end.

(** [Decimal(str(n))] for a Python [int] *)
Definition of_int (n : Z) : Decimal := Fin (n <? 0) (Z.abs n) 0.

(** [a <= n] and [a > n] for an [int] n: an ordering comparison with a
    NaN signals [InvalidOperation] *)
Definition le_int (a : Decimal) (n : Z) : Res bool :=
  match cmp a (of_int n) with
  | None => invalid_operation
  | Some Gt => Ok false
  | Some _ => Ok true
  end.

Definition gt_int (a : Decimal) (n : Z) : Res bool :=
  match cmp a (of_int n) with
  | None => invalid_operation
  | Some Gt => Ok true
  | Some _ => Ok false
  end.

(** [a == b] between two decimals *)
Definition dec_eqb (a b : Decimal) : bool :=
  match cmp a b with
  | Some Eq => true
  | _ => false
  end.

Definition all_digits (s : string) : bool :=
  match NumLit.take_digits s with
  | (_, EmptyString) => true
  | _ => false
  end.

(** Exactly representable by the constructor *)
Definition in_range (c e : Z) : bool :=
  if c =? 0 then (MIN_ETINY <=? e) && (e <=? MAX_EMAX)
  else (MIN_ETINY <=? e) && (e + ndigits c - 1 <=? MAX_EMAX)
       && (ndigits c <=? MAX_PREC).

(** [Decimal(s)] for a string: surrounding whitespace is stripped and
    underscores are removed before the literal is matched, letters in
    any case *)
Definition of_string (s : string) : Res Decimal :=
  let s1 := PyStr.remove_underscores (PyStr.strip s) in
  let (neg, r) := NumLit.take_sign s1 in
  let lr := PyStr.lower r in
  if (lr =? "inf")%string || (lr =? "infinity")%string then Ok (Inf neg)
  else if (substring 0 3 lr =? "nan")%string
          && all_digits (substring 3 (String.length lr) lr)
  then Ok (NaN false)
  else if (substring 0 4 lr =? "snan")%string
          && all_digits (substring 4 (String.length lr) lr)
  then Ok (NaN true)
  else
    match NumLit.parse_number r with
    | Some (c, e) => if in_range c e then Ok (Fin neg c e) else invalid_operation
    | None => conversion_syntax
    end.

(** [str(d)] (scientific notation, [capitals = 1]) *)
Definition to_string (d : Decimal) : string :=
  match d with
  | Inf s => if s then "-Infinity" else "Infinity"
  | NaN sg => if sg then "sNaN" else "NaN"
  | Fin s c e =>
      let ds := PyStr.str_of_nonneg c in
      let len := Z.of_nat (String.length ds) in
      let leftdigits := e + len in
      let dotplace :=
        if (e <=? 0) && (leftdigits >? -6) then leftdigits else 1 in
      let '(intpart, fracpart) :=
        if dotplace <=? 0 then
          ("0", "." ++ PyStr.repeat_char "0" (Z.to_nat (- dotplace)) ++ ds)
        else if dotplace >=? len then
          (ds ++ PyStr.repeat_char "0" (Z.to_nat (dotplace - len)), "")
        else
          (substring 0 (Z.to_nat dotplace) ds,
           "." ++ substring (Z.to_nat dotplace) (Z.to_nat (len - dotplace)) ds) in
      let ex :=
        if leftdigits =? dotplace then ""
        else
          let x := leftdigits - dotplace in
          "E" ++ (if x <? 0 then "-" else "+") ++ PyStr.str_of_nonneg (Z.abs x) in
      (if s then "-" else "") ++ intpart ++ fracpart ++ ex
  end.

End PyDecimal.

(** ** The world the scripts act on

    [stdout] collects the printed lines, [lookups] the symbols passed to
    [client.get_orderbook_ticker], oldest first.  The Binance client is
    an oracle: its answer may depend on the symbol and on everything that
    was asked before.  A ticker is the JSON object of the reply, a
    dictionary with string values. *)

Record World : Type := mkWorld { lookups : list string; stdout : list string }.

Definition M (A : Type) : Type := World -> Res A * World.

Definition ret {A} (a : A) : M A := fun w => (Ok a, w).

Definition bind {A B} (m : M A) (k : A -> M B) : M B :=
  fun w => match m w with
           | (Ok a, w') => k a w'
           | (Raise e, w') => (Raise e, w')
           end.

Definition raise_ {A} (e : exn) : M A := fun w => (Raise e, w).

Definition lift {A} (r : Res A) : M A := fun w => (r, w).

(** [try: body except Exception as e: handler(e)] *)
Definition try_except {A} (body : M A) (handler : exn -> M A) : M A :=
  fun w => match body w with
           | (Ok a, w') => (Ok a, w')
           | (Raise e, w') => handler e w'
           end.

Definition print (line : string) : M unit :=
  fun w => (Ok tt, {| lookups := lookups w; stdout := stdout w ++ [line] |}).

Declare Scope py_scope.
Delimit Scope py_scope with py.
Notation "x <- m ;; k" := (bind m (fun x => k))
  (at level 61, m at next level, right associativity) : py_scope.
Notation "m ;;; k" := (bind m (fun _ => k))
  (at level 61, right associativity) : py_scope.
Open Scope py_scope.

Definition Ticker : Type := list (string * string).
Definition Client : Type := list string -> string -> Res Ticker.

(** [d[k]] on a dictionary *)
Fixpoint dict_get (k : string) (d : Ticker) : Res string :=
  match d with
  | [] => Raise (mkExn KeyError ("'" ++ k ++ "'"))
  | (k', v) :: r => if (k' =? k)%string then Ok v else dict_get k r
  end.

Definition get_orderbook_ticker (client : Client) (symbol : string) : M Ticker :=
  fun w => (client (lookups w) symbol,
            {| lookups := lookups w ++ [symbol]; stdout := stdout w |}).

Inductive PyVal : Type :=
| PyNone
| PyDec (d : PyDecimal.Decimal).

(** ** verify_binance.py *)

Module VerifyBinance.
Import PyDecimal.

Definition invalid_format_msg : string :=
  "Invalid sequence format. Must be like 'USDT -> ACH -> BTC -> USDT'".

(** [[p.strip().upper() for p in sequence.split("->")]] *)
Definition parse_sequence (sequence : string) : list string :=
  map (fun p => PyStr.upper (PyStr.strip p)) (PyStr.split_arrow sequence).

(** [x.quantize(Decimal('0.00000001'))] and [x.quantize(Decimal('0.0001'))]
    as they are formatted into a line *)
Definition q8 (x : Decimal) : M string :=
  lift (res_bind (quantize x (-8)) (fun d => Ok (to_string d))).
Definition q4 (x : Decimal) : M string :=
  lift (res_bind (quantize x (-4)) (fun d => Ok (to_string d))).

(** The body of the [try] block *)
Definition verify_body (client : Client) (sequence : string)
           (starting_amount : Z) : M (PyVal * PyVal) :=
  let parts := parse_sequence sequence in
  if negb (Nat.eqb (List.length parts) 4)
     || negb (String.eqb (hd "" parts) (last parts ""))
  then
    print invalid_format_msg ;;;
    ret (PyNone, PyNone)
  else
    match parts with
    | [start; mid; end_; final] =>
        let starting_amount_dec := of_int starting_amount in
        (* Leg 1 *)
        let mid_start := mid ++ start in
        ticker1 <- get_orderbook_ticker client mid_start ;;
        ask_price_ach_usdt <- lift (res_bind (dict_get "askPrice" ticker1) of_string) ;;
        bad1 <- lift (le_int ask_price_ach_usdt 0) ;;
        if (bad1 : bool) then
          print "Invalid ask price for ACHUSDT." ;;;
          ret (PyNone, PyNone)
        else
        ach_amount <- lift (div starting_amount_dec ask_price_ach_usdt) ;;
        (* Leg 2 *)
        let mid_end := mid ++ end_ in
        ticker2 <- get_orderbook_ticker client mid_end ;;
        bid_price_ach_btc <- lift (res_bind (dict_get "bidPrice" ticker2) of_string) ;;
        bad2 <- lift (le_int bid_price_ach_btc 0) ;;
        if (bad2 : bool) then
          print ("Invalid bid price for " ++ mid_end ++ ".") ;;;
          ret (PyNone, PyNone)
        else
        btc_amount <- lift (mul ach_amount bid_price_ach_btc) ;;
        (* Leg 3 *)
        let end_start := end_ ++ start in
        ticker3 <- get_orderbook_ticker client end_start ;;
        bid_price_btc_usdt <- lift (res_bind (dict_get "bidPrice" ticker3) of_string) ;;
        bad3 <- lift (le_int bid_price_btc_usdt 0) ;;
        if (bad3 : bool) then
          print ("Invalid bid price for " ++ end_start ++ ".") ;;;
          ret (PyNone, PyNone)
        else
        final_usdt <- lift (mul btc_amount bid_price_btc_usdt) ;;
        arbitrage_ratio <- lift (div final_usdt starting_amount_dec) ;;
        (* the breakdown *)
        p1 <- q8 ask_price_ach_usdt ;;
        print ("1st Pair - " ++ mid_start ++ " and price is - " ++ p1) ;;;
        p2 <- q8 bid_price_ach_btc ;;
        print ("2nd Pair - " ++ mid_end ++ " and price is - " ++ p2) ;;;
        p3 <- q8 bid_price_btc_usdt ;;
        print ("3rd Pair - " ++ end_start ++ " and price is - " ++ p3) ;;;
        print ("--- Verification for sequence: " ++ sequence ++ " ---") ;;;
        let s0 := to_string starting_amount_dec in
        print ("Starting with " ++ s0 ++ " " ++ start) ;;;
        a1 <- q8 ask_price_ach_usdt ;;
        r1 <- q8 ach_amount ;;
        print ("Leg 1: Buy " ++ mid ++ " using " ++ start ++ ": " ++ s0
               ++ " / " ++ a1 ++ " = " ++ r1 ++ " " ++ mid) ;;;
        x2 <- q8 ach_amount ;;
        a2 <- q8 bid_price_ach_btc ;;
        r2 <- q8 btc_amount ;;
        print ("Leg 2: Sell " ++ mid ++ " for " ++ end_ ++ ": " ++ x2
               ++ " * " ++ a2 ++ " = " ++ r2 ++ " " ++ end_) ;;;
        x3 <- q8 btc_amount ;;
        a3 <- q8 bid_price_btc_usdt ;;
        r3 <- q8 final_usdt ;;
        print ("Leg 3: Sell " ++ end_ ++ " for " ++ start ++ ": " ++ x3
               ++ " * " ++ a3 ++ " = " ++ r3 ++ " " ++ start) ;;;
        r <- q4 arbitrage_ratio ;;
        print ("Arbitrage Ratio: " ++ r) ;;;
        ret (PyDec final_usdt, PyDec arbitrage_ratio)
    | _ =>
        (* [start, mid, end, final = parts] on a list of another length *)
        raise_ (mkExn ValueError "not enough values to unpack (expected 4)")
    end.

(** [verify_triangular_opportunity(sequence, starting_amount)] *)
Definition verify_triangular_opportunity (client : Client)
           (sequence : string) (starting_amount : Z) : M (PyVal * PyVal) :=
  try_except
    (verify_body client sequence starting_amount)
    (fun e =>
       print ("Error verifying triangular opportunity for sequence '"
              ++ sequence ++ "': " ++ exn_str e) ;;;
       ret (PyNone, PyNone)).

(** The call as Python binds it: [sequence] is passed by position, the
    other arguments by keyword (integer values), in the order written.
    [starting_amount] has the default 100. *)
Fixpoint bind_keywords (kwargs : list (string * Z)) (starting_amount : Z)
  : Res Z :=
  match kwargs with
  | [] => Ok starting_amount
  | (k, v) :: r =>
      if (k =? "starting_amount")%string then bind_keywords r v
      else if (k =? "sequence")%string then
        Raise (mkExn TypeError
          "verify_triangular_opportunity() got multiple values for argument 'sequence'")
      else
        Raise (mkExn TypeError
          ("verify_triangular_opportunity() got an unexpected keyword argument '"
           ++ k ++ "'"))
  end.

Definition call_verify_triangular_opportunity (client : Client)
           (sequence : string) (kwargs : list (string * Z))
  : M (PyVal * PyVal) :=
  starting_amount <- lift (bind_keywords kwargs 100) ;;
  verify_triangular_opportunity client sequence starting_amount.

End VerifyBinance.

(** ** Python [float]: IEEE 754 binary64

    A finite float is [(-1)^neg * m * 2^e] with [m < 2^53] and
    [-1074 <= e <= 971]; it is normal when [2^52 <= m] and subnormal (or
    zero) when [e = -1074].  [float(s)] rounds the literal correctly, ties
    to even, and overflows to infinity. *)

Module PyFloat.

Inductive Float : Type :=
| FNaN
| FInf (neg : bool)
| FFin (neg : bool) (m : Z) (e : Z).

(** A Python number as the extractor's [threshold] may be *)
Inductive PyNum : Type :=
| NInt (n : Z)
| NFloat (f : Float).

(** The quotient [n / d] rounded to an integer, ties to even *)
Definition round_div (n d : Z) : Z :=
  let q := n / d in
  let r := n mod d in
  if 2 * r >? d then q + 1
  else if 2 * r =? d then (if Z.odd q then q + 1 else q)
  else q.

(** [n / (d * 2^e)] as a fraction of integers *)
Definition scale (n d e : Z) : Z * Z :=
  if 0 <=? e then (n, d * 2 ^ e) else (n * 2 ^ (- e), d).

(** The binary64 value nearest to [n / d], for [0 < n] and [0 < d] *)
Definition of_ratio (neg : bool) (n d : Z) : Float :=
  let e0 := Z.max (Z.log2 n - Z.log2 d - 53) (-1074) in
  let '(n0, d0) := scale n d e0 in
  let e1 := if n0 / d0 >=? 2 ^ 53 then e0 + 1 else e0 in
  let '(n1, d1) := scale n d e1 in
  let m := round_div n1 d1 in
  let '(m', e') := if m =? 2 ^ 53 then (2 ^ 52, e1 + 1) else (m, e1) in
  if e' >? 971 then FInf neg else FFin neg m' e'.

(** The value of the decimal literal [c * 10^e10] *)
Definition of_decimal (neg : bool) (c e10 : Z) : Float :=
  if c =? 0 then FFin neg 0 (-1074)
  else if 0 <=? e10 then of_ratio neg (c * 10 ^ e10) 1
  else of_ratio neg c (10 ^ (- e10)).

(** C [isspace]: what [float] strips on both sides of an ASCII string *)
Definition is_c_space (c : ascii) : bool :=
  let n := nat_of_ascii c in
  ((9 <=? n)%nat && (n <=? 13)%nat) || (n =? 32)%nat.

Fixpoint lstrip_c (s : string) : string :=
  match s with
  | EmptyString => EmptyString
  | String c r => if is_c_space c then lstrip_c r else s
  end.

Fixpoint rstrip_c (s : string) : string :=
  match s with
  | EmptyString => EmptyString
  | String c r =>
      match rstrip_c r with
      | EmptyString => if is_c_space c then EmptyString else String c EmptyString
      | r' => String c r'
      end
  end.

(** An underscore is accepted only between two digits, and dropped *)
Fixpoint drop_underscores (prev : ascii) (s : string) : option string :=
  match s with
  | EmptyString => if (prev =? "_")%char then None else Some EmptyString
  | String c r =>
      if (c =? "_")%char then
        if PyStr.is_digit prev then drop_underscores c r else None
      else if (prev =? "_")%char && negb (PyStr.is_digit c) then None
      else match drop_underscores c r with
           | Some r' => Some (String c r')
           | None => None
           end
  end.

Definition value_error (s : string) : exn :=
  mkExn ValueError ("could not convert string to float: '" ++ s ++ "'").

(** [float(s)] for a string *)
Definition of_string (s : string) : Res Float :=
  match drop_underscores "000" (rstrip_c (lstrip_c s)) with
  | None => Raise (value_error s)
  | Some s1 =>
      let (neg, r) := NumLit.take_sign s1 in
      let lr := PyStr.lower r in
      if (lr =? "inf")%string || (lr =? "infinity")%string then Ok (FInf neg)
      else if (lr =? "nan")%string then Ok FNaN
      else match NumLit.parse_number r with
           | Some (c, e) => Ok (of_decimal neg c e)
           | None => Raise (value_error s)
           end
  end.

Definition signed (neg : bool) (m : Z) : Z := if neg then - m else m.

(** Exact order of a finite float and an integer *)
Definition compare_fin_int (neg : bool) (m e : Z) (n : Z) : comparison :=
  if 0 <=? e then Z.compare (signed neg m * 2 ^ e) n
  else Z.compare (signed neg m) (n * 2 ^ (- e)).

Definition compare_fin_fin (n1 : bool) (m1 e1 : Z) (n2 : bool) (m2 e2 : Z)
  : comparison :=
  let k := Z.min e1 e2 in
  Z.compare (signed n1 m1 * 2 ^ (e1 - k)) (signed n2 m2 * 2 ^ (e2 - k)).

(** [x > y] for a float [x] and a number [y]; false on a NaN *)
Definition gt (x : Float) (y : PyNum) : bool :=
  match x, y with
  | FNaN, _ => false
  | _, NFloat FNaN => false
  | FInf s, NFloat (FInf s') => negb s && s'
  | FInf s, _ => negb s
  | FFin _ _ _, NFloat (FInf s') => s'
  | FFin s m e, NInt n =>
      match compare_fin_int s m e n with Gt => true | _ => false end
  | FFin s m e, NFloat (FFin s' m' e') =>
      match compare_fin_fin s m e s' m' e' with Gt => true | _ => false end
  end.

(** [f"{x:.2f}"] *)
Definition format_2f (x : Float) : string :=
  match x with
  | FNaN => "nan"
  | FInf s => if s then "-inf" else "inf"
  | FFin s m e =>
      let '(n, d) := scale (m * 100) 1 (- e) in
      let q := round_div n d in
      let frac := q mod 100 in
      (if s then "-" else "") ++ PyStr.str_of_nonneg (q / 100) ++ "."
      ++ PyStr.str_of_nonneg (frac / 10) ++ PyStr.str_of_nonneg (frac mod 10)
  end.

End PyFloat.

(** ** BeautifulSoup trees

    [Text] is a [NavigableString] (or CDATA), the strings [get_text]
    collects; [Special] stands for the other string nodes (comments,
    doctype, script and style contents), which [get_text] leaves out.
    Of the attributes only [class] is kept: the list of its values, or
    [None] when the tag has no such attribute. *)

Module Soup.

Inductive Node : Type :=
| Text (s : string)
| Special (s : string)
| Tag (name : string) (class : option (list string)) (children : list Node).

(** The root object: the top-level nodes of the document *)
Definition BeautifulSoup : Type := list Node.

(** The text of a page.  The parser is not modelled: a text stands for
    what [BeautifulSoup(html, "html.parser")] makes of it, the tree it
    builds or the exception it raises.  [html.parser] gives some markup
    up (in CPython 3.11 a marked section with an unknown keyword, such
    as [<![foo [bar]]>]), and bs4 reports it as [ParserRejectedMarkup];
    [reason] is the text of that exception. *)
Inductive Html : Type :=
| Parsed (soup : BeautifulSoup)
| Rejected (reason : string).

Definition parser_rejected_markup (reason : string) : exn :=
  mkExn (OtherException "ParserRejectedMarkup") reason.

(** [BeautifulSoup(html, "html.parser")] *)
Definition html_parser (html : Html) : Res BeautifulSoup :=
  match html with
  | Parsed soup => Ok soup
  | Rejected reason => Raise (parser_rejected_markup reason)
  end.

(** [tag.descendants]: document order, the node itself excluded *)
Fixpoint descendants (n : Node) : list Node :=
  match n with
  | Tag _ _ cs =>
      (fix go (l : list Node) : list Node :=
         match l with
         | [] => []
         | c :: r => c :: descendants c ++ go r
         end) cs
  | _ => []
  end.

Definition soup_descendants (soup : BeautifulSoup) : list Node :=
  flat_map (fun c => c :: descendants c) soup.

(** A searched [class_] matches one of the values of the attribute, or
    all of them joined by single spaces *)
Definition class_matches (wanted : string) (class : option (list string)) : bool :=
  match class with
  | None => false
  | Some vs =>
      existsb (String.eqb wanted) vs || (PyStr.join " " vs =? wanted)%string
  end.

Definition matches (name : string) (class_ : option string) (n : Node) : bool :=
  match n with
  | Tag nm cl _ =>
      (nm =? name)%string
      && match class_ with
         | None => true
         | Some wanted => class_matches wanted cl
         end
  | _ => false
  end.

(** [tag.find_all(name, class_=...)] and [tag.find(name, class_=...)] *)
Definition find_all (name : string) (class_ : option string) (n : Node)
  : list Node :=
  filter (matches name class_) (descendants n).

Definition find (name : string) (class_ : option string) (n : Node)
  : option Node :=
  match find_all name class_ n with
  | [] => None
  | x :: _ => Some x
  end.

Definition soup_find (name : string) (class_ : option string)
           (soup : BeautifulSoup) : option Node :=
  match filter (matches name class_) (soup_descendants soup) with
  | [] => None
  | x :: _ => Some x
  end.

(** The stripped, non-empty strings below a tag *)
Definition stripped_strings (n : Node) : list string :=
  flat_map (fun d => match d with
                     | Text s =>
                         match PyStr.strip s with
                         | EmptyString => []
                         | s' => [s']
                         end
                     | _ => []
                     end) (descendants n).

(** [tag.get_text(separator=sep, strip=True)] *)
Definition get_text (sep : string) (n : Node) : string :=
  PyStr.join sep (stripped_strings n).

End Soup.

(** [l[i]] on a list *)
Definition list_get {A} (l : list A) (i : nat) : Res A :=
  match nth_error l i with
  | Some x => Ok x
  | None => Raise (mkExn IndexError "list index out of range")
  end.

(** ** The extractor (the same text in both scraper scripts) *)

Module Extractor.
Import Soup PyFloat.

Definition container_class : string := "esgTile p-l-10 p-r-10".

(** [cell.find("span", class_="p-5").get_text(strip=True)]: the call on
    [None] raises [AttributeError] *)
Definition cell_symbol (cell : Node) : Res string :=
  match find "span" (Some "p-5") cell with
  | None =>
      Raise (mkExn AttributeError "'NoneType' object has no attribute 'get_text'")
  | Some sp => Ok (get_text "" sp)
  end.

(** [try: ... except AttributeError: continue], the other exceptions
    pass *)
Definition symbols_of (cells : list Node)
  : Res (option (string * string * string * string)) :=
  let body :=
    res_bind (list_get cells 0) (fun c0 =>
    res_bind (cell_symbol c0) (fun start_currency =>
    res_bind (list_get cells 1) (fun c1 =>
    res_bind (cell_symbol c1) (fun buy1 =>
    res_bind (list_get cells 3) (fun c3 =>
    res_bind (cell_symbol c3) (fun buy2 =>
    res_bind (list_get cells 5) (fun c5 =>
    res_bind (cell_symbol c5) (fun buy3 =>
    Ok (Some (start_currency, buy1, buy2, buy3)))))))))) in
  match body with
  | Raise (mkExn AttributeError _) => Ok None
  | r => r
  end.

(** [try: float(profit_text.split()[0]) except (ValueError, IndexError):
    continue] *)
Definition profit_of (profit_text : string) : Res (option Float) :=
  let body :=
    res_bind (list_get (PyStr.split_ws profit_text) 0) of_string in
  match body with
  | Ok v => Ok (Some v)
  | Raise (mkExn ValueError _) => Ok None
  | Raise (mkExn IndexError _) => Ok None
  | Raise e => Raise e
  end.

(** One turn of the loop over [rows[1:]]: the tuple appended, if any *)
Definition process_row (threshold : PyNum) (row : Node)
  : Res (option (string * Float)) :=
  let cells := find_all "td" None row in
  if (List.length cells <? 7)%nat then Ok None
  else
    res_bind (symbols_of cells) (fun syms =>
    match syms with
    | None => Ok None
    | Some (start_currency, buy1, buy2, buy3) =>
        if negb (PyStr.upper start_currency =? "USDT")%string then Ok None
        else
          let sequence :=
            start_currency ++ " -> " ++ buy1 ++ " -> " ++ buy2 ++ " -> " ++ buy3 in
          res_bind (list_get cells 6) (fun profit_td =>
          match find "div" (Some container_class) profit_td with
          | None => Ok None
          | Some profit_div =>
              let profit_text := get_text " " profit_div in
              res_bind (profit_of profit_text) (fun pv =>
              match pv with
              | None => Ok None
              | Some profit_value =>
                  if gt profit_value threshold
                  then Ok (Some (sequence, profit_value))
                  else Ok None
              end)
          end)
    end).

Fixpoint process_rows (threshold : PyNum) (rows : list Node)
  : Res (list (string * Float)) :=
  match rows with
  | [] => Ok []
  | row :: rest =>
      res_bind (process_row threshold row) (fun o =>
      res_bind (process_rows threshold rest) (fun l =>
      Ok (match o with Some x => x :: l | None => l end)))
  end.

(** [extract_opportunities(html, threshold)]: the parser is called
    outside every [try] *)
Definition extract_opportunities (html : Html) (threshold : PyNum)
  : M (list (string * Float)) :=
  soup <- lift (html_parser html) ;;
  match soup_find "div" (Some container_class) soup with
  | None => print "No container found." ;;; ret []
  | Some container =>
      match find "table" (Some "table") container with
      | None => print "No table found." ;;; ret []
      | Some table =>
          let rows := find_all "tr" None table in
          if (List.length rows <? 2)%nat
          then print "Not enough rows found." ;;; ret []
          else lift (process_rows threshold (tl rows))
      end
  end.

End Extractor.

(** ** Coroutines

    A coroutine is the tree of what it may do next.  [Do] is a stretch of
    synchronous code (it cannot be interleaved with other tasks); the
    other constructors are the points where the coroutine awaits:
    [session.get] entered (the status of the response, or the exception
    raised), [response.text()], [asyncio.sleep] (milliseconds), and the
    semaphore.  A page is the text of the response, which [fetch] hands
    on unparsed. *)

Module Asyncio.

Definition Page : Type := Soup.Html.

Inductive Task (A : Type) : Type :=
| Ret (a : A)
| Throw (e : exn)
| Do (m : M unit) (k : Res unit -> Task A)
| Get (url : string) (k : Res Z -> Task A)
| ReadText (k : Res Page -> Task A)
| Sleep (ms : Z) (k : Task A)
| Acquire (k : Task A)
| Release (k : Task A).
Arguments Ret {A} a.
Arguments Throw {A} e.
Arguments Do {A} m k.
Arguments Get {A} url k.
Arguments ReadText {A} k.
Arguments Sleep {A} ms k.
Arguments Acquire {A} k.
Arguments Release {A} k.

(** [x = await t; k(x)] *)
Fixpoint tbind {A B} (t : Task A) (k : A -> Task B) : Task B :=
  match t with
  | Ret a => k a
  | Throw e => Throw e
  | Do m c => Do m (fun r => tbind (c r) k)
  | Get u c => Get u (fun r => tbind (c r) k)
  | ReadText c => ReadText (fun r => tbind (c r) k)
  | Sleep ms c => Sleep ms (tbind c k)
  | Acquire c => Acquire (tbind c k)
  | Release c => Release (tbind c k)
  end.

(** Synchronous code whose exception, if any, ends the coroutine *)
Definition do_ {A} (m : M unit) (k : Task A) : Task A :=
  Do m (fun r => match r with Ok _ => k | Raise e => Throw e end).

(** Leaving an [async with sem:] block releases the semaphore, on a
    normal exit and on an exception alike *)
Fixpoint release_after {A} (t : Task A) : Task A :=
  match t with
  | Ret a => Release (Ret a)
  | Throw e => Release (Throw e)
  | Do m c => Do m (fun r => release_after (c r))
  | Get u c => Get u (fun r => release_after (c r))
  | ReadText c => ReadText (fun r => release_after (c r))
  | Sleep ms c => Sleep ms (release_after c)
  | Acquire c => Acquire (release_after c)
  | Release c => Release (release_after c)
  end.

(** [async with sem: body] *)
Definition async_with_sem {A} (body : Task A) : Task A :=
  Acquire (release_after body).

(** *** One coroutine run on its own

    The network is an oracle on what was awaited so far. *)

Inductive Await : Type :=
| AGet (url : string)
| AText
| ASleep (ms : Z)
| AAcquire
| ARelease.

Record Net : Type := mkNet {
  get_reply : list Await -> string -> Res Z;
  text_reply : list Await -> Res Page
}.

Fixpoint run {A} (t : Task A) (net : Net) (w : World) (tr : list Await)
  : Res A * World * list Await :=
  match t with
  | Ret a => (Ok a, w, tr)
  | Throw e => (Raise e, w, tr)
  | Do m k => let (r, w') := m w in run (k r) net w' tr
  | Get u k => run (k (get_reply net tr u)) net w (tr ++ [AGet u])
  | ReadText k => run (k (text_reply net tr)) net w (tr ++ [AText])
  | Sleep ms k => run k net w (tr ++ [ASleep ms])
  | Acquire k => run k net w (tr ++ [AAcquire])
  | Release k => run k net w (tr ++ [ARelease])
  end.

(** *** The event loop: [asyncio.gather] over the tasks of a cycle

    A slot is a task and whether it holds a permit of the semaphore.
    One step resumes one task up to its next point of suspension; the
    replies of the network are arbitrary.  [acquire] proceeds only when
    a permit is left. *)

Record Slot : Type := mkSlot { task : Task unit; holding : bool }.

Record Loop : Type := mkLoop { slots : list Slot; sem : Z; world : World }.

Inductive slot_step : Z -> World -> Slot -> Z -> World -> Slot -> Prop :=
| step_do s w m k h r w' :
    m w = (r, w') ->
    slot_step s w (mkSlot (Do m k) h) s w' (mkSlot (k r) h)
| step_get s w u k h r :
    slot_step s w (mkSlot (Get u k) h) s w (mkSlot (k r) h)
| step_text s w k h r :
    slot_step s w (mkSlot (ReadText k) h) s w (mkSlot (k r) h)
| step_sleep s w ms k h :
    slot_step s w (mkSlot (Sleep ms k) h) s w (mkSlot k h)
| step_acquire s w k h :
    0 < s ->
    slot_step s w (mkSlot (Acquire k) h) (s - 1) w (mkSlot k true)
| step_release s w k h :
    slot_step s w (mkSlot (Release k) h) (s + 1) w (mkSlot k false).

Inductive loop_step : Loop -> Loop -> Prop :=
| loop_step_at pre sl post s w s' w' sl' :
    slot_step s w sl s' w' sl' ->
    loop_step (mkLoop (pre ++ sl :: post) s w)
              (mkLoop (pre ++ sl' :: post) s' w').

(** A task awaiting inside [fetch]: a request, a body, or the pause
    before the next attempt *)
Definition in_fetch {A} (t : Task A) : bool :=
  match t with
  | Get _ _ | ReadText _ | Sleep _ _ => true
  | _ => false
  end.

Definition in_flight (l : Loop) : Z :=
  Z.of_nat (List.length (filter (fun sl => in_fetch (task sl)) (slots l))).

Definition finished {A} (t : Task A) : bool :=
  match t with
  | Ret _ => true
  | _ => false
  end.

End Asyncio.

(** ** What the two scrapers share *)

Module Scraper.
Import Asyncio.

(** The loop [for seq, profit in opportunities: print(...);
    verify_from_binance(seq)] *)
Fixpoint report_each (verify_from_binance : string -> M unit)
         (timestamp url : string)
         (opportunities : list (string * PyFloat.Float)) : M unit :=
  match opportunities with
  | [] => ret tt
  | (seq, profit) :: rest =>
      print (timestamp ++ " | Opportunity: " ++ seq ++ " | Profit Ratio: "
             ++ PyFloat.format_2f profit ++ "% | url: " ++ url) ;;;
      verify_from_binance seq ;;;
      report_each verify_from_binance timestamp url rest
  end.

(** [scrape_and_find] from the fetched page on: synchronous code.
    [timestamp] is what [datetime.now().strftime(...)] gives there. *)
Definition extract_and_verify (verify_from_binance : string -> M unit)
           (threshold : PyFloat.PyNum) (timestamp url : string)
           (html : Page) : M unit :=
  opportunities <- Extractor.extract_opportunities html threshold ;;
  report_each verify_from_binance timestamp url opportunities.

(** *** The process: [asyncio.run(main())] once the URLs are loaded

    [Polling]: inside [asyncio.gather]; [Pausing]: the cycle is over,
    in [asyncio.sleep(1)]; [Crashed]: an exception left a task, so
    [gather] raised it in [main], which does not catch it. *)
Inductive Process : Type :=
| Polling (l : Loop)
| Pausing (s : Z) (w : World)
| Crashed (e : exn).

Section MainLoop.
Variable scrape_and_find : string -> string -> Task unit.
Variable urls : list string.

(** [[scrape_and_find(..., url) for url in urls]]; each task reads the
    clock on its own *)
Definition spawn (timestamps : list string) : list Slot :=
  map (fun '(ts, url) => mkSlot (scrape_and_find ts url) false)
      (combine timestamps urls).

Inductive main_step : Process -> Process -> Prop :=
| main_resume l l' :
    loop_step l l' -> main_step (Polling l) (Polling l')
| main_raise l e h :
    In (mkSlot (Throw e) h) (slots l) ->
    main_step (Polling l) (Crashed e)
| main_gathered l :
    forallb (fun sl => finished (task sl)) (slots l) = true ->
    main_step (Polling l) (Pausing (sem l) (world l))
| main_next s w timestamps :
    List.length timestamps = List.length urls ->
    main_step (Pausing s w) (Polling (mkLoop (spawn timestamps) s w)).

Inductive reachable (p0 : Process) : Process -> Prop :=
| reach_start : reachable p0 p0
| reach_step p p' : reachable p0 p -> main_step p p' -> reachable p0 p'.
End MainLoop.

End Scraper.

(** ** The list of endpoints (the same text in both scraper scripts)

    [open(csv_file, newline='', encoding='utf-8')] and [csv.reader] are
    modelled by what they give: the file cannot be opened, or the reader
    yields rows, each the list of its fields (the empty list for a blank
    line), and then ends or raises (a byte that is not UTF-8, a
    [csv.Error]). *)

Module UrlList.

Inductive CsvFile : Type :=
| Unreadable (e : exn)
| Readable (rows : list (list string)) (failure : option exn).

Definition FileSystem : Type := string -> CsvFile.

(** [for row in reader: if row: urls.append(row[0].strip())] *)
Fixpoint read_rows (rows : list (list string)) (urls : list string)
  : list string :=
  match rows with
  | [] => urls
  | row :: rest =>
      match row with
      | [] => read_rows rest urls
      | field :: _ => read_rows rest (urls ++ [PyStr.strip field])
      end
  end.

(** [load_urls_from_csv(csv_file)]: the handler prints the exception, and
    the list as it was built so far is returned *)
Definition load_urls_from_csv (fs : FileSystem) (csv_file : string)
  : M (list string) :=
  match fs csv_file with
  | Unreadable e => print ("Error reading CSV file: " ++ exn_str e) ;;; ret []
  | Readable rows failure =>
      let urls := read_rows rows [] in
      match failure with
      | Some e => print ("Error reading CSV file: " ++ exn_str e) ;;; ret urls
      | None => ret urls
      end
  end.

(** How [main] begins: it returns at once, it enters the polling loop
    over [urls], or an exception leaves it before the loop *)
Inductive Startup : Type :=
| Exited (w : World)
| Looping (urls : list string) (p : Scraper.Process)
| Failed (e : exn).

End UrlList.

(** ** async_arb_verify.py *)

Module AsyncArbVerify.
Import Asyncio Scraper.

Definition PROFIT_THRESHOLD : Z := 1.

Definition verify_from_binance (client : Client) (sequence : string) : M unit :=
  res <- VerifyBinance.call_verify_triangular_opportunity client sequence
           [("starting_amount", 100)] ;;
  match res with
  | (PyNone, _) => ret tt
  | (PyDec _, PyNone) =>
      raise_ (mkExn TypeError
        "'>' not supported between instances of 'NoneType' and 'int'")
  | (PyDec _, PyDec arb_ratio) =>
      confirmed <- lift (PyDecimal.gt_int arb_ratio 1) ;;
      if (confirmed : bool)
      then print "Arbitrage opportunity confirmed!"
      else print "No arbitrage opportunity found on Binance."
  end.

(** One attempt; every exception gives [None] *)
Definition fetch (url : string) : Task (option Page) :=
  Get url (fun r =>
    match r with
    | Raise _ => Ret None
    | Ok status =>
        if negb (status =? 200) then
          Do (print ("Failed to retrieve URL " ++ url ++ ": "
                     ++ PyStr.str_of_int status))
             (fun _ => Ret None)
        else
          ReadText (fun t =>
            match t with
            | Ok html => Ret (Some html)
            | Raise _ => Ret None
            end)
    end).

Definition scrape_and_find (client : Client) (timestamp url : string)
  : Task unit :=
  tbind (fetch url) (fun html =>
    match html with
    | None => Ret tt
    | Some page =>
        do_ (extract_and_verify (verify_from_binance client)
               (PyFloat.NInt PROFIT_THRESHOLD) timestamp url page)
            (Ret tt)
    end).

(** [main] after the URLs are loaded: no semaphore is created *)
Definition start (client : Client) (urls timestamps : list string)
           (w : World) : Process :=
  Polling (mkLoop (spawn (scrape_and_find client) urls timestamps) 0 w).

Definition csv_file : string := "usdt_url_list.csv".

(** [main] up to the loop: the URLs to poll, or [None] when it returns *)
Definition startup (fs : UrlList.FileSystem) : M (option (list string)) :=
  urls <- UrlList.load_urls_from_csv fs csv_file ;;
  match urls with
  | [] => print "No URLs loaded from CSV." ;;; ret None
  | _ =>
      print "Starting arbitrage scraper (USDT sequences only)..." ;;;
      ret (Some urls)
  end.

(** [main]; [timestamps] are the clock readings of the first cycle, one
    for each URL.  Opening the [aiohttp.ClientSession] is taken not to
    fail. *)
Definition main (fs : UrlList.FileSystem) (client : Client)
           (timestamps : list string) (w : World) : UrlList.Startup :=
  match startup fs w with
  | (Ok (Some urls), w') => UrlList.Looping urls (start client urls timestamps w')
  | (Ok None, w') => UrlList.Exited w'
  | (Raise e, _) => UrlList.Failed e
  end.

End AsyncArbVerify.

(** ** main_check_macro_verify.py *)

Module MainCheckMacroVerify.
Import Asyncio Scraper.

Definition PROFIT_THRESHOLD_MACROAXIS : Z := 1.
Definition PROFIT_THRESHOLD_FOR_BINANCE : Z := 1.
Definition CONCURRENCY_LIMIT : Z := 50.
Definition MAX_RETRIES : nat := 3.
Definition BACKOFF_MS : Z := 500.

(** The call passes a keyword the function does not have; the pair it
    would return is unpacked and dropped *)
Definition verify_from_binance (client : Client) (sequence : string) : M unit :=
  res <- VerifyBinance.call_verify_triangular_opportunity client sequence
           [("starting_amount", 100);
            ("PROFIT_THRESHOLD_VEIRFY", PROFIT_THRESHOLD_FOR_BINANCE)] ;;
  let '(final_usdt, arb_ratio) := (res : PyVal * PyVal) in
  ret tt.

Definition failed_msg (url : string) (status attempt : Z) : string :=
  "Failed to retrieve URL " ++ url ++ " (Status: " ++ PyStr.str_of_int status
  ++ ") on attempt " ++ PyStr.str_of_int attempt.

Definition error_msg (url : string) (attempt : Z) (e : exn) : string :=
  "Error fetching " ++ url ++ " on attempt " ++ PyStr.str_of_int attempt
  ++ ": " ++ exn_str e.

(** [for attempt in range(attempt, attempt + left)]: an attempt that
    fails is reported and followed by [asyncio.sleep(0.5)] *)
Fixpoint fetch_from (left : nat) (attempt : Z) (url : string)
  : Task (option Page) :=
  match left with
  | O => Ret None
  | S left' =>
      let retry (msg : string) : Task (option Page) :=
        do_ (print msg) (Sleep BACKOFF_MS (fetch_from left' (attempt + 1) url)) in
      Get url (fun r =>
        match r with
        | Raise e => retry (error_msg url attempt e)
        | Ok status =>
            if negb (status =? 200) then retry (failed_msg url status attempt)
            else
              ReadText (fun t =>
                match t with
                | Ok html => Ret (Some html)
                | Raise e => retry (error_msg url attempt e)
                end)
        end)
  end.

Definition fetch (url : string) : Task (option Page) :=
  fetch_from MAX_RETRIES 1 url.

Definition scrape_and_find (client : Client) (timestamp url : string)
  : Task unit :=
  tbind (async_with_sem (fetch url)) (fun html =>
    match html with
    | None => Ret tt
    | Some page =>
        do_ (extract_and_verify (verify_from_binance client)
               (PyFloat.NInt PROFIT_THRESHOLD_MACROAXIS) timestamp url page)
            (Ret tt)
    end).

(** [main] after the URLs are loaded:
    [sem = asyncio.Semaphore(CONCURRENCY_LIMIT)] *)
Definition start (client : Client) (urls timestamps : list string)
           (w : World) : Process :=
  Polling (mkLoop (spawn (scrape_and_find client) urls timestamps)
                  CONCURRENCY_LIMIT w).

Definition csv_file : string := "usdt_url_list.csv".

(** [main] up to the loop: the URLs to poll, or [None] when it returns *)
Definition startup (fs : UrlList.FileSystem) : M (option (list string)) :=
  urls <- UrlList.load_urls_from_csv fs csv_file ;;
  match urls with
  | [] => print "No URLs loaded from CSV." ;;; ret None
  | _ =>
      print ("Loaded " ++ PyStr.str_of_int (Z.of_nat (List.length urls))
             ++ " URLs. Starting asynchronous scraping (USDT sequences only)...") ;;;
      ret (Some urls)
  end.

(** [main]; [timestamps] are the clock readings of the first cycle, one
    for each URL.  Opening the [aiohttp.ClientSession] is taken not to
    fail. *)
Definition main (fs : UrlList.FileSystem) (client : Client)
           (timestamps : list string) (w : World) : UrlList.Startup :=
  match startup fs w with
  | (Ok (Some urls), w') => UrlList.Looping urls (start client urls timestamps w')
  | (Ok None, w') => UrlList.Exited w'
  | (Raise e, _) => UrlList.Failed e
  end.

End MainCheckMacroVerify.

(** ** Vocabulary of the statements *)

(** The price a leg reads: the ticker of [symbol], asked after [asked],
    its [field] converted by [Decimal] *)
Definition quote (client : Client) (asked : list string)
           (symbol field : string) : Res PyDecimal.Decimal :=
  res_bind (client asked symbol) (fun ticker =>
  res_bind (dict_get field ticker) PyDecimal.of_string).

(** [not (d <= 0)], the comparison not raising *)
Definition above_zero (d : PyDecimal.Decimal) : Prop :=
  PyDecimal.le_int d 0 = Ok false.

(** [d <= 0] *)
Definition at_most_zero (d : PyDecimal.Decimal) : Prop :=
  PyDecimal.le_int d 0 = Ok true.

(** [d.quantize(...)] to [places] fractional digits does not raise *)
Definition shown (places : Z) (d : PyDecimal.Decimal) : Prop :=
  exists q, PyDecimal.quantize d (- places) = Ok q.

Definition returned {A} (x : Res A * World) : Res A := fst x.
Definition looked_up {A} (x : Res A * World) : list string := lookups (snd x).
Definition printed {A} (x : Res A * World) : list string := stdout (snd x).

Definition empty_world : World := mkWorld [] [].

(** The quotes of the worked example *)
Definition example_client : Client :=
  fun _ symbol =>
    if (symbol =? "GALAUSDT")%string then Ok [("askPrice", "0.05")]
    else if (symbol =? "GALABTC")%string then Ok [("bidPrice", "0.0000008")]
    else if (symbol =? "BTCUSDT")%string then Ok [("bidPrice", "60000")]
    else Raise (mkExn (OtherException "BinanceAPIException")
                      "APIError(code=-1121): Invalid symbol.").

(** The same with one price replaced *)
Definition client_with (symbol field price : string) : Client :=
  fun asked s =>
    if (s =? symbol)%string then Ok [(field, price)] else example_client asked s.

(** ** The verifier *)

Section VerifierFacts.
Import PyDecimal VerifyBinance.
Variable client : Client.

Lemma quote_lookup asked symbol field p :
  quote client asked symbol field = Ok p ->
  exists ticker,
    client asked symbol = Ok ticker
    /\ res_bind (dict_get field ticker) of_string = Ok p.
Proof.
  unfold quote. destruct (client asked symbol) as [t|e]; simpl; [|discriminate].
  intros H. exists t. split; [reflexivity|exact H].
Qed.

Lemma well_formed_guard start mid end_ :
  negb (Nat.eqb (List.length [start; mid; end_; start]) 4)
  || negb (String.eqb (hd "" [start; mid; end_; start])
                      (last [start; mid; end_; start] "")) = false.
Proof. simpl. rewrite String.eqb_refl. reflexivity. Qed.

Lemma shown_q8 d : shown 8 d -> exists s, q8 d = fun w => (Ok s, w).
Proof.
  intros [q Hq]. unfold q8, lift. simpl Z.opp in Hq. rewrite Hq.
  simpl. eexists. reflexivity.
Qed.

Lemma shown_q4 d : shown 4 d -> exists s, q4 d = fun w => (Ok s, w).
Proof.
  intros [q Hq]. unfold q4, lift. simpl Z.opp in Hq. rewrite Hq.
  simpl. eexists. reflexivity.
Qed.

End VerifierFacts.

(** *** Running the monad step by step *)

Lemma bind_ret {A B} (a : A) (k : A -> M B) w : bind (ret a) k w = k a w.
Proof. reflexivity. Qed.

Lemma bind_lift_ok {A B} (r : Res A) (a : A) (k : A -> M B) w :
  r = Ok a -> bind (lift r) k w = k a w.
Proof. intros ->. reflexivity. Qed.

Lemma bind_lift_raise {A B} (r : Res A) e (k : A -> M B) w :
  r = Raise e -> bind (lift r) k w = (Raise e, w).
Proof. intros ->. reflexivity. Qed.

Lemma bind_print {B} line (k : unit -> M B) w :
  bind (print line) k w
  = k tt {| lookups := lookups w; stdout := stdout w ++ [line] |}.
Proof. reflexivity. Qed.

Lemma bind_lookup_ok {B} client symbol ticker (k : Ticker -> M B) w :
  client (lookups w) symbol = Ok ticker ->
  bind (get_orderbook_ticker client symbol) k w
  = k ticker {| lookups := lookups w ++ [symbol]; stdout := stdout w |}.
Proof. intros H. unfold bind, get_orderbook_ticker. rewrite H. reflexivity. Qed.

Lemma bind_q8 {B} d s (k : string -> M B) w :
  VerifyBinance.q8 d = (fun w => (Ok s, w)) ->
  bind (VerifyBinance.q8 d) k w = k s w.
Proof. intros H. unfold bind. rewrite H. reflexivity. Qed.

Lemma bind_q4 {B} d s (k : string -> M B) w :
  VerifyBinance.q4 d = (fun w => (Ok s, w)) ->
  bind (VerifyBinance.q4 d) k w = k s w.
Proof. intros H. unfold bind. rewrite H. reflexivity. Qed.

Ltac exec_step :=
  first
    [ rewrite bind_print
    | rewrite bind_ret
    | erewrite bind_lookup_ok by (cbn [lookups stdout]; eassumption)
    | erewrite bind_lift_ok by eassumption
    | erewrite bind_q8 by eassumption
    | erewrite bind_q4 by eassumption ];
  cbn [lookups stdout].

Ltac exec := repeat exec_step.

Section VerifierPaths.
Import PyDecimal VerifyBinance.
Variable client : Client.
Variables (sequence start mid end_ : string) (n : Z) (w : World).
Hypothesis well_formed : parse_sequence sequence = [start; mid; end_; start].

Let run := verify_triangular_opportunity client sequence n w.

(** All three legs valid and every line of the breakdown printable *)
Lemma success_path p1 p2 p3 a1 a2 f r :
  quote client (lookups w) (mid ++ start) "askPrice" = Ok p1 ->
  above_zero p1 ->
  quote client (app (lookups w) [mid ++ start]) (mid ++ end_) "bidPrice"
    = Ok p2 ->
  above_zero p2 ->
  quote client (app (lookups w) [mid ++ start; mid ++ end_])
        (end_ ++ start) "bidPrice" = Ok p3 ->
  above_zero p3 ->
  div (of_int n) p1 = Ok a1 ->
  mul a1 p2 = Ok a2 ->
  mul a2 p3 = Ok f ->
  div f (of_int n) = Ok r ->
  shown 8 p1 -> shown 8 p2 -> shown 8 p3 ->
  shown 8 a1 -> shown 8 a2 -> shown 8 f -> shown 4 r ->
  exists lines,
    run = (Ok (PyDec f, PyDec r),
           {| lookups := app (lookups w)
                           [mid ++ start; mid ++ end_; end_ ++ start];
              stdout := app (stdout w) lines |}).
Proof.
  intros Hq1 Hpos1 Hq2 Hpos2 Hq3 Hpos3 Ha1 Ha2 Hf Hr S1 S2 S3 S4 S5 S6 S7.
  destruct (quote_lookup _ _ _ _ _ Hq1) as (t1 & Hc1 & Hd1).
  destruct (quote_lookup _ _ _ _ _ Hq2) as (t2 & Hc2 & Hd2).
  destruct (quote_lookup _ _ _ _ _ Hq3) as (t3 & Hc3 & Hd3).
  destruct (shown_q8 _ S1) as [s1 E1]. destruct (shown_q8 _ S2) as [s2 E2].
  destruct (shown_q8 _ S3) as [s3 E3]. destruct (shown_q8 _ S4) as [s4 E4].
  destruct (shown_q8 _ S5) as [s5 E5]. destruct (shown_q8 _ S6) as [s6 E6].
  destruct (shown_q4 _ S7) as [s7 E7].
  unfold above_zero in *.
  assert (Hc3' : client (app (app (lookups w) [mid ++ start]) [mid ++ end_])
                        (end_ ++ start) = Ok t3)
    by (rewrite <- app_assoc; exact Hc3).
  subst run.
  unfold verify_triangular_opportunity, try_except, verify_body.
  rewrite well_formed, well_formed_guard.
  exec. unfold ret.
  rewrite <- !app_assoc. simpl app.
  eexists. reflexivity.
Qed.

(** The same without asking that the breakdown be printable: a figure
    that [quantize] refuses raises inside the [try] block, after the
    three lookups, and the pair is then [(None, None)] *)
Lemma q8_cases d :
  (exists s, q8 d = fun w0 => (Ok s, w0))
  \/ (exists e, q8 d = fun w0 => (Raise e, w0)).
Proof.
  unfold q8, lift. destruct (quantize d (-8)); cbn [res_bind]; eauto.
Qed.

Lemma q4_cases d :
  (exists s, q4 d = fun w0 => (Ok s, w0))
  \/ (exists e, q4 d = fun w0 => (Raise e, w0)).
Proof.
  unfold q4, lift. destruct (quantize d (-4)); cbn [res_bind]; eauto.
Qed.

Lemma bind_q_raise {B} (q : M string) e (k : string -> M B) w0 :
  q = (fun w1 => (Raise e, w1)) -> bind q k w0 = (Raise e, w0).
Proof. intros ->. reflexivity. Qed.

Lemma arithmetic_path p1 p2 p3 a1 a2 f r :
  quote client (lookups w) (mid ++ start) "askPrice" = Ok p1 ->
  above_zero p1 ->
  quote client (app (lookups w) [mid ++ start]) (mid ++ end_) "bidPrice"
    = Ok p2 ->
  above_zero p2 ->
  quote client (app (lookups w) [mid ++ start; mid ++ end_])
        (end_ ++ start) "bidPrice" = Ok p3 ->
  above_zero p3 ->
  div (of_int n) p1 = Ok a1 ->
  mul a1 p2 = Ok a2 ->
  mul a2 p3 = Ok f ->
  div f (of_int n) = Ok r ->
  exists v lines,
    run = (Ok v,
           {| lookups := app (lookups w)
                           [mid ++ start; mid ++ end_; end_ ++ start];
              stdout := app (stdout w) lines |})
    /\ (v = (PyDec f, PyDec r) \/ v = (PyNone, PyNone)).
Proof.
  intros Hq1 Hpos1 Hq2 Hpos2 Hq3 Hpos3 Ha1 Ha2 Hf Hr.
  destruct (quote_lookup _ _ _ _ _ Hq1) as (t1 & Hc1 & Hd1).
  destruct (quote_lookup _ _ _ _ _ Hq2) as (t2 & Hc2 & Hd2).
  destruct (quote_lookup _ _ _ _ _ Hq3) as (t3 & Hc3 & Hd3).
  unfold above_zero in *.
  assert (Hc3' : client (app (app (lookups w) [mid ++ start]) [mid ++ end_])
                        (end_ ++ start) = Ok t3)
    by (rewrite <- app_assoc; exact Hc3).
  subst run.
  unfold verify_triangular_opportunity, try_except, verify_body.
  rewrite well_formed, well_formed_guard.
  exec.
  repeat
    (match goal with
     | |- context [bind (q8 ?d) _ _] =>
         destruct (q8_cases d) as [[? E] | [? E]];
         [ erewrite bind_q8 by exact E; clear E
         | erewrite bind_q_raise by exact E;
           eexists _, _; cbn [print bind ret lookups stdout];
           rewrite <- !app_assoc; split; [reflexivity | right; reflexivity] ]
     | |- context [bind (q4 ?d) _ _] =>
         destruct (q4_cases d) as [[? E] | [? E]];
         [ erewrite bind_q4 by exact E; clear E
         | erewrite bind_q_raise by exact E;
           eexists _, _; cbn [print bind ret lookups stdout];
           rewrite <- !app_assoc; split; [reflexivity | right; reflexivity] ]
     end; exec).
  unfold ret. eexists _, _. rewrite <- !app_assoc.
  split; [reflexivity | left; reflexivity].
Qed.

(** Leg 1 rejected *)
Lemma leg1_rejected p1 :
  quote client (lookups w) (mid ++ start) "askPrice" = Ok p1 ->
  at_most_zero p1 ->
  run = (Ok (PyNone, PyNone),
         {| lookups := app (lookups w) [mid ++ start];
            stdout := app (stdout w) ["Invalid ask price for ACHUSDT."] |}).
Proof.
  intros Hq1 Hneg1.
  destruct (quote_lookup _ _ _ _ _ Hq1) as (t1 & Hc1 & Hd1).
  unfold at_most_zero in *. subst run.
  unfold verify_triangular_opportunity, try_except, verify_body.
  rewrite well_formed, well_formed_guard.
  exec. reflexivity.
Qed.

(** Leg 2 rejected *)
Lemma leg2_rejected p1 a1 p2 :
  quote client (lookups w) (mid ++ start) "askPrice" = Ok p1 ->
  above_zero p1 ->
  div (of_int n) p1 = Ok a1 ->
  quote client (app (lookups w) [mid ++ start]) (mid ++ end_) "bidPrice"
    = Ok p2 ->
  at_most_zero p2 ->
  run = (Ok (PyNone, PyNone),
         {| lookups := app (lookups w) [mid ++ start; mid ++ end_];
            stdout := app (stdout w)
                        ["Invalid bid price for " ++ (mid ++ end_) ++ "."] |}).
Proof.
  intros Hq1 Hpos1 Ha1 Hq2 Hneg2.
  destruct (quote_lookup _ _ _ _ _ Hq1) as (t1 & Hc1 & Hd1).
  destruct (quote_lookup _ _ _ _ _ Hq2) as (t2 & Hc2 & Hd2).
  unfold at_most_zero, above_zero in *. subst run.
  unfold verify_triangular_opportunity, try_except, verify_body.
  rewrite well_formed, well_formed_guard.
  exec. rewrite <- !app_assoc. reflexivity.
Qed.

(** Leg 3 rejected *)
Lemma leg3_rejected p1 a1 p2 a2 p3 :
  quote client (lookups w) (mid ++ start) "askPrice" = Ok p1 ->
  above_zero p1 ->
  div (of_int n) p1 = Ok a1 ->
  quote client (app (lookups w) [mid ++ start]) (mid ++ end_) "bidPrice"
    = Ok p2 ->
  above_zero p2 ->
  mul a1 p2 = Ok a2 ->
  quote client (app (lookups w) [mid ++ start; mid ++ end_])
        (end_ ++ start) "bidPrice" = Ok p3 ->
  at_most_zero p3 ->
  run = (Ok (PyNone, PyNone),
         {| lookups := app (lookups w)
                         [mid ++ start; mid ++ end_; end_ ++ start];
            stdout := app (stdout w)
                        ["Invalid bid price for " ++ (end_ ++ start) ++ "."] |}).
Proof.
  intros Hq1 Hpos1 Ha1 Hq2 Hpos2 Ha2 Hq3 Hneg3.
  destruct (quote_lookup _ _ _ _ _ Hq1) as (t1 & Hc1 & Hd1).
  destruct (quote_lookup _ _ _ _ _ Hq2) as (t2 & Hc2 & Hd2).
  destruct (quote_lookup _ _ _ _ _ Hq3) as (t3 & Hc3 & Hd3).
  assert (Hc3' : client (app (app (lookups w) [mid ++ start]) [mid ++ end_])
                        (end_ ++ start) = Ok t3)
    by (rewrite <- app_assoc; exact Hc3).
  unfold at_most_zero, above_zero in *. subst run.
  unfold verify_triangular_opportunity, try_except, verify_body.
  rewrite well_formed, well_formed_guard.
  exec. rewrite <- !app_assoc. reflexivity.
Qed.

End VerifierPaths.

Section VerifierTotal.
Import PyDecimal VerifyBinance.
Variable client : Client.

(** The guard of line 33 *)
Definition malformed (sequence : string) : Prop :=
  let parts := parse_sequence sequence in
  List.length parts <> 4%nat \/ hd "" parts <> last parts "".

Lemma malformed_guard sequence :
  malformed sequence ->
  negb (Nat.eqb (List.length (parse_sequence sequence)) 4)
  || negb (String.eqb (hd "" (parse_sequence sequence))
                      (last (parse_sequence sequence) "")) = true.
Proof.
  unfold malformed. intros [H | H].
  - apply Nat.eqb_neq in H. rewrite H. reflexivity.
  - apply String.eqb_neq in H. rewrite H. apply orb_true_r.
Qed.

Lemma malformed_rejected sequence n w :
  malformed sequence ->
  verify_triangular_opportunity client sequence n w
  = (Ok (PyNone, PyNone),
     {| lookups := lookups w;
        stdout := app (stdout w) [invalid_format_msg] |}).
Proof.
  intros H. unfold verify_triangular_opportunity, try_except, verify_body.
  rewrite (malformed_guard _ H). reflexivity.
Qed.

(** An exception raised anywhere in the [try] block *)
Lemma exception_caught sequence n w e w' :
  verify_body client sequence n w = (Raise e, w') ->
  verify_triangular_opportunity client sequence n w
  = (Ok (PyNone, PyNone),
     {| lookups := lookups w';
        stdout := app (stdout w')
          ["Error verifying triangular opportunity for sequence '"
           ++ sequence ++ "': " ++ exn_str e] |}).
Proof.
  intros H. unfold verify_triangular_opportunity, try_except.
  rewrite H. reflexivity.
Qed.

(** What a computation returns when it returns *)
Definition returns {A} (P : A -> Prop) (m : M A) : Prop :=
  forall w v w', m w = (Ok v, w') -> P v.

Lemma returns_ret {A} (P : A -> Prop) a : P a -> returns P (ret a).
Proof. intros H w v w' E. inversion E. subst. exact H. Qed.

Lemma returns_raise {A} (P : A -> Prop) e : returns P (raise_ e).
Proof. intros w v w' E. discriminate. Qed.

Lemma returns_bind {A B} (P : B -> Prop) (m : M A) (k : A -> M B) :
  (forall a, returns P (k a)) -> returns P (bind m k).
Proof.
  intros H w v w' E. unfold bind in E.
  destruct (m w) as [[a|e] w1]; [|discriminate].
  exact (H a w1 v w' E).
Qed.

Lemma returns_if {A} (P : A -> Prop) (b : bool) (x y : M A) :
  returns P x -> returns P y -> returns P (if b then x else y).
Proof. destruct b; auto. Qed.

Definition none_or_decimals (v : PyVal * PyVal) : Prop :=
  v = (PyNone, PyNone) \/ exists f r, v = (PyDec f, PyDec r).

Lemma body_returns sequence n :
  returns none_or_decimals (verify_body client sequence n).
Proof.
  unfold verify_body.
  apply returns_if.
  - apply returns_bind. intros _. apply returns_ret. left. reflexivity.
  - destruct (parse_sequence sequence) as [|start [|mid [|end_ [|final [|x l]]]]];
      try apply returns_raise.
    repeat first
      [ apply returns_bind; intros ?
      | apply returns_if
      | apply returns_ret; first [ left; reflexivity | right; eauto ] ].
Qed.

(** The function never raises, and returns [(None, None)] or a pair of
    decimals *)
Lemma verify_total sequence n w :
  exists v w',
    verify_triangular_opportunity client sequence n w = (Ok v, w')
    /\ none_or_decimals v.
Proof.
  unfold verify_triangular_opportunity, try_except.
  destruct (verify_body client sequence n w) as [[v|e] w'] eqn:E.
  - exists v, w'. split; [reflexivity|]. exact (body_returns _ _ _ _ _ E).
  - eexists _, _. split; [reflexivity|]. left. reflexivity.
Qed.

End VerifierTotal.

(** *** What the verifier guarantees *)

Definition example_sequence : string := "USDT -> GALA -> BTC -> USDT".

(** C1. For a sequence that parses to [start, mid, end, start] and a
    positive starting amount, with the three quotes present and positive,
    no operation raising and every figure of the breakdown printable,
    [verify_triangular_opportunity] asks for [mid+start], [mid+end] and
    [end+start] in this order and returns
    [final = ((amount / ask(mid+start)) * bid(mid+end)) * bid(end+start)]
    together with [ratio = final / amount], all in the context's decimal
    arithmetic.  Whether or not the breakdown is printable, the three
    lookups are made and nothing but this pair or [(None, None)] is
    returned.  On the worked example (GALAUSDT ask 0.05, GALABTC bid
    0.0000008, BTCUSDT bid 60000, amount 100) the legs are 2000, 0.0016
    and 96, the ratio is 0.96, and the scraper reports "No arbitrage
    opportunity found on Binance." *)
Theorem verify_computes_three_legs :
  (forall client sequence start mid end_ n w p1 p2 p3 a1 a2 f r,
     VerifyBinance.parse_sequence sequence = [start; mid; end_; start] ->
     0 < n ->
     quote client (lookups w) (mid ++ start) "askPrice" = Ok p1 ->
     above_zero p1 ->
     quote client (app (lookups w) [mid ++ start]) (mid ++ end_) "bidPrice"
       = Ok p2 ->
     above_zero p2 ->
     quote client (app (lookups w) [mid ++ start; mid ++ end_])
           (end_ ++ start) "bidPrice" = Ok p3 ->
     above_zero p3 ->
     PyDecimal.div (PyDecimal.of_int n) p1 = Ok a1 ->
     PyDecimal.mul a1 p2 = Ok a2 ->
     PyDecimal.mul a2 p3 = Ok f ->
     PyDecimal.div f (PyDecimal.of_int n) = Ok r ->
     shown 8 p1 -> shown 8 p2 -> shown 8 p3 ->
     shown 8 a1 -> shown 8 a2 -> shown 8 f -> shown 4 r ->
     let out := VerifyBinance.verify_triangular_opportunity client sequence n w in
     returned out = Ok (PyDec f, PyDec r)
     /\ looked_up out
        = app (lookups w) [mid ++ start; mid ++ end_; end_ ++ start])
  /\ (forall client sequence start mid end_ n w p1 p2 p3 a1 a2 f r,
        VerifyBinance.parse_sequence sequence = [start; mid; end_; start] ->
        0 < n ->
        quote client (lookups w) (mid ++ start) "askPrice" = Ok p1 ->
        above_zero p1 ->
        quote client (app (lookups w) [mid ++ start]) (mid ++ end_) "bidPrice"
          = Ok p2 ->
        above_zero p2 ->
        quote client (app (lookups w) [mid ++ start; mid ++ end_])
              (end_ ++ start) "bidPrice" = Ok p3 ->
        above_zero p3 ->
        PyDecimal.div (PyDecimal.of_int n) p1 = Ok a1 ->
        PyDecimal.mul a1 p2 = Ok a2 ->
        PyDecimal.mul a2 p3 = Ok f ->
        PyDecimal.div f (PyDecimal.of_int n) = Ok r ->
        let out :=
          VerifyBinance.verify_triangular_opportunity client sequence n w in
        (returned out = Ok (PyDec f, PyDec r)
         \/ returned out = Ok (PyNone, PyNone))
        /\ looked_up out
           = app (lookups w) [mid ++ start; mid ++ end_; end_ ++ start])
  /\ (let out :=
        VerifyBinance.verify_triangular_opportunity
          example_client example_sequence 100 empty_world in
      let leg1 := PyDecimal.Fin false 20 2 in
      let leg2 := PyDecimal.Fin false 160 (-5) in
      let final := PyDecimal.Fin false 9600000 (-5) in
      let ratio := PyDecimal.Fin false 96000 (-5) in
      PyDecimal.div (PyDecimal.of_int 100) (PyDecimal.Fin false 5 (-2)) = Ok leg1
      /\ PyDecimal.mul leg1 (PyDecimal.Fin false 8 (-7)) = Ok leg2
      /\ PyDecimal.mul leg2 (PyDecimal.Fin false 60000 0) = Ok final
      /\ PyDecimal.div final (PyDecimal.of_int 100) = Ok ratio
      /\ returned out = Ok (PyDec final, PyDec ratio)
      /\ PyDecimal.dec_eqb leg1 (PyDecimal.of_int 2000) = true
      /\ PyDecimal.dec_eqb leg2 (PyDecimal.Fin false 16 (-4)) = true
      /\ PyDecimal.dec_eqb final (PyDecimal.of_int 96) = true
      /\ PyDecimal.dec_eqb ratio (PyDecimal.Fin false 96 (-2)) = true
      /\ PyDecimal.gt_int ratio 1 = Ok false
      /\ AsyncArbVerify.verify_from_binance example_client example_sequence
           empty_world
         = (Ok tt,
            {| lookups := ["GALAUSDT"; "GALABTC"; "BTCUSDT"];
               stdout :=
                 ["1st Pair - GALAUSDT and price is - 0.05000000";
                  "2nd Pair - GALABTC and price is - 8.0E-7";
                  "3rd Pair - BTCUSDT and price is - 60000.00000000";
                  "--- Verification for sequence: USDT -> GALA -> BTC -> USDT ---";
                  "Starting with 100 USDT";
                  "Leg 1: Buy GALA using USDT: 100 / 0.05000000 = 2000.00000000 GALA";
                  "Leg 2: Sell GALA for BTC: 2000.00000000 * 8.0E-7 = 0.00160000 BTC";
                  "Leg 3: Sell BTC for USDT: 0.00160000 * 60000.00000000 = 96.00000000 USDT";
                  "Arbitrage Ratio: 0.9600";
                  "No arbitrage opportunity found on Binance."] |})).
Proof.
  split; [|split].
  - intros client sequence start mid end_ n w p1 p2 p3 a1 a2 f r
      Hp _ Hq1 Hpos1 Hq2 Hpos2 Hq3 Hpos3 Ha1 Ha2 Hf Hr S1 S2 S3 S4 S5 S6 S7.
    destruct (success_path client sequence start mid end_ n w Hp
                p1 p2 p3 a1 a2 f r Hq1 Hpos1 Hq2 Hpos2 Hq3 Hpos3
                Ha1 Ha2 Hf Hr S1 S2 S3 S4 S5 S6 S7) as [lines E].
    cbv zeta. rewrite E. split; reflexivity.
  - intros client sequence start mid end_ n w p1 p2 p3 a1 a2 f r
      Hp _ Hq1 Hpos1 Hq2 Hpos2 Hq3 Hpos3 Ha1 Ha2 Hf Hr.
    destruct (arithmetic_path client sequence start mid end_ n w Hp
                p1 p2 p3 a1 a2 f r Hq1 Hpos1 Hq2 Hpos2 Hq3 Hpos3
                Ha1 Ha2 Hf Hr) as (v & lines & E & V).
    cbv zeta. rewrite E. unfold returned, looked_up. cbn [fst snd lookups].
    split; [|reflexivity]. destruct V as [-> | ->]; [left|right]; reflexivity.
  - cbv zeta. repeat split; vm_compute; reflexivity.
Qed.

Lemma verify_computes_three_legs_witness :
  let out :=
    VerifyBinance.verify_triangular_opportunity
      example_client example_sequence 100 empty_world in
  returned out
  = Ok (PyDec (PyDecimal.Fin false 9600000 (-5)),
        PyDec (PyDecimal.Fin false 96000 (-5)))
  /\ looked_up out = ["GALAUSDT"; "GALABTC"; "BTCUSDT"].
Proof.
  apply (proj1 verify_computes_three_legs
           example_client example_sequence "USDT" "GALA" "BTC" 100 empty_world
           (PyDecimal.Fin false 5 (-2)) (PyDecimal.Fin false 8 (-7))
           (PyDecimal.Fin false 60000 0)
           (PyDecimal.Fin false 20 2) (PyDecimal.Fin false 160 (-5)));
    try reflexivity; try (eexists; vm_compute; reflexivity).
Defined.

(** C7. A sequence that does not split into exactly four parts with the
    first equal to the last makes [verify_triangular_opportunity] print
    the invalid-format line and return [(None, None)]: no quote is asked
    for and no exception is raised. *)
Theorem malformed_cycle_is_rejected client sequence n w :
  malformed sequence ->
  VerifyBinance.verify_triangular_opportunity client sequence n w
  = (Ok (PyNone, PyNone),
     {| lookups := lookups w;
        stdout := app (stdout w) [VerifyBinance.invalid_format_msg] |}).
Proof.
  intros H.
  unfold VerifyBinance.verify_triangular_opportunity, try_except,
    VerifyBinance.verify_body.
  rewrite (malformed_guard sequence H).
  cbn [bind print ret]. reflexivity.
Qed.

Lemma malformed_cycle_is_rejected_witness :
  VerifyBinance.verify_triangular_opportunity
    example_client "USDT -> GALA -> BTC" 100 empty_world
  = (Ok (PyNone, PyNone),
     {| lookups := [];
        stdout := ["Invalid sequence format. Must be like 'USDT -> ACH -> BTC -> USDT'"] |})
  /\ VerifyBinance.verify_triangular_opportunity
       example_client "USDT -> GALA -> BTC -> ETH" 100 empty_world
     = (Ok (PyNone, PyNone),
        {| lookups := [];
           stdout := ["Invalid sequence format. Must be like 'USDT -> ACH -> BTC -> USDT'"] |}).
Proof.
  split.
  - apply (malformed_cycle_is_rejected example_client "USDT -> GALA -> BTC"
             100 empty_world).
    left. vm_compute. discriminate.
  - apply (malformed_cycle_is_rejected example_client
             "USDT -> GALA -> BTC -> ETH" 100 empty_world).
    right. vm_compute. discriminate.
Defined.

(** C6, as the code has it.  When the price a leg reads is [<= 0] (the
    legs before it valid and their amounts computed), the function
    returns [(None, None)], the same pair whichever the leg, and the
    quotes asked for are those of the legs up to this one: nothing of a
    later leg is looked up.  For legs 2 and 3 the line printed names the
    pair of the leg. *)
Theorem nonpositive_price_stops_the_legs :
  (forall client sequence start mid end_ n w p1,
     VerifyBinance.parse_sequence sequence = [start; mid; end_; start] ->
     quote client (lookups w) (mid ++ start) "askPrice" = Ok p1 ->
     at_most_zero p1 ->
     let out := VerifyBinance.verify_triangular_opportunity client sequence n w in
     returned out = Ok (PyNone, PyNone)
     /\ looked_up out = app (lookups w) [mid ++ start])
  /\ (forall client sequence start mid end_ n w p1 a1 p2,
        VerifyBinance.parse_sequence sequence = [start; mid; end_; start] ->
        quote client (lookups w) (mid ++ start) "askPrice" = Ok p1 ->
        above_zero p1 ->
        PyDecimal.div (PyDecimal.of_int n) p1 = Ok a1 ->
        quote client (app (lookups w) [mid ++ start]) (mid ++ end_) "bidPrice"
          = Ok p2 ->
        at_most_zero p2 ->
        let out := VerifyBinance.verify_triangular_opportunity client sequence n w in
        returned out = Ok (PyNone, PyNone)
        /\ looked_up out = app (lookups w) [mid ++ start; mid ++ end_]
        /\ printed out
           = app (stdout w) ["Invalid bid price for " ++ (mid ++ end_) ++ "."])
  /\ (forall client sequence start mid end_ n w p1 a1 p2 a2 p3,
        VerifyBinance.parse_sequence sequence = [start; mid; end_; start] ->
        quote client (lookups w) (mid ++ start) "askPrice" = Ok p1 ->
        above_zero p1 ->
        PyDecimal.div (PyDecimal.of_int n) p1 = Ok a1 ->
        quote client (app (lookups w) [mid ++ start]) (mid ++ end_) "bidPrice"
          = Ok p2 ->
        above_zero p2 ->
        PyDecimal.mul a1 p2 = Ok a2 ->
        quote client (app (lookups w) [mid ++ start; mid ++ end_])
              (end_ ++ start) "bidPrice" = Ok p3 ->
        at_most_zero p3 ->
        let out := VerifyBinance.verify_triangular_opportunity client sequence n w in
        returned out = Ok (PyNone, PyNone)
        /\ looked_up out
           = app (lookups w) [mid ++ start; mid ++ end_; end_ ++ start]
        /\ printed out
           = app (stdout w) ["Invalid bid price for " ++ (end_ ++ start) ++ "."]).
Proof.
  split; [|split].
  - intros client sequence start mid end_ n w p1 Hp Hq1 Hneg.
    cbv zeta. rewrite (leg1_rejected client sequence start mid end_ n w Hp p1 Hq1 Hneg).
    split; reflexivity.
  - intros client sequence start mid end_ n w p1 a1 p2 Hp Hq1 Hpos1 Ha1 Hq2 Hneg.
    cbv zeta.
    rewrite (leg2_rejected client sequence start mid end_ n w Hp p1 a1 p2
               Hq1 Hpos1 Ha1 Hq2 Hneg).
    split; [|split]; reflexivity.
  - intros client sequence start mid end_ n w p1 a1 p2 a2 p3
      Hp Hq1 Hpos1 Ha1 Hq2 Hpos2 Ha2 Hq3 Hneg.
    cbv zeta.
    rewrite (leg3_rejected client sequence start mid end_ n w Hp p1 a1 p2 a2 p3
               Hq1 Hpos1 Ha1 Hq2 Hpos2 Ha2 Hq3 Hneg).
    split; [|split]; reflexivity.
Qed.

Lemma nonpositive_price_stops_the_legs_witness :
  (let out :=
     VerifyBinance.verify_triangular_opportunity
       (client_with "GALAUSDT" "askPrice" "-0.05") example_sequence 100
       empty_world in
   returned out = Ok (PyNone, PyNone) /\ looked_up out = ["GALAUSDT"])
  /\ (let out :=
        VerifyBinance.verify_triangular_opportunity
          (client_with "GALABTC" "bidPrice" "0.00000000") example_sequence 100
          empty_world in
      returned out = Ok (PyNone, PyNone)
      /\ looked_up out = ["GALAUSDT"; "GALABTC"]
      /\ printed out = ["Invalid bid price for GALABTC."])
  /\ (let out :=
        VerifyBinance.verify_triangular_opportunity
          (client_with "BTCUSDT" "bidPrice" "0") example_sequence 100
          empty_world in
      returned out = Ok (PyNone, PyNone)
      /\ looked_up out = ["GALAUSDT"; "GALABTC"; "BTCUSDT"]
      /\ printed out = ["Invalid bid price for BTCUSDT."]).
Proof.
  split; [|split].
  - apply (proj1 nonpositive_price_stops_the_legs
             (client_with "GALAUSDT" "askPrice" "-0.05") example_sequence
             "USDT" "GALA" "BTC" 100 empty_world
             (PyDecimal.Fin true 5 (-2))); reflexivity.
  - apply (proj1 (proj2 nonpositive_price_stops_the_legs)
             (client_with "GALABTC" "bidPrice" "0.00000000") example_sequence
             "USDT" "GALA" "BTC" 100 empty_world
             (PyDecimal.Fin false 5 (-2)) (PyDecimal.Fin false 20 2)
             (PyDecimal.Fin false 0 (-8))); reflexivity.
  - apply (proj2 (proj2 nonpositive_price_stops_the_legs)
             (client_with "BTCUSDT" "bidPrice" "0") example_sequence
             "USDT" "GALA" "BTC" 100 empty_world
             (PyDecimal.Fin false 5 (-2)) (PyDecimal.Fin false 20 2)
             (PyDecimal.Fin false 8 (-7)) (PyDecimal.Fin false 160 (-5))
             (PyDecimal.Fin false 0 0)); reflexivity.
Defined.

(** C6 as the specification words it fails: the failure returned for a
    rejected first leg is the very value returned for a rejected second
    leg, so nothing in it refers to the leg; and the line printed for the
    first leg names ACHUSDT while the pair asked for was GALAUSDT. *)
Lemma invalid_quote_failure_names_no_leg :
  let out1 :=
    VerifyBinance.verify_triangular_opportunity
      (client_with "GALAUSDT" "askPrice" "0") example_sequence 100 empty_world in
  let out2 :=
    VerifyBinance.verify_triangular_opportunity
      (client_with "GALABTC" "bidPrice" "0") example_sequence 100 empty_world in
  looked_up out1 = ["GALAUSDT"]
  /\ looked_up out2 = ["GALAUSDT"; "GALABTC"]
  /\ printed out1 = ["Invalid ask price for ACHUSDT."]
  /\ returned out1 = returned out2
  /\ ~ (exists leg_of : Res (PyVal * PyVal) -> nat,
          leg_of (returned out1) = 1%nat /\ leg_of (returned out2) = 2%nat).
Proof.
  intros out1 out2.
  assert (E1 : out1 = (Ok (PyNone, PyNone),
                       mkWorld ["GALAUSDT"] ["Invalid ask price for ACHUSDT."]))
    by (vm_compute; reflexivity).
  assert (E2 : out2 = (Ok (PyNone, PyNone),
                       mkWorld ["GALAUSDT"; "GALABTC"]
                               ["Invalid bid price for GALABTC."]))
    by (vm_compute; reflexivity).
  clearbody out1 out2. subst out1 out2.
  split; [reflexivity|]. split; [reflexivity|].
  split; [reflexivity|]. split; [reflexivity|].
  intros [leg_of [H1 H2]]. simpl in H1, H2. rewrite H1 in H2. discriminate.
Qed.

(** C10. [verify_triangular_opportunity] never raises; what it returns is
    [(None, None)] or a pair of decimals; and on every failure path, a
    malformed sequence, a price [<= 0] at any leg, an exception raised
    anywhere in the [try] block, it returns exactly [(None, None)]: the
    returned value does not tell these apart. *)
Theorem every_failure_returns_none_none :
  (forall client sequence n w,
     exists v w',
       VerifyBinance.verify_triangular_opportunity client sequence n w = (Ok v, w')
       /\ none_or_decimals v)
  /\ (forall client sequence n w,
        malformed sequence ->
        returned (VerifyBinance.verify_triangular_opportunity client sequence n w)
        = Ok (PyNone, PyNone))
  /\ (forall client sequence n w e w',
        VerifyBinance.verify_body client sequence n w = (Raise e, w') ->
        returned (VerifyBinance.verify_triangular_opportunity client sequence n w)
        = Ok (PyNone, PyNone))
  /\ (forall client sequence start mid end_ n w p1,
        VerifyBinance.parse_sequence sequence = [start; mid; end_; start] ->
        quote client (lookups w) (mid ++ start) "askPrice" = Ok p1 ->
        at_most_zero p1 ->
        returned (VerifyBinance.verify_triangular_opportunity client sequence n w)
        = Ok (PyNone, PyNone))
  /\ (forall client sequence start mid end_ n w p1 a1 p2,
        VerifyBinance.parse_sequence sequence = [start; mid; end_; start] ->
        quote client (lookups w) (mid ++ start) "askPrice" = Ok p1 ->
        above_zero p1 ->
        PyDecimal.div (PyDecimal.of_int n) p1 = Ok a1 ->
        quote client (app (lookups w) [mid ++ start]) (mid ++ end_) "bidPrice"
          = Ok p2 ->
        at_most_zero p2 ->
        returned (VerifyBinance.verify_triangular_opportunity client sequence n w)
        = Ok (PyNone, PyNone))
  /\ (forall client sequence start mid end_ n w p1 a1 p2 a2 p3,
        VerifyBinance.parse_sequence sequence = [start; mid; end_; start] ->
        quote client (lookups w) (mid ++ start) "askPrice" = Ok p1 ->
        above_zero p1 ->
        PyDecimal.div (PyDecimal.of_int n) p1 = Ok a1 ->
        quote client (app (lookups w) [mid ++ start]) (mid ++ end_) "bidPrice"
          = Ok p2 ->
        above_zero p2 ->
        PyDecimal.mul a1 p2 = Ok a2 ->
        quote client (app (lookups w) [mid ++ start; mid ++ end_])
              (end_ ++ start) "bidPrice" = Ok p3 ->
        at_most_zero p3 ->
        returned (VerifyBinance.verify_triangular_opportunity client sequence n w)
        = Ok (PyNone, PyNone)).
Proof.
  split; [|split; [|split; [|split; [|split]]]].
  - intros. apply verify_total.
  - intros client sequence n w H. rewrite (malformed_rejected client _ n w H).
    reflexivity.
  - intros client sequence n w e w' H.
    rewrite (exception_caught client _ _ _ _ _ H). reflexivity.
  - intros client sequence start mid end_ n w p1 Hp Hq1 Hneg.
    rewrite (leg1_rejected client sequence start mid end_ n w Hp p1 Hq1 Hneg).
    reflexivity.
  - intros client sequence start mid end_ n w p1 a1 p2 Hp Hq1 Hpos1 Ha1 Hq2 Hneg.
    rewrite (leg2_rejected client sequence start mid end_ n w Hp p1 a1 p2
               Hq1 Hpos1 Ha1 Hq2 Hneg).
    reflexivity.
  - intros client sequence start mid end_ n w p1 a1 p2 a2 p3
      Hp Hq1 Hpos1 Ha1 Hq2 Hpos2 Ha2 Hq3 Hneg.
    rewrite (leg3_rejected client sequence start mid end_ n w Hp p1 a1 p2 a2 p3
               Hq1 Hpos1 Ha1 Hq2 Hpos2 Ha2 Hq3 Hneg).
    reflexivity.
Qed.

Lemma every_failure_returns_none_none_witness :
  returned (VerifyBinance.verify_triangular_opportunity
              example_client "USDT -> GALA" 100 empty_world)
  = Ok (PyNone, PyNone)
  /\ returned (VerifyBinance.verify_triangular_opportunity
                 example_client "USDT -> GALA -> ETH -> USDT" 100 empty_world)
     = Ok (PyNone, PyNone)
  /\ returned (VerifyBinance.verify_triangular_opportunity
                 (client_with "GALAUSDT" "askPrice" "0") example_sequence 100
                 empty_world)
     = Ok (PyNone, PyNone).
Proof.
  split; [|split].
  - apply (proj1 (proj2 every_failure_returns_none_none)).
    left. vm_compute. discriminate.
  - apply (proj1 (proj2 (proj2 every_failure_returns_none_none))
             example_client "USDT -> GALA -> ETH -> USDT" 100 empty_world
             (mkExn (OtherException "BinanceAPIException")
                    "APIError(code=-1121): Invalid symbol.")
             (mkWorld ["GALAUSDT"; "GALAETH"] [])).
    vm_compute. reflexivity.
  - apply (proj1 (proj2 (proj2 (proj2 every_failure_returns_none_none)))
             (client_with "GALAUSDT" "askPrice" "0") example_sequence
             "USDT" "GALA" "BTC" 100 empty_world (PyDecimal.Fin false 0 0));
      reflexivity.
Defined.

(** ** The extractor *)

(** A page of the shape the extractor expects: the panel, the table, a
    header row, and one row per opportunity with the four symbols in the
    cells 0, 1, 3, 5 and the profit in a panel of the cell 6 *)
Definition panel_class : option (list string) :=
  Some ["esgTile"; "p-l-10"; "p-r-10"].

Definition symbol_cell (symbol : string) : Soup.Node :=
  Soup.Tag "td" None [Soup.Tag "span" (Some ["p-5"]) [Soup.Text symbol]].

Definition arrow_cell : Soup.Node := Soup.Tag "td" None [Soup.Text " > "].

Definition opportunity_row (start buy1 buy2 buy3 : string)
           (profit : list Soup.Node) : Soup.Node :=
  Soup.Tag "tr" None
    [symbol_cell start; symbol_cell buy1; arrow_cell; symbol_cell buy2;
     arrow_cell; symbol_cell buy3;
     Soup.Tag "td" None [Soup.Tag "div" panel_class profit]].

Definition header_row : Soup.Node :=
  Soup.Tag "tr" None [Soup.Tag "th" None [Soup.Text "Start"]].

Definition page_of_rows (rows : list Soup.Node) : Soup.BeautifulSoup :=
  [Soup.Special "html";
   Soup.Tag "html" None
     [Soup.Tag "body" None
        [Soup.Tag "div" panel_class
           [Soup.Tag "table" (Some ["table"; "table-striped"])
              (header_row :: rows)]]]].

Definition usdt_row (profit_text : string) : Soup.Node :=
  opportunity_row "USDT" "GALA" "BTC" "USDT" [Soup.Text profit_text].

(** The exceptions with which the parser refuses a text *)
Definition rejected_by_parser (e : exn) : Prop :=
  exists reason, e = Soup.parser_rejected_markup reason.

(** 1.0, and the float nearest to 1.01 *)
Definition float_one : PyFloat.Float := PyFloat.FFin false 4503599627370496 (-52).
Definition float_1_01 : PyFloat.Float := PyFloat.FFin false 4548635623644201 (-52).

Section ExtractorFacts.
Import Soup PyFloat Extractor.

Lemma list_get_ok {A} (l : list A) i :
  (i < List.length l)%nat -> exists x, list_get l i = Ok x.
Proof.
  intros H. unfold list_get.
  destruct (nth_error l i) eqn:E; [eauto|].
  apply nth_error_None in E. lia.
Qed.

Lemma cell_symbol_raises cell e :
  cell_symbol cell = Raise e -> exn_type e = AttributeError.
Proof.
  unfold cell_symbol. destruct (find "span" (Some "p-5") cell); [discriminate|].
  intros H. inversion H. reflexivity.
Qed.

Lemma symbols_of_total cells :
  (7 <= List.length cells)%nat -> exists o, symbols_of cells = Ok o.
Proof.
  intros H. unfold symbols_of.
  destruct (list_get_ok cells 0) as [c0 E0]; [lia|].
  destruct (list_get_ok cells 1) as [c1 E1]; [lia|].
  destruct (list_get_ok cells 3) as [c3 E3]; [lia|].
  destruct (list_get_ok cells 5) as [c5 E5]; [lia|].
  rewrite E0, E1, E3, E5. cbn [res_bind].
  destruct (cell_symbol c0) as [s0|e0] eqn:F0; cbn [res_bind].
  2:{ apply cell_symbol_raises in F0. destruct e0 as [t m]. simpl in F0.
      subst. eauto. }
  destruct (cell_symbol c1) as [s1|e1] eqn:F1; cbn [res_bind].
  2:{ apply cell_symbol_raises in F1. destruct e1 as [t m]. simpl in F1.
      subst. eauto. }
  destruct (cell_symbol c3) as [s3|e3] eqn:F3; cbn [res_bind].
  2:{ apply cell_symbol_raises in F3. destruct e3 as [t m]. simpl in F3.
      subst. eauto. }
  destruct (cell_symbol c5) as [s5|e5] eqn:F5; cbn [res_bind].
  2:{ apply cell_symbol_raises in F5. destruct e5 as [t m]. simpl in F5.
      subst. eauto. }
  eauto.
Qed.

Lemma float_of_string_raises s e :
  of_string s = Raise e -> exn_type e = ValueError.
Proof.
  unfold of_string.
  destruct (drop_underscores _ _); [|intros H; inversion H; reflexivity].
  destruct (NumLit.take_sign s0) as [neg r].
  destruct (_ || _); [discriminate|].
  destruct (_ =? _)%string; [discriminate|].
  destruct (NumLit.parse_number r) as [[c x]|]; [discriminate|].
  intros H; inversion H; reflexivity.
Qed.

Lemma profit_of_total text : exists o, profit_of text = Ok o.
Proof.
  unfold profit_of, list_get.
  destruct (nth_error (PyStr.split_ws text) 0) as [tok|]; cbn [res_bind]; [|eauto].
  destruct (of_string tok) as [v|e] eqn:E; [eauto|].
  apply float_of_string_raises in E. destruct e as [t m]. simpl in E. subst.
  eauto.
Qed.

(** No row makes the loop raise *)
Lemma process_row_total threshold row :
  exists o, process_row threshold row = Ok o.
Proof.
  unfold process_row.
  destruct (List.length (find_all "td" None row) <? 7)%nat eqn:L; [eauto|].
  apply Nat.ltb_ge in L.
  destruct (symbols_of_total _ L) as [o E]. rewrite E. cbn [res_bind].
  destruct o as [[[[s b1] b2] b3]|]; [|eauto].
  destruct (negb _); [eauto|].
  destruct (list_get_ok (find_all "td" None row) 6) as [td E6]; [lia|].
  rewrite E6. cbn [res_bind].
  destruct (find "div" (Some container_class) td); [|eauto].
  destruct (profit_of_total (get_text " " n)) as [pv Ep]. rewrite Ep.
  cbn [res_bind]. destruct pv; [|eauto].
  destruct (gt f threshold); eauto.
Qed.

Lemma process_rows_total threshold rows :
  exists l, process_rows threshold rows = Ok l.
Proof.
  induction rows as [|row rest [l IH]]; simpl; [eauto|].
  destruct (process_row_total threshold row) as [o E]. rewrite E, IH.
  simpl. eauto.
Qed.

(** After the parser, [extract_opportunities] is the search of the tree *)
Lemma extract_parsed soup threshold :
  extract_opportunities (Parsed soup) threshold
  = match soup_find "div" (Some container_class) soup with
    | None => print "No container found." ;;; ret []
    | Some container =>
        match find "table" (Some "table") container with
        | None => print "No table found." ;;; ret []
        | Some table =>
            let rows := find_all "tr" None table in
            if (List.length rows <? 2)%nat
            then print "Not enough rows found." ;;; ret []
            else lift (process_rows threshold (tl rows))
        end
    end.
Proof. reflexivity. Qed.

(** The exception of the parser leaves [extract_opportunities] *)
Lemma extract_rejected reason threshold w :
  extract_opportunities (Rejected reason) threshold w
  = (Raise (parser_rejected_markup reason), w).
Proof. reflexivity. Qed.

(** On a text the parser accepts [extract_opportunities] does not raise,
    and it looks no quote up *)
Lemma extract_total soup threshold w :
  exists l lines,
    extract_opportunities (Parsed soup) threshold w
    = (Ok l, {| lookups := lookups w; stdout := app (stdout w) lines |}).
Proof.
  rewrite extract_parsed.
  destruct (soup_find _ _ soup) as [container|].
  2:{ exists [], ["No container found."]. reflexivity. }
  destruct (find "table" _ container) as [table|].
  2:{ exists [], ["No table found."]. reflexivity. }
  cbv zeta. destruct (_ <? 2)%nat.
  { exists [], ["Not enough rows found."]. reflexivity. }
  destruct (process_rows_total threshold (tl (find_all "tr" None table)))
    as [l E].
  exists l, []. unfold lift. rewrite E, app_nil_r. destruct w; reflexivity.
Qed.

(** A row that passes every check up to the comparison *)
Lemma qualifying_row threshold row cells start buy1 buy2 buy3 td6
      profit_div token v :
  find_all "td" None row = cells ->
  (7 <= List.length cells)%nat ->
  symbols_of cells = Ok (Some (start, buy1, buy2, buy3)) ->
  PyStr.upper start = "USDT" ->
  nth_error cells 6 = Some td6 ->
  find "div" (Some container_class) td6 = Some profit_div ->
  nth_error (PyStr.split_ws (get_text " " profit_div)) 0 = Some token ->
  of_string token = Ok v ->
  process_row threshold row
  = Ok (if gt v threshold
        then Some (start ++ " -> " ++ buy1 ++ " -> " ++ buy2 ++ " -> " ++ buy3, v)
        else None).
Proof.
  intros Hc Hl Hs Hu H6 Hd Ht Hv. unfold process_row. rewrite Hc.
  apply Nat.ltb_ge in Hl. rewrite Hl, Hs. cbn [res_bind].
  rewrite Hu. cbn [String.eqb negb].
  replace ("USDT" =? "USDT")%string with true by reflexivity. cbn [negb].
  unfold list_get at 1. rewrite H6. cbn [res_bind]. rewrite Hd.
  unfold profit_of, list_get. rewrite Ht. cbn [res_bind]. rewrite Hv.
  cbn [res_bind]. destruct (gt v threshold); reflexivity.
Qed.

(** The same row with a leading token that is no number *)
Lemma unparsable_row threshold row cells start buy1 buy2 buy3 td6
      profit_div token e :
  find_all "td" None row = cells ->
  (7 <= List.length cells)%nat ->
  symbols_of cells = Ok (Some (start, buy1, buy2, buy3)) ->
  PyStr.upper start = "USDT" ->
  nth_error cells 6 = Some td6 ->
  find "div" (Some container_class) td6 = Some profit_div ->
  nth_error (PyStr.split_ws (get_text " " profit_div)) 0 = Some token ->
  of_string token = Raise e ->
  process_row threshold row = Ok None.
Proof.
  intros Hc Hl Hs Hu H6 Hd Ht Hv. unfold process_row. rewrite Hc.
  apply Nat.ltb_ge in Hl. rewrite Hl, Hs. cbn [res_bind].
  rewrite Hu.
  replace ("USDT" =? "USDT")%string with true by reflexivity. cbn [negb].
  unfold list_get at 1. rewrite H6. cbn [res_bind]. rewrite Hd.
  unfold profit_of, list_get. rewrite Ht. cbn [res_bind]. rewrite Hv.
  pose proof (float_of_string_raises _ _ Hv) as Ty.
  destruct e as [t m]. simpl in Ty. subst. reflexivity.
Qed.

(** The comparison is strict: nothing exceeds itself *)
Lemma gt_irreflexive v : gt v (NFloat v) = false.
Proof.
  destruct v as [|s|s m e]; simpl.
  - reflexivity.
  - destruct s; reflexivity.
  - unfold compare_fin_fin. rewrite Z.compare_refl. reflexivity.
Qed.

End ExtractorFacts.

(** The text [<![foo [bar]]>]: a marked section whose keyword
    [html.parser] does not know, so that [BeautifulSoup] raises
    [ParserRejectedMarkup] with this message *)
Definition unknown_marked_section : Soup.Html :=
  Soup.Rejected
    ("The markup you provided was rejected by the parser. "
     ++ "Trying a different parser or a different encoding may help.").

(** C8 as the specification words it fails on a page that lacks the
    container because its markup cannot be parsed: the parser is called
    outside every [try], and its exception leaves
    [extract_opportunities], which returns no list and prints no
    diagnostic. *)
Lemma rejected_markup_leaves_the_extractor :
  exists reason,
    unknown_marked_section = Soup.Rejected reason
    /\ Extractor.extract_opportunities unknown_marked_section (PyFloat.NInt 1)
         empty_world
       = (Raise (Soup.parser_rejected_markup reason), empty_world).
Proof. eexists. split; reflexivity. Qed.

(** C8, as the code has it.  When the parser accepts the text of the
    page and the tree it builds has no [div] of the panel class, or the
    first such [div] holds no [table] of class [table],
    [extract_opportunities] prints one diagnostic ("No container found."
    or "No table found.") and returns the empty list; it does not raise
    and changes nothing else.  On a text the parser refuses, the
    exception of the parser leaves [extract_opportunities] before
    anything is printed. *)
Theorem missing_structure_gives_no_candidates soup threshold w :
  Soup.soup_find "div" (Some Extractor.container_class) soup = None
  \/ (exists container,
        Soup.soup_find "div" (Some Extractor.container_class) soup = Some container
        /\ Soup.find "table" (Some "table") container = None) ->
  (exists diagnostic,
     Extractor.extract_opportunities (Soup.Parsed soup) threshold w
     = (Ok [], {| lookups := lookups w;
                  stdout := app (stdout w) [diagnostic] |})
     /\ (diagnostic = "No container found." \/ diagnostic = "No table found."))
  /\ (forall reason,
        Extractor.extract_opportunities (Soup.Rejected reason) threshold w
        = (Raise (Soup.parser_rejected_markup reason), w)).
Proof.
  intros H. split; [|reflexivity].
  rewrite extract_parsed. destruct H as [H | [container [Hc Ht]]].
  - rewrite H. exists "No container found.". split; [reflexivity|]. left. reflexivity.
  - rewrite Hc, Ht. exists "No table found.". split; [reflexivity|]. right. reflexivity.
Qed.

Lemma missing_structure_gives_no_candidates_witness :
  (exists diagnostic,
     Extractor.extract_opportunities
       (Soup.Parsed
          [Soup.Tag "html" None [Soup.Tag "p" None [Soup.Text "Access denied"]]])
       (PyFloat.NInt 1) empty_world
     = (Ok [], {| lookups := []; stdout := [diagnostic] |})
     /\ (diagnostic = "No container found." \/ diagnostic = "No table found."))
  /\ (exists diagnostic,
        Extractor.extract_opportunities
          (Soup.Parsed
             [Soup.Tag "div" panel_class [Soup.Tag "table" (Some ["grid"]) []]])
          (PyFloat.NInt 1) empty_world
        = (Ok [], {| lookups := []; stdout := [diagnostic] |})
        /\ (diagnostic = "No container found." \/ diagnostic = "No table found.")).
Proof.
  split.
  - apply (proj1 (missing_structure_gives_no_candidates
             [Soup.Tag "html" None [Soup.Tag "p" None [Soup.Text "Access denied"]]]
             (PyFloat.NInt 1) empty_world
             (or_introl eq_refl))).
  - apply (proj1 (missing_structure_gives_no_candidates
             [Soup.Tag "div" panel_class [Soup.Tag "table" (Some ["grid"]) []]]
             (PyFloat.NInt 1) empty_world
             (or_intror (ex_intro _ _ (conj eq_refl eq_refl))))).
Defined.

(** C9 as the specification words it fails on its own example: with the
    threshold 1.0 the profit text "1.01%" gives no candidate, because its
    leading token "1.01%" is no number for [float] and the row is
    skipped. *)
Lemma percent_sign_row_is_skipped :
  PyStr.split_ws "1.01%" = ["1.01%"]
  /\ (exists e, PyFloat.of_string "1.01%" = Raise e)
  /\ Extractor.extract_opportunities
       (Soup.Parsed (page_of_rows [usdt_row "1.01%"]))
       (PyFloat.NFloat float_one) empty_world
     = (Ok [], empty_world)
  /\ Extractor.extract_opportunities
       (Soup.Parsed (page_of_rows [usdt_row "1.01%"]))
       (PyFloat.NInt 1) empty_world
     = (Ok [], empty_world).
Proof.
  split; [reflexivity|].
  split; [eexists; vm_compute; reflexivity|].
  split; vm_compute; reflexivity.
Qed.

(** C9, as the code has it.  For a row that passes the checks before the
    comparison and whose profit text starts with a token that [float]
    accepts, a candidate is appended if and only if the parsed number is
    strictly greater than the threshold; a number equal to the threshold
    is left out.  With the threshold 1.0 (or 1) the profit text "1.00 %"
    is excluded and "1.01 %" is included.  A row whose leading token is
    no number is skipped. *)
Theorem candidate_iff_profit_exceeds_threshold :
  (forall threshold row cells start buy1 buy2 buy3 td6 profit_div token v,
     Soup.find_all "td" None row = cells ->
     (7 <= List.length cells)%nat ->
     Extractor.symbols_of cells = Ok (Some (start, buy1, buy2, buy3)) ->
     PyStr.upper start = "USDT" ->
     nth_error cells 6 = Some td6 ->
     Soup.find "div" (Some Extractor.container_class) td6 = Some profit_div ->
     nth_error (PyStr.split_ws (Soup.get_text " " profit_div)) 0 = Some token ->
     PyFloat.of_string token = Ok v ->
     (PyFloat.gt v threshold = true ->
      Extractor.process_row threshold row
      = Ok (Some (start ++ " -> " ++ buy1 ++ " -> " ++ buy2 ++ " -> " ++ buy3, v)))
     /\ (PyFloat.gt v threshold = false ->
         Extractor.process_row threshold row = Ok None))
  /\ (forall v, PyFloat.gt v (PyFloat.NFloat v) = false)
  /\ (forall threshold row cells start buy1 buy2 buy3 td6 profit_div token e,
        Soup.find_all "td" None row = cells ->
        (7 <= List.length cells)%nat ->
        Extractor.symbols_of cells = Ok (Some (start, buy1, buy2, buy3)) ->
        PyStr.upper start = "USDT" ->
        nth_error cells 6 = Some td6 ->
        Soup.find "div" (Some Extractor.container_class) td6 = Some profit_div ->
        nth_error (PyStr.split_ws (Soup.get_text " " profit_div)) 0 = Some token ->
        PyFloat.of_string token = Raise e ->
        Extractor.process_row threshold row = Ok None)
  /\ (forall threshold,
        threshold = PyFloat.NFloat float_one \/ threshold = PyFloat.NInt 1 ->
        Extractor.extract_opportunities
          (Soup.Parsed (page_of_rows [usdt_row "1.00 %"; usdt_row "1.01 %"]))
          threshold empty_world
        = (Ok [("USDT -> GALA -> BTC -> USDT", float_1_01)], empty_world)).
Proof.
  split; [|split; [|split]].
  - intros threshold row cells start buy1 buy2 buy3 td6 profit_div token v
      Hc Hl Hs Hu H6 Hd Ht Hv.
    rewrite (qualifying_row threshold row cells start buy1 buy2 buy3 td6
               profit_div token v Hc Hl Hs Hu H6 Hd Ht Hv).
    split; intros ->; reflexivity.
  - apply gt_irreflexive.
  - intros threshold row cells start buy1 buy2 buy3 td6 profit_div token e
      Hc Hl Hs Hu H6 Hd Ht Hv.
    exact (unparsable_row threshold row cells start buy1 buy2 buy3 td6
             profit_div token e Hc Hl Hs Hu H6 Hd Ht Hv).
  - intros threshold [-> | ->]; vm_compute; reflexivity.
Qed.

Lemma candidate_iff_profit_exceeds_threshold_witness :
  Extractor.process_row (PyFloat.NInt 1) (usdt_row "1.01 %")
  = Ok (Some ("USDT -> GALA -> BTC -> USDT", float_1_01))
  /\ Extractor.process_row (PyFloat.NFloat float_one) (usdt_row "1.00 %")
     = Ok None
  /\ Extractor.process_row (PyFloat.NInt 1) (usdt_row "1.01%") = Ok None.
Proof.
  split; [|split].
  - apply (proj1 (proj1 candidate_iff_profit_exceeds_threshold
             (PyFloat.NInt 1) (usdt_row "1.01 %") _
             "USDT" "GALA" "BTC" "USDT" _ _ "1.01" float_1_01
             eq_refl ltac:(vm_compute; lia) eq_refl eq_refl eq_refl eq_refl
             eq_refl eq_refl)).
    reflexivity.
  - apply (proj2 (proj1 candidate_iff_profit_exceeds_threshold
             (PyFloat.NFloat float_one) (usdt_row "1.00 %") _
             "USDT" "GALA" "BTC" "USDT" _ _ "1.00" float_one
             eq_refl ltac:(vm_compute; lia) eq_refl eq_refl eq_refl eq_refl
             eq_refl eq_refl)).
    reflexivity.
  - apply (proj1 (proj2 (proj2 candidate_iff_profit_exceeds_threshold))
             (PyFloat.NInt 1) (usdt_row "1.01%") _
             "USDT" "GALA" "BTC" "USDT" _ _ "1.01%"
             (PyFloat.value_error "1.01%")
             eq_refl ltac:(vm_compute; lia) eq_refl eq_refl eq_refl eq_refl
             eq_refl eq_refl).
Defined.

(** ** Coroutines run on their own *)

Section RunFacts.
Import Asyncio.

Lemma run_tbind {A B} (t : Task A) (k : A -> Task B) net w tr :
  run (tbind t k) net w tr
  = let '(r, w', tr') := run t net w tr in
    match r with
    | Ok a => run (k a) net w' tr'
    | Raise e => (Raise e, w', tr')
    end.
Proof.
  revert w tr.
  induction t as [a|e|m c IH|u c IH|c IH|ms c IH|c IH|c IH]; intros w tr;
    cbn [tbind run]; auto.
  destruct (m w) as [r w']. apply IH.
Qed.

Lemma run_release_after {A} (t : Task A) net w tr :
  run (release_after t) net w tr
  = let '(r, w', tr') := run t net w tr in (r, w', tr' ++ [ARelease])%list.
Proof.
  revert w tr.
  induction t as [a|e|m c IH|u c IH|c IH|ms c IH|c IH|c IH]; intros w tr;
    cbn [release_after run]; auto.
  destruct (m w) as [r w']. apply IH.
Qed.

Lemma run_async_with_sem {A} (t : Task A) net w tr :
  run (async_with_sem t) net w tr
  = let '(r, w', tr') := run t net w (tr ++ [AAcquire])%list in
    (r, w', tr' ++ [ARelease])%list.
Proof. unfold async_with_sem. cbn [run]. apply run_release_after. Qed.

(** The replies of an endpoint that never serves its page: the request
    raises, or the status is not 200, or reading the body raises *)
Definition always_fails (net : Net) (url : string) : Prop :=
  forall tr,
    match get_reply net tr url with
    | Raise _ => True
    | Ok status =>
        status <> 200
        \/ exists e, text_reply net (tr ++ [AGet url])%list = Raise e
    end.

(** The requests and pauses of a trace *)
Definition requests (evs : list Await) : list Await :=
  filter (fun a => match a with AGet _ | ASleep _ => true | _ => false end) evs.

Fixpoint attempts_and_pauses (url : string) (pause : Z) (n : nat) : list Await :=
  match n with
  | O => []
  | S k => AGet url :: ASleep pause :: attempts_and_pauses url pause k
  end.

Lemma requests_app a b : requests (a ++ b) = (requests a ++ requests b)%list.
Proof. apply filter_app. Qed.

End RunFacts.

Section RetryFacts.
Import Asyncio MainCheckMacroVerify.
Variables (net : Net) (url : string).
Hypothesis failing : always_fails net url.

Lemma fetch_from_gives_up left :
  forall attempt w tr,
  exists lines evs,
    run (fetch_from left attempt url) net w tr
    = (Ok None,
       {| lookups := lookups w; stdout := app (stdout w) lines |},
       app tr evs)
    /\ requests evs = attempts_and_pauses url BACKOFF_MS left
    /\ List.length lines = left.
Proof.
  induction left as [|left IH]; intros attempt w tr.
  - exists [], []. cbn. rewrite !app_nil_r. destruct w. auto.
  - cbn [fetch_from run]. unfold do_. cbn [run].
    pose proof (failing tr) as F.
    destruct (get_reply net tr url) as [status|e].
    + destruct (negb (status =? 200)) eqn:St.
      * cbn [run print].
        destruct (IH (attempt + 1)
                    {| lookups := lookups w;
                       stdout := app (stdout w) [failed_msg url status attempt] |}
                    (app (app tr [AGet url]) [ASleep BACKOFF_MS]))
          as (lines & evs & E & R & L).
        cbn [lookups stdout] in E.
        exists (failed_msg url status attempt :: lines),
               (AGet url :: ASleep BACKOFF_MS :: evs).
        rewrite E. rewrite <- !app_assoc. cbn [app].
        split; [reflexivity|]. split; [|cbn; lia].
        unfold requests in *. cbn [filter attempts_and_pauses].
        rewrite R. reflexivity.
      * apply negb_false_iff, Z.eqb_eq in St. destruct F as [F | [e F]];
          [contradiction|].
        cbn [run]. rewrite F. cbn [run print].
        destruct (IH (attempt + 1)
                    {| lookups := lookups w;
                       stdout := app (stdout w) [error_msg url attempt e] |}
                    (app (app (app tr [AGet url]) [AText]) [ASleep BACKOFF_MS]))
          as (lines & evs & E & R & L).
        cbn [lookups stdout] in E.
        exists (error_msg url attempt e :: lines),
               (AGet url :: AText :: ASleep BACKOFF_MS :: evs).
        rewrite E. rewrite <- !app_assoc. cbn [app].
        split; [reflexivity|]. split; [|cbn; lia].
        unfold requests in *. cbn [filter attempts_and_pauses].
        rewrite R. reflexivity.
    + cbn [run print].
      destruct (IH (attempt + 1)
                  {| lookups := lookups w;
                     stdout := app (stdout w) [error_msg url attempt e] |}
                  (app (app tr [AGet url]) [ASleep BACKOFF_MS]))
        as (lines & evs & E & R & L).
      cbn [lookups stdout] in E.
      exists (error_msg url attempt e :: lines),
             (AGet url :: ASleep BACKOFF_MS :: evs).
      rewrite E. rewrite <- !app_assoc. cbn [app].
      split; [reflexivity|]. split; [|cbn; lia].
      unfold requests in *. cbn [filter attempts_and_pauses].
      rewrite R. reflexivity.
Qed.

End RetryFacts.

Section GiveUpFacts.
Import Asyncio.
Variables (net : Net) (url : string).
Hypothesis failing : always_fails net url.

Lemma main_check_fetch_gives_up w :
  exists lines evs,
    run (MainCheckMacroVerify.fetch url) net w []
    = (Ok None, {| lookups := lookups w; stdout := app (stdout w) lines |}, evs)
    /\ requests evs
       = attempts_and_pauses url MainCheckMacroVerify.BACKOFF_MS
           MainCheckMacroVerify.MAX_RETRIES.
Proof.
  destruct (fetch_from_gives_up net url failing
              MainCheckMacroVerify.MAX_RETRIES 1 w [])
    as (lines & evs & E & R & _).
  exists lines, evs. split; assumption.
Qed.

Lemma main_check_task_gives_up client timestamp w :
  exists lines evs,
    run (MainCheckMacroVerify.scrape_and_find client timestamp url) net w []
    = (Ok tt, {| lookups := lookups w; stdout := app (stdout w) lines |},
       app (AAcquire :: evs) [ARelease])
    /\ requests evs
       = attempts_and_pauses url MainCheckMacroVerify.BACKOFF_MS
           MainCheckMacroVerify.MAX_RETRIES.
Proof.
  destruct (fetch_from_gives_up net url failing
              MainCheckMacroVerify.MAX_RETRIES 1 w [AAcquire])
    as (lines & evs & E & R & _).
  exists lines, evs. split; [|assumption].
  unfold MainCheckMacroVerify.scrape_and_find.
  rewrite run_tbind, run_async_with_sem.
  unfold MainCheckMacroVerify.fetch. cbn [app]. rewrite E. reflexivity.
Qed.

Lemma async_arb_fetch_gives_up w :
  exists lines evs,
    run (AsyncArbVerify.fetch url) net w []
    = (Ok None, {| lookups := lookups w; stdout := app (stdout w) lines |}, evs)
    /\ requests evs = [AGet url].
Proof.
  unfold AsyncArbVerify.fetch. cbn [run app].
  pose proof (failing []) as F.
  destruct (get_reply net [] url) as [status|e].
  - destruct (negb (status =? 200)) eqn:St.
    + cbn [run print]. eexists [_], _. split; reflexivity.
    + apply negb_false_iff, Z.eqb_eq in St.
      destruct F as [F | [e F]]; [contradiction|].
      cbn [run app] in *. rewrite F. exists [], [AGet url; AText].
      rewrite app_nil_r. destruct w. split; reflexivity.
  - exists [], [AGet url]. cbn [run]. rewrite app_nil_r. destruct w.
    split; reflexivity.
Qed.

Lemma async_arb_task_gives_up client timestamp w :
  exists lines evs,
    run (AsyncArbVerify.scrape_and_find client timestamp url) net w []
    = (Ok tt, {| lookups := lookups w; stdout := app (stdout w) lines |}, evs)
    /\ requests evs = [AGet url].
Proof.
  destruct (async_arb_fetch_gives_up w) as (lines & evs & E & R).
  exists lines, evs. split; [|assumption].
  unfold AsyncArbVerify.scrape_and_find. rewrite run_tbind, E. reflexivity.
Qed.

End GiveUpFacts.

(** A network on which nothing answers: every request times out *)
Definition dead_net : Asyncio.Net :=
  Asyncio.mkNet
    (fun _ _ => Raise (mkExn (OtherException "TimeoutError") ""))
    (fun _ => Raise (mkExn (OtherException "TimeoutError") "")).

(** C5 as the specification words it fails for async_arb_verify.py: on an
    endpoint where every request times out its [fetch] makes one request,
    not the three of [MAX_RETRIES], pauses nowhere, and returns [None]. *)
Lemma async_arb_fetch_does_not_retry :
  Asyncio.run (AsyncArbVerify.fetch "https://a.example/x") dead_net
    empty_world []
  = (Ok None, empty_world, [Asyncio.AGet "https://a.example/x"])
  /\ always_fails dead_net "https://a.example/x"
  /\ [Asyncio.AGet "https://a.example/x"]
     <> attempts_and_pauses "https://a.example/x"
          MainCheckMacroVerify.BACKOFF_MS MainCheckMacroVerify.MAX_RETRIES.
Proof.
  split; [reflexivity|]. split; [intros tr; exact I|]. discriminate.
Qed.

(** C5, as the code has it.  An endpoint on which every attempt fails
    (the request raises, or the status is not 200, or reading the body
    raises): [fetch] of main_check_macro_verify.py makes exactly
    [MAX_RETRIES] = 3 requests, each followed by the pause of 0.5 s, and
    returns [None]; its [scrape_and_find] then returns normally, the
    semaphore released, without a lookup and without raising, so that
    [gather] and the other tasks of the cycle go on.  In
    async_arb_verify.py, which has no retry, [fetch] makes its single
    request and returns [None], and the task returns normally too. *)
Theorem failing_endpoint_is_given_up_alone :
  (forall net url client timestamp w,
     always_fails net url ->
     (exists lines evs,
        Asyncio.run (MainCheckMacroVerify.fetch url) net w []
        = (Ok None,
           {| lookups := lookups w; stdout := app (stdout w) lines |}, evs)
        /\ requests evs
           = [Asyncio.AGet url; Asyncio.ASleep 500;
              Asyncio.AGet url; Asyncio.ASleep 500;
              Asyncio.AGet url; Asyncio.ASleep 500])
     /\ (exists lines evs,
           Asyncio.run
             (MainCheckMacroVerify.scrape_and_find client timestamp url)
             net w []
           = (Ok tt,
              {| lookups := lookups w; stdout := app (stdout w) lines |},
              app (Asyncio.AAcquire :: evs) [Asyncio.ARelease])
           /\ requests evs
              = attempts_and_pauses url 500 MainCheckMacroVerify.MAX_RETRIES))
  /\ (forall net url client timestamp w,
        always_fails net url ->
        (exists lines evs,
           Asyncio.run (AsyncArbVerify.fetch url) net w []
           = (Ok None,
              {| lookups := lookups w; stdout := app (stdout w) lines |}, evs)
           /\ requests evs = [Asyncio.AGet url])
        /\ (exists lines evs,
              Asyncio.run (AsyncArbVerify.scrape_and_find client timestamp url)
                net w []
              = (Ok tt,
                 {| lookups := lookups w; stdout := app (stdout w) lines |},
                 evs)
              /\ requests evs = [Asyncio.AGet url])).
Proof.
  split; intros net url client timestamp w F; split.
  - exact (main_check_fetch_gives_up net url F w).
  - exact (main_check_task_gives_up net url F client timestamp w).
  - exact (async_arb_fetch_gives_up net url F w).
  - exact (async_arb_task_gives_up net url F client timestamp w).
Qed.

Lemma dead_net_always_fails url : always_fails dead_net url.
Proof. intros tr. exact I. Defined.

Lemma failing_endpoint_is_given_up_alone_witness :
  (exists lines evs,
     Asyncio.run (MainCheckMacroVerify.fetch "https://a.example/x") dead_net
       empty_world []
     = (Ok None, {| lookups := []; stdout := app [] lines |}, evs)
     /\ requests evs
        = [Asyncio.AGet "https://a.example/x"; Asyncio.ASleep 500;
           Asyncio.AGet "https://a.example/x"; Asyncio.ASleep 500;
           Asyncio.AGet "https://a.example/x"; Asyncio.ASleep 500])
  /\ (exists lines evs,
        Asyncio.run (AsyncArbVerify.fetch "https://a.example/x") dead_net
          empty_world []
        = (Ok None, {| lookups := []; stdout := app [] lines |}, evs)
        /\ requests evs = [Asyncio.AGet "https://a.example/x"]).
Proof.
  split.
  - exact (proj1 (proj1 failing_endpoint_is_given_up_alone
                    dead_net "https://a.example/x" example_client "" empty_world
                    (dead_net_always_fails "https://a.example/x"))).
  - exact (proj1 (proj2 failing_endpoint_is_given_up_alone
                    dead_net "https://a.example/x" example_client "" empty_world
                    (dead_net_always_fails "https://a.example/x"))).
Defined.

(** ** The semaphore discipline of main_check_macro_verify.py *)

Section SemaphoreFacts.
Import Asyncio Scraper.

(** [bracketed h t]: [t], started holding a permit or not ([h]), awaits
    the network and pauses only while it holds a permit, acquires only
    when it holds none, and ends holding none *)
Inductive bracketed {A} : bool -> Task A -> Prop :=
| br_ret a : bracketed false (Ret a)
| br_throw e : bracketed false (Throw e)
| br_do h m k : (forall r, bracketed h (k r)) -> bracketed h (Do m k)
| br_get u k : (forall r, bracketed true (k r)) -> bracketed true (Get u k)
| br_text k : (forall r, bracketed true (k r)) -> bracketed true (ReadText k)
| br_sleep ms k : bracketed true k -> bracketed true (Sleep ms k)
| br_acquire k : bracketed true k -> bracketed false (Acquire k)
| br_release k : bracketed false k -> bracketed true (Release k).

(** A coroutine that never touches the semaphore *)
Inductive semaphore_free {A} : Task A -> Prop :=
| sf_ret a : semaphore_free (Ret a)
| sf_throw e : semaphore_free (Throw e)
| sf_do m k : (forall r, semaphore_free (k r)) -> semaphore_free (Do m k)
| sf_get u k : (forall r, semaphore_free (k r)) -> semaphore_free (Get u k)
| sf_text k : (forall r, semaphore_free (k r)) -> semaphore_free (ReadText k)
| sf_sleep ms k : semaphore_free k -> semaphore_free (Sleep ms k).

Lemma bracketed_release_after {A} (t : Task A) :
  semaphore_free t -> bracketed true (release_after t).
Proof.
  induction 1; cbn [release_after]; repeat constructor; auto.
Qed.

Lemma bracketed_tbind {A B} h (t : Task A) (k : A -> Task B) :
  bracketed h t -> (forall a, bracketed false (k a)) -> bracketed h (tbind t k).
Proof.
  intros Ht Hk. induction Ht; cbn [tbind]; try (constructor; auto); auto.
Qed.

Lemma fetch_from_semaphore_free left :
  forall attempt url,
    semaphore_free (MainCheckMacroVerify.fetch_from left attempt url).
Proof.
  induction left as [|left IH]; intros attempt url;
    cbn [MainCheckMacroVerify.fetch_from].
  - constructor.
  - constructor. intros [status|e].
    + destruct (negb (status =? 200)).
      * unfold do_. constructor. intros [[]|e']; repeat constructor. apply IH.
      * constructor. intros [html|e]; [constructor|].
        unfold do_. constructor. intros [[]|e']; repeat constructor. apply IH.
    + unfold do_. constructor. intros [[]|e']; repeat constructor. apply IH.
Qed.

Lemma scrape_and_find_bracketed client timestamp url :
  bracketed false (MainCheckMacroVerify.scrape_and_find client timestamp url).
Proof.
  unfold MainCheckMacroVerify.scrape_and_find. apply bracketed_tbind.
  - unfold async_with_sem. constructor. apply bracketed_release_after.
    apply fetch_from_semaphore_free.
  - intros [page|]; [|constructor].
    unfold do_. constructor. intros [[]|e]; constructor.
Qed.

Definition permit (h : bool) : Z := if h then 1 else 0.

(** The permits held in a cycle *)
Fixpoint permits_held (l : list Slot) : Z :=
  match l with
  | [] => 0
  | sl :: r => permit (holding sl) + permits_held r
  end.

Lemma permits_held_app a b :
  permits_held (a ++ b) = permits_held a + permits_held b.
Proof. induction a as [|x a IH]; cbn [app permits_held]; lia. Qed.

Lemma permits_held_nonneg l : 0 <= permits_held l.
Proof.
  induction l as [|x l IH]; cbn [permits_held]; [lia|].
  destruct (holding x); cbn [permit]; lia.
Qed.

(** A step keeps the discipline and the count of permits *)
Lemma slot_step_bracketed s w sl s' w' sl' :
  slot_step s w sl s' w' sl' ->
  bracketed (holding sl) (task sl) ->
  bracketed (holding sl') (task sl')
  /\ s' + permit (holding sl') = s + permit (holding sl)
  /\ (0 <= s -> 0 <= s').
Proof.
  intros St Br. destruct St; cbn [task holding] in *; inversion Br; subst;
    cbn [permit]; repeat split; auto; lia.
Qed.

Definition well_bracketed (l : list Slot) : Prop :=
  Forall (fun sl => bracketed (holding sl) (task sl)) l.

Definition balanced (limit : Z) (l : Loop) : Prop :=
  well_bracketed (slots l)
  /\ sem l + permits_held (slots l) = limit
  /\ 0 <= sem l.

Lemma loop_step_balanced limit l l' :
  loop_step l l' -> balanced limit l -> balanced limit l'.
Proof.
  intros St (Wb & Cnt & Pos). destruct St as [pre sl post s w s' w' sl' St].
  cbn [slots sem] in *. unfold well_bracketed in *.
  apply Forall_app in Wb. destruct Wb as [Wpre Wrest].
  inversion Wrest as [|x xs Wsl Wpost]; subst.
  destruct (slot_step_bracketed _ _ _ _ _ _ St Wsl) as (Wsl' & Eq & Pos').
  unfold balanced, well_bracketed. cbn [slots sem].
  split; [|split].
  - apply Forall_app. split; [assumption|]. constructor; assumption.
  - rewrite !permits_held_app in *. cbn [permits_held] in *. lia.
  - auto.
Qed.

(** Whoever awaits inside [fetch] holds a permit *)
Lemma in_fetch_holds sl :
  bracketed (holding sl) (task sl) -> in_fetch (task sl) = true ->
  holding sl = true.
Proof.
  destruct sl as [t h]. cbn [task holding]. intros Br F.
  destruct t; try discriminate; inversion Br; reflexivity.
Qed.

Lemma in_flight_le_permits l :
  well_bracketed l ->
  Z.of_nat (List.length (filter (fun sl => in_fetch (task sl)) l))
  <= permits_held l.
Proof.
  induction 1 as [|sl l Br _ IH]; cbn [filter permits_held List.length]; [lia|].
  destruct (in_fetch (task sl)) eqn:F.
  - rewrite (in_fetch_holds sl Br F). cbn [List.length permit]. lia.
  - pose proof (permits_held_nonneg [sl]) as P. cbn [permits_held] in P. lia.
Qed.

Lemma balanced_bound limit l :
  balanced limit l -> in_flight l <= limit /\ permits_held (slots l) <= limit.
Proof.
  intros (Wb & Cnt & Pos). unfold in_flight.
  pose proof (in_flight_le_permits _ Wb). lia.
Qed.

Lemma spawn_bracketed client urls timestamps :
  well_bracketed
    (spawn (MainCheckMacroVerify.scrape_and_find client) urls timestamps)
  /\ permits_held
       (spawn (MainCheckMacroVerify.scrape_and_find client) urls timestamps) = 0.
Proof.
  unfold spawn, well_bracketed.
  induction (combine timestamps urls) as [|[ts url] l [IH1 IH2]];
    cbn [map permits_held]; split; auto.
  constructor; [apply scrape_and_find_bracketed | assumption].
Qed.

Lemma finished_hold_nothing l :
  well_bracketed l ->
  forallb (fun sl => finished (task sl)) l = true ->
  permits_held l = 0.
Proof.
  induction 1 as [|sl l Br _ IH]; cbn [forallb permits_held]; [reflexivity|].
  intros F. apply andb_true_iff in F. destruct F as [F1 F2].
  rewrite (IH F2). destruct sl as [t h]. cbn [task holding] in *.
  destruct t; try discriminate. inversion Br. reflexivity.
Qed.

(** The state of the process, whatever the cycle *)
Definition process_balanced (limit : Z) (p : Process) : Prop :=
  match p with
  | Polling l => balanced limit l
  | Pausing s _ => s = limit
  | Crashed _ => True
  end.

Lemma main_step_balanced client urls limit p p' :
  0 <= limit ->
  main_step (MainCheckMacroVerify.scrape_and_find client) urls p p' ->
  process_balanced limit p -> process_balanced limit p'.
Proof.
  intros L St Inv. destruct St; cbn [process_balanced] in *.
  - eapply loop_step_balanced; eassumption.
  - exact I.
  - destruct Inv as (Wb & Cnt & Pos).
    rewrite (finished_hold_nothing _ Wb H) in Cnt. lia.
  - subst s. destruct (spawn_bracketed client urls timestamps) as [W P].
    split; [|split]; cbn [slots sem]; auto. lia.
Qed.

Lemma reachable_balanced client urls limit p0 p :
  0 <= limit ->
  process_balanced limit p0 ->
  reachable (MainCheckMacroVerify.scrape_and_find client) urls p0 p ->
  process_balanced limit p.
Proof.
  intros L I0 R. induction R; [assumption|].
  eapply main_step_balanced; eassumption.
Qed.

End SemaphoreFacts.

Section FanOutFacts.
Import Asyncio Scraper.

(** Without a semaphore every task of the cycle is awaiting its request
    as soon as [gather] has started them *)
Lemma async_arb_all_in_flight client pairs :
  Z.of_nat
    (List.length
       (filter (fun sl => in_fetch (task sl))
          (map (fun '(ts, url) =>
                  mkSlot (AsyncArbVerify.scrape_and_find client ts url) false)
               pairs)))
  = Z.of_nat (List.length pairs).
Proof.
  induction pairs as [|[ts url] l IH]; [reflexivity|].
  cbn [map filter task].
  replace (in_fetch (AsyncArbVerify.scrape_and_find client ts url))
    with true by reflexivity.
  cbn [List.length]. lia.
Qed.

Lemma async_arb_start_in_flight client urls timestamps w :
  List.length timestamps = List.length urls ->
  exists l,
    AsyncArbVerify.start client urls timestamps w = Polling l
    /\ in_flight l = Z.of_nat (List.length urls).
Proof.
  intros L. eexists. split; [reflexivity|].
  unfold in_flight, spawn. cbn [slots].
  rewrite async_arb_all_in_flight, length_combine, L, Nat.min_id.
  reflexivity.
Qed.

Lemma single_slot_step scrape urls s w sl s' w' sl' :
  slot_step s w sl s' w' sl' ->
  main_step scrape urls (Polling (mkLoop [sl] s w)) (Polling (mkLoop [sl'] s' w')).
Proof.
  intros St. apply main_resume. exact (loop_step_at [] sl [] s w s' w' sl' St).
Qed.

Lemma reach_first scrape urls p0 p1 q :
  main_step scrape urls p0 p1 ->
  reachable scrape urls p1 q ->
  reachable scrape urls p0 q.
Proof.
  intros St R. induction R.
  - eapply reach_step; [apply reach_start | exact St].
  - eapply reach_step; eassumption.
Qed.

End FanOutFacts.

(** C3 as the specification words it fails for async_arb_verify.py: it
    creates no semaphore, and with 51 endpoints 51 fetches are in flight
    at once, more than the limit of 50 its sibling script configures;
    whatever the bound, a list one longer exceeds it. *)
Lemma async_arb_has_no_concurrency_limit :
  (exists l,
     AsyncArbVerify.start example_client
       (repeat "https://a.example/x" 51) (repeat "2025-01-01 00:00:00" 51)
       empty_world
     = Scraper.Polling l
     /\ Asyncio.in_flight l = 51
     /\ ~ Asyncio.in_flight l <= MainCheckMacroVerify.CONCURRENCY_LIMIT)
  /\ (forall bound : nat,
        exists l,
          AsyncArbVerify.start example_client
            (repeat "https://a.example/x" (S bound))
            (repeat "2025-01-01 00:00:00" (S bound)) empty_world
          = Scraper.Polling l
          /\ Z.of_nat bound < Asyncio.in_flight l).
Proof.
  split.
  - destruct (async_arb_start_in_flight example_client
                (repeat "https://a.example/x" 51)
                (repeat "2025-01-01 00:00:00" 51) empty_world)
      as (l & E & F); [rewrite !repeat_length; reflexivity|].
    exists l. rewrite repeat_length in F. split; [exact E|].
    split; [exact F|]. rewrite F. unfold MainCheckMacroVerify.CONCURRENCY_LIMIT.
    lia.
  - intros bound.
    destruct (async_arb_start_in_flight example_client
                (repeat "https://a.example/x" (S bound))
                (repeat "2025-01-01 00:00:00" (S bound)) empty_world)
      as (l & E & F); [rewrite !repeat_length; reflexivity|].
    exists l. rewrite repeat_length in F. split; [exact E|]. lia.
Qed.

(** C3, as the code has it.  In main_check_macro_verify.py, in every
    state the process reaches, over all cycles and whatever the network
    replies, at most [CONCURRENCY_LIMIT] = 50 tasks await inside [fetch]
    (a request, a body, or the pause before a retry), and at most 50
    permits are held, however many endpoints the list has.  In
    async_arb_verify.py there is no limit: the fetches of all the
    endpoints are in flight at once. *)
Theorem in_flight_bounded_by_semaphore :
  (forall client urls timestamps w l,
     Scraper.reachable (MainCheckMacroVerify.scrape_and_find client) urls
       (MainCheckMacroVerify.start client urls timestamps w)
       (Scraper.Polling l) ->
     Asyncio.in_flight l <= MainCheckMacroVerify.CONCURRENCY_LIMIT
     /\ permits_held (Asyncio.slots l) <= MainCheckMacroVerify.CONCURRENCY_LIMIT)
  /\ (forall client urls timestamps w,
        List.length timestamps = List.length urls ->
        exists l,
          AsyncArbVerify.start client urls timestamps w = Scraper.Polling l
          /\ Asyncio.in_flight l = Z.of_nat (List.length urls)).
Proof.
  split.
  - intros client urls timestamps w l R.
    apply (balanced_bound MainCheckMacroVerify.CONCURRENCY_LIMIT l).
    apply (reachable_balanced client urls
             MainCheckMacroVerify.CONCURRENCY_LIMIT
             (MainCheckMacroVerify.start client urls timestamps w)
             (Scraper.Polling l));
      [unfold MainCheckMacroVerify.CONCURRENCY_LIMIT; lia| |exact R].
    unfold MainCheckMacroVerify.start. cbn [process_balanced].
    destruct (spawn_bracketed client urls timestamps) as [W P].
    split; [|split]; cbn [Asyncio.slots Asyncio.sem]; auto.
    + rewrite P. lia.
    + unfold MainCheckMacroVerify.CONCURRENCY_LIMIT. lia.
  - intros. apply async_arb_start_in_flight. assumption.
Qed.

Lemma in_flight_bounded_by_semaphore_witness :
  (exists l,
     Scraper.reachable (MainCheckMacroVerify.scrape_and_find example_client)
       ["https://a.example/x"; "https://a.example/y"]
       (MainCheckMacroVerify.start example_client
          ["https://a.example/x"; "https://a.example/y"]
          ["2025-01-01 00:00:00"; "2025-01-01 00:00:00"] empty_world)
       (Scraper.Polling l)
     /\ Asyncio.sem l = 48
     /\ Asyncio.in_flight l = 2
     /\ Asyncio.in_flight l <= 50)
  /\ (exists l,
        AsyncArbVerify.start example_client
          ["https://a.example/x"; "https://a.example/y"]
          ["2025-01-01 00:00:00"; "2025-01-01 00:00:00"] empty_world
        = Scraper.Polling l
        /\ Asyncio.in_flight l = 2).
Proof.
  split.
  - assert (R : exists l,
               Scraper.reachable
                 (MainCheckMacroVerify.scrape_and_find example_client)
                 ["https://a.example/x"; "https://a.example/y"]
                 (MainCheckMacroVerify.start example_client
                    ["https://a.example/x"; "https://a.example/y"]
                    ["2025-01-01 00:00:00"; "2025-01-01 00:00:00"] empty_world)
                 (Scraper.Polling l)
               /\ Asyncio.sem l = 48 /\ Asyncio.in_flight l = 2).
    { eexists. split.
      - unfold MainCheckMacroVerify.start, Scraper.spawn. cbn [combine map].
        eapply reach_first.
        { apply Scraper.main_resume.
          apply (Asyncio.loop_step_at [] _ [_]).
          eapply Asyncio.step_acquire.
          unfold MainCheckMacroVerify.CONCURRENCY_LIMIT. lia. }
        eapply reach_first.
        { apply Scraper.main_resume.
          apply (Asyncio.loop_step_at [_] _ []).
          eapply Asyncio.step_acquire.
          unfold MainCheckMacroVerify.CONCURRENCY_LIMIT. lia. }
        apply Scraper.reach_start.
      - split; reflexivity. }
    destruct R as (l & R & S & F). exists l.
    split; [exact R|]. split; [exact S|]. split; [exact F|].
    exact (proj1 (proj1 in_flight_bounded_by_semaphore example_client
                    ["https://a.example/x"; "https://a.example/y"]
                    ["2025-01-01 00:00:00"; "2025-01-01 00:00:00"]
                    empty_world l R)).
  - apply (proj2 in_flight_bounded_by_semaphore example_client
             ["https://a.example/x"; "https://a.example/y"]
             ["2025-01-01 00:00:00"; "2025-01-01 00:00:00"] empty_world).
    reflexivity.
Defined.

(** ** A candidate in main_check_macro_verify.py *)

(** A network that serves [page] with status 200 *)
Definition serving (page : Asyncio.Page) : Asyncio.Net :=
  Asyncio.mkNet (fun _ _ => Ok 200) (fun _ => Ok page).

Definition unexpected_keyword : exn :=
  mkExn TypeError
    "verify_triangular_opportunity() got an unexpected keyword argument 'PROFIT_THRESHOLD_VEIRFY'".

Definition candidate_page : Asyncio.Page :=
  Soup.Parsed (page_of_rows [usdt_row "1.01 %"]).

Section CrashFacts.
Import Asyncio Scraper.

(** Its [verify_from_binance] raises before the verifier is entered *)
Lemma main_check_verify_raises client sequence w :
  MainCheckMacroVerify.verify_from_binance client sequence w
  = (Raise unexpected_keyword, w).
Proof. reflexivity. Qed.

(** So does the report of the first candidate, its line printed *)
Lemma main_check_report_raises client timestamp url seq profit rest w :
  report_each (MainCheckMacroVerify.verify_from_binance client) timestamp url
    ((seq, profit) :: rest) w
  = (Raise unexpected_keyword,
     {| lookups := lookups w;
        stdout := app (stdout w)
          [timestamp ++ " | Opportunity: " ++ seq ++ " | Profit Ratio: "
           ++ PyFloat.format_2f profit ++ "% | url: " ++ url] |}).
Proof. reflexivity. Qed.

End CrashFacts.

(** C4 fails in main_check_macro_verify.py.  A page with one row above
    the threshold is served: the task prints the candidate and then
    raises [TypeError], [verify_from_binance] passing the keyword
    [PROFIT_THRESHOLD_VEIRFY] that [verify_triangular_opportunity] does
    not have; nothing catches it, [gather] raises it in [main], and the
    polling loop is left. *)
Theorem main_check_candidate_ends_the_process client timestamp url w :
  Asyncio.run (MainCheckMacroVerify.scrape_and_find client timestamp url)
    (serving candidate_page) w []
  = (Raise unexpected_keyword,
     {| lookups := lookups w;
        stdout := app (stdout w)
          [timestamp
           ++ " | Opportunity: USDT -> GALA -> BTC -> USDT | Profit Ratio: 1.01% | url: "
           ++ url] |},
     [Asyncio.AAcquire; Asyncio.AGet url; Asyncio.AText; Asyncio.ARelease])
  /\ Scraper.reachable (MainCheckMacroVerify.scrape_and_find client) [url]
       (MainCheckMacroVerify.start client [url] [timestamp] w)
       (Scraper.Crashed unexpected_keyword).
Proof.
  split.
  - destruct w as [lk out]. reflexivity.
  - unfold MainCheckMacroVerify.start, Scraper.spawn. cbn [combine map].
    eapply reach_first.
    { apply single_slot_step. eapply Asyncio.step_acquire.
      unfold MainCheckMacroVerify.CONCURRENCY_LIMIT. lia. }
    eapply reach_first.
    { apply single_slot_step. eapply Asyncio.step_get with (r := Ok 200). }
    eapply reach_first.
    { apply single_slot_step.
      eapply Asyncio.step_text with (r := Ok candidate_page). }
    eapply reach_first.
    { apply single_slot_step. eapply Asyncio.step_release. }
    eapply reach_first.
    { apply single_slot_step. eapply Asyncio.step_do. reflexivity. }
    eapply reach_first.
    { eapply Scraper.main_raise with (h := false). left. reflexivity. }
    apply Scraper.reach_start.
Qed.

(** ** The precision of the decimal context *)

Section PrecisionFacts.
Import PyDecimal.

Lemma ndigits_aux_pos fuel c : 1 <= ndigits_aux fuel c.
Proof.
  revert c. induction fuel as [|k IH]; intros c; cbn [ndigits_aux]; [lia|].
  destruct (c <? 10); [lia|]. specialize (IH (c / 10)). lia.
Qed.

Lemma ndigits_aux_spec fuel :
  forall c, 0 < c -> c < 10 ^ Z.of_nat fuel ->
  10 ^ (ndigits_aux fuel c - 1) <= c < 10 ^ ndigits_aux fuel c.
Proof.
  induction fuel as [|k IH]; intros c Hpos Hlt.
  - cbn in Hlt. lia.
  - cbn [ndigits_aux]. destruct (c <? 10) eqn:E.
    + apply Z.ltb_lt in E. cbn. lia.
    + apply Z.ltb_ge in E.
      rewrite Nat2Z.inj_succ, Z.pow_succ_r in Hlt by lia.
      assert (H0 : 0 < c / 10) by (apply Z.div_str_pos; lia).
      assert (H1 : c / 10 < 10 ^ Z.of_nat k)
        by (apply Z.div_lt_upper_bound; lia).
      specialize (IH (c / 10) H0 H1).
      pose proof (ndigits_aux_pos k (c / 10)) as P.
      replace (1 + ndigits_aux k (c / 10) - 1)
        with (Z.succ (ndigits_aux k (c / 10) - 1)) by lia.
      replace (1 + ndigits_aux k (c / 10))
        with (Z.succ (ndigits_aux k (c / 10))) by lia.
      rewrite !Z.pow_succ_r by lia.
      pose proof (Z.div_mod c 10 ltac:(lia)) as D.
      pose proof (Z.mod_pos_bound c 10 ltac:(lia)) as M.
      lia.
Qed.

Lemma fuel_suffices c : 0 < c -> c < 10 ^ Z.of_nat (S (Z.to_nat (Z.log2 c))).
Proof.
  intros H. pose proof (Z.log2_spec c H) as [_ L].
  pose proof (Z.log2_nonneg c) as N.
  rewrite Nat2Z.inj_succ, Z2Nat.id by lia.
  eapply Z.lt_le_trans; [exact L|].
  apply Z.pow_le_mono_l. lia.
Qed.

(** [ndigits] counts the decimal digits *)
Lemma ndigits_spec c :
  0 < c -> 10 ^ (ndigits c - 1) <= c < 10 ^ ndigits c.
Proof.
  intros H. unfold ndigits. apply ndigits_aux_spec; [exact H|].
  apply fuel_suffices. exact H.
Qed.

Lemma ndigits_pos c : 1 <= ndigits c.
Proof. apply ndigits_aux_pos. Qed.

Lemma ndigits_le c n : 0 < c -> c < 10 ^ n -> ndigits c <= n.
Proof.
  intros H L. destruct (ndigits_spec c H) as [Lo _].
  destruct (Z_le_gt_dec (ndigits c) n) as [|G]; [assumption|exfalso].
  assert (0 <= n).
  { destruct (Z_le_gt_dec 0 n); [assumption|].
    rewrite Z.pow_neg_r in L by lia. lia. }
  assert (10 ^ n <= 10 ^ (ndigits c - 1)) by (apply Z.pow_le_mono_r; lia).
  lia.
Qed.

Lemma ndigits_lt_pow c n : 0 <= c -> ndigits c <= n -> c < 10 ^ n.
Proof.
  intros H L. pose proof (ndigits_pos c) as P.
  destruct (Z.eq_dec c 0) as [->|Hc].
  - apply Z.pow_pos_nonneg; lia.
  - destruct (ndigits_spec c ltac:(lia)) as [_ Hi].
    eapply Z.lt_le_trans; [exact Hi|]. apply Z.pow_le_mono_r; lia.
Qed.

Lemma pow_prec_pos : 0 < 10 ^ prec.
Proof. apply Z.pow_pos_nonneg; unfold prec; lia. Qed.

Lemma round_half_even_bound c k :
  0 <= c -> 0 <= k -> 0 <= round_half_even c k <= c / 10 ^ k + 1.
Proof.
  intros Hc Hk. unfold round_half_even.
  assert (P : 0 < 10 ^ k) by (apply Z.pow_pos_nonneg; lia).
  pose proof (Z.div_pos c (10 ^ k) Hc P) as Q.
  destruct (_ >? _); [lia|]. destruct (_ =? _); [|lia].
  destruct (Z.odd _); lia.
Qed.

(** What [_fix] returns has at most [prec] digits *)
Lemma fix_fin_digits s c e s' c' e' :
  0 <= c -> fix_fin s c e = Ok (Fin s' c' e') -> 0 <= c' < 10 ^ prec.
Proof.
  intros Hc. unfold fix_fin.
  destruct (c =? 0) eqn:Z0.
  { intros H. inversion H. subst. pose proof pow_prec_pos. lia. }
  apply Z.eqb_neq in Z0. assert (Hpos : 0 < c) by lia.
  destruct (_ >? Etop); [discriminate|].
  set (exp_min := Z.max (ndigits c + e - prec) Etiny).
  destruct (e <? exp_min) eqn:Lt.
  2:{ intros H. inversion H. subst. apply Z.ltb_ge in Lt.
      split; [lia|]. apply ndigits_lt_pow; [lia|]. unfold exp_min in Lt. lia. }
  apply Z.ltb_lt in Lt.
  set (digits := ndigits c + e - exp_min).
  assert (Hq : forall c1 e1,
             (if digits <? 0 then (1, exp_min - 1) else (c, e)) = (c1, e1) ->
             0 <= round_half_even c1 (exp_min - e1) <= 10 ^ prec).
  { intros c1 e1 E. destruct (digits <? 0) eqn:D; inversion E; subst.
    - replace (exp_min - (exp_min - 1)) with 1 by lia.
      change (round_half_even 1 1) with 0. pose proof pow_prec_pos. lia.
    - pose proof (round_half_even_bound c1 (exp_min - e1) Hc ltac:(lia)) as B.
      split; [lia|].
      assert (c1 / 10 ^ (exp_min - e1) < 10 ^ prec); [|lia].
      apply Z.div_lt_upper_bound; [apply Z.pow_pos_nonneg; lia|].
      rewrite <- Z.pow_add_r by (unfold prec; lia).
      apply ndigits_lt_pow; [lia|]. unfold exp_min. lia. }
  destruct (if digits <? 0 then (1, exp_min - 1) else (c, e)) as [c1 e1] eqn:E.
  specialize (Hq c1 e1 eq_refl).
  set (q := round_half_even c1 (exp_min - e1)) in *.
  destruct (ndigits q >? prec) eqn:G.
  - destruct (_ >? Etop); [discriminate|].
    intros H. inversion H. subst.
    split; [apply Z.div_pos; lia|].
    apply Z.div_lt_upper_bound; [lia|]. unfold prec in *. lia.
  - destruct (_ >? Etop); [discriminate|].
    intros H. inversion H. subst.
    split; [lia|]. apply ndigits_lt_pow; [lia|]. lia.
Qed.

(** A coefficient of at most [prec] digits is kept as it is *)
Lemma fix_fin_exact s c e :
  0 < c < 10 ^ prec -> Etiny <= e <= Etop ->
  fix_fin s c e = Ok (Fin s c e).
Proof.
  intros [Hc Hi] [Elo Ehi]. unfold fix_fin.
  replace (c =? 0) with false by (symmetry; apply Z.eqb_neq; lia).
  pose proof (ndigits_le c prec Hc Hi) as N.
  replace (ndigits c + e - prec >? Etop) with false
    by (symmetry; rewrite Z.gtb_ltb; apply Z.ltb_ge; lia).
  replace (e <? Z.max (ndigits c + e - prec) Etiny) with false
    by (symmetry; apply Z.ltb_ge; lia).
  reflexivity.
Qed.

Definition well_formed (d : Decimal) : Prop :=
  match d with
  | Fin _ c _ => 0 <= c
  | _ => True
  end.

Lemma strip_zeros_nonneg fuel :
  forall coeff exp ideal c' e',
    0 <= coeff -> strip_zeros fuel coeff exp ideal = (c', e') -> 0 <= c'.
Proof.
  induction fuel as [|k IH]; intros coeff exp ideal c' e' H E;
    cbn [strip_zeros] in E.
  - inversion E. subst. exact H.
  - destruct (_ && _).
    + eapply IH; [|exact E]. apply Z.div_pos; lia.
    + inversion E. subst. exact H.
Qed.

(** Products and quotients carry at most [prec] = 28 digits *)
Lemma mul_digits a b s c e :
  well_formed a -> well_formed b -> mul a b = Ok (Fin s c e) ->
  0 <= c < 10 ^ prec.
Proof.
  intros Wa Wb. unfold mul.
  destruct a as [s1 c1 e1|s1|[|]], b as [s2 c2 e2|s2|[|]];
    cbn [check_nans invalid_operation]; try discriminate.
  - cbn in Wa, Wb. apply fix_fin_digits. apply Z.mul_nonneg_nonneg; lia.
  - destruct (c1 =? 0); discriminate.
  - destruct (c2 =? 0); discriminate.
Qed.

Lemma div_digits a b s c e :
  well_formed a -> well_formed b -> div a b = Ok (Fin s c e) ->
  0 <= c < 10 ^ prec.
Proof.
  intros Wa Wb. unfold div.
  destruct a as [s1 c1 e1|s1|[|]], b as [s2 c2 e2|s2|[|]];
    cbn [check_nans invalid_operation]; try discriminate.
  - cbn in Wa, Wb.
    destruct (c2 =? 0) eqn:Z2; [destruct (c1 =? 0); discriminate|].
    apply Z.eqb_neq in Z2.
    destruct (c1 =? 0) eqn:Z1; [apply fix_fin_digits; lia|].
    apply Z.eqb_neq in Z1.
    set (shift := ndigits c2 - ndigits c1 + prec + 1).
    destruct (if 0 <=? shift then (c1 * 10 ^ shift, c2)
              else (c1, c2 * 10 ^ (- shift))) as [n d] eqn:ND.
    assert (Hn : 0 <= n /\ 0 < d).
    { destruct (0 <=? shift) eqn:S; inversion ND; subst.
      - apply Z.leb_le in S. split; [|lia].
        apply Z.mul_nonneg_nonneg; [lia|]. apply Z.pow_nonneg. lia.
      - apply Z.leb_gt in S. split; [lia|].
        apply Z.mul_pos_pos; [lia|]. apply Z.pow_pos_nonneg; lia. }
    destruct Hn as [Hn Hd].
    assert (Hq : 0 <= n / d) by (apply Z.div_pos; lia).
    destruct (if n mod d =? 0 then _ else _) as [coeff' exp'] eqn:CE.
    apply fix_fin_digits.
    destruct (n mod d =? 0).
    + eapply strip_zeros_nonneg; [|exact CE]. exact Hq.
    + inversion CE. subst. destruct (_ =? 0); lia.
  - intros H. inversion H. subst. pose proof pow_prec_pos. lia.
Qed.

(** A product of at most 28 digits is exact *)
Lemma mul_exact s1 c1 e1 s2 c2 e2 :
  0 < c1 -> 0 < c2 -> c1 * c2 < 10 ^ prec ->
  Etiny <= e1 + e2 <= Etop ->
  mul (Fin s1 c1 e1) (Fin s2 c2 e2) = Ok (Fin (xorb s1 s2) (c1 * c2) (e1 + e2)).
Proof.
  intros H1 H2 Hi He. unfold mul. cbn [check_nans].
  apply fix_fin_exact; [|exact He]. split; [|exact Hi].
  apply Z.mul_pos_pos; assumption.
Qed.

End PrecisionFacts.

(** ** The significand of a parsed float *)

Section FloatFacts.
Import PyFloat.

Lemma digit_val_nonneg c : PyStr.is_digit c = true -> 0 <= PyStr.digit_val c.
Proof.
  unfold PyStr.is_digit, PyStr.digit_val. intros H.
  apply andb_true_iff in H. destruct H as [H _]. apply Nat.leb_le in H. lia.
Qed.

Fixpoint all_digits_in (s : string) : bool :=
  match s with
  | EmptyString => true
  | String c r => PyStr.is_digit c && all_digits_in r
  end.

Lemma take_digits_digits s :
  all_digits_in (fst (NumLit.take_digits s)) = true.
Proof.
  induction s as [|c r IH]; cbn [NumLit.take_digits]; [reflexivity|].
  destruct (PyStr.is_digit c) eqn:D; [|reflexivity].
  destruct (NumLit.take_digits r) as [d rest]. cbn [fst all_digits_in] in *.
  rewrite D, IH. reflexivity.
Qed.

Lemma all_digits_in_app a b :
  all_digits_in a = true -> all_digits_in b = true ->
  all_digits_in (a ++ b) = true.
Proof.
  induction a as [|c r IH]; cbn [append all_digits_in]; [auto|].
  intros H Hb. apply andb_true_iff in H. destruct H as [H1 H2].
  rewrite H1, (IH H2 Hb). reflexivity.
Qed.

Lemma int_of_digits_aux_nonneg s :
  forall acc, all_digits_in s = true -> 0 <= acc ->
  0 <= NumLit.int_of_digits_aux s acc.
Proof.
  induction s as [|c r IH]; intros acc H A; cbn [NumLit.int_of_digits_aux];
    [exact A|].
  cbn [all_digits_in] in H. apply andb_true_iff in H. destruct H as [H1 H2].
  apply IH; [exact H2|]. pose proof (digit_val_nonneg c H1). lia.
Qed.

Lemma parse_number_nonneg s c e :
  NumLit.parse_number s = Some (c, e) -> 0 <= c.
Proof.
  unfold NumLit.parse_number.
  pose proof (take_digits_digits s) as D1.
  destruct (NumLit.take_digits s) as [ip r1]. cbn [fst] in D1.
  assert (D2 : forall fp r2,
             match r1 with
             | String ch r =>
                 if (ch =? ".")%char then NumLit.take_digits r
                 else (EmptyString, r1)
             | EmptyString => (EmptyString, r1)
             end = (fp, r2) -> all_digits_in fp = true).
  { intros fp r2 E. destruct r1 as [|ch r].
    - inversion E. reflexivity.
    - destruct (ch =? ".")%char.
      + pose proof (take_digits_digits r) as D. rewrite E in D. exact D.
      + inversion E. reflexivity. }
  destruct (match r1 with
            | String ch r =>
                if (ch =? ".")%char then NumLit.take_digits r
                else (EmptyString, r1)
            | EmptyString => (EmptyString, r1)
            end) as [fp r2].
  specialize (D2 fp r2 eq_refl).
  pose proof (all_digits_in_app ip fp D1 D2) as D.
  destruct (ip ++ fp)%string as [|ch ds] eqn:E; [discriminate|].
  destruct (NumLit.parse_exponent r2); [|discriminate].
  intros H. inversion H. subst.
  apply int_of_digits_aux_nonneg; [exact D|lia].
Qed.

Lemma round_div_bound n d :
  0 <= n -> 0 < d -> 0 <= round_div n d <= n / d + 1.
Proof.
  intros Hn Hd. unfold round_div.
  pose proof (Z.div_pos n d Hn Hd).
  destruct (_ >? _); [lia|]. destruct (_ =? _); [|lia].
  destruct (Z.odd _); lia.
Qed.

Lemma scale_pos n d e n1 d1 :
  0 < n -> 0 < d -> scale n d e = (n1, d1) -> 0 < n1 /\ 0 < d1.
Proof.
  intros Hn Hd. unfold scale. destruct (0 <=? e) eqn:E; intros H; inversion H;
    subst; (split; [|try lia]); try lia.
  all: apply Z.mul_pos_pos; [lia|]; apply Z.pow_pos_nonneg; [lia|].
  all: first [apply Z.leb_le in E | apply Z.leb_gt in E]; lia.
Qed.

(** Scaled by a large enough power of two the ratio is below [2^53] *)
Lemma scale_below n d e n1 d1 :
  0 < n -> 0 < d -> Z.log2 n - Z.log2 d - 52 <= e ->
  scale n d e = (n1, d1) -> n1 / d1 < 2 ^ 53.
Proof.
  intros Hn Hd He Sc.
  destruct (scale_pos n d e n1 d1 Hn Hd Sc) as [Hn1 Hd1].
  apply Z.div_lt_upper_bound; [exact Hd1|].
  destruct (Z.log2_spec n Hn) as [_ Ln]. destruct (Z.log2_spec d Hd) as [Ld _].
  pose proof (Z.log2_nonneg n) as Nn. pose proof (Z.log2_nonneg d) as Nd.
  unfold scale in Sc. destruct (0 <=? e) eqn:E; injection Sc as <- <-.
  - apply Z.leb_le in E.
    eapply Z.lt_le_trans; [exact Ln|].
    apply Z.le_trans with (2 ^ Z.log2 d * (2 ^ e * 2 ^ 53)).
    + rewrite <- !Z.pow_add_r by lia. apply Z.pow_le_mono_r; lia.
    + assert (0 < 2 ^ e * 2 ^ 53).
      { apply Z.mul_pos_pos; apply Z.pow_pos_nonneg; lia. }
      nia.
  - apply Z.leb_gt in E.
    apply Z.lt_le_trans with (2 ^ Z.succ (Z.log2 n) * 2 ^ (- e)).
    + apply Z.mul_lt_mono_pos_r; [apply Z.pow_pos_nonneg; lia|exact Ln].
    + apply Z.le_trans with (2 ^ Z.log2 d * 2 ^ 53).
      * rewrite <- !Z.pow_add_r by lia. apply Z.pow_le_mono_r; lia.
      * nia.
Qed.

Lemma of_ratio_significand neg n d s m e :
  0 < n -> 0 < d -> of_ratio neg n d = FFin s m e -> 0 <= m < 2 ^ 53.
Proof.
  intros Hn Hd. unfold of_ratio.
  set (e0 := Z.max (Z.log2 n - Z.log2 d - 53) (-1074)).
  destruct (scale n d e0) as [n0 d0] eqn:S0.
  set (e1 := if n0 / d0 >=? 2 ^ 53 then e0 + 1 else e0).
  destruct (scale n d e1) as [n1 d1] eqn:S1.
  destruct (scale_pos n d e1 n1 d1 Hn Hd S1) as [Hn1 Hd1].
  assert (B : n1 / d1 < 2 ^ 53).
  { subst e1. destruct (n0 / d0 >=? 2 ^ 53) eqn:G.
    - apply (scale_below n d (e0 + 1)); auto. subst e0. lia.
    - rewrite S0 in S1. inversion S1. subst.
      rewrite Z.geb_leb in G. apply Z.leb_gt in G. exact G. }
  pose proof (round_div_bound n1 d1 ltac:(lia) Hd1) as R.
  destruct (round_div n1 d1 =? 2 ^ 53) eqn:Q.
  - destruct (_ >? 971); [discriminate|]. intros H. inversion H. subst. lia.
  - apply Z.eqb_neq in Q. destruct (_ >? 971); [discriminate|].
    intros H. inversion H. subst. lia.
Qed.

(** Whatever the literal, the float has a significand of 53 bits *)
Lemma float_significand text s m e :
  of_string text = Ok (FFin s m e) -> 0 <= m < 2 ^ 53.
Proof.
  unfold of_string.
  destruct (drop_underscores _ _) as [s1|]; [|discriminate].
  destruct (NumLit.take_sign s1) as [neg r].
  destruct (_ || _); [discriminate|].
  destruct (_ =? _)%string; [discriminate|].
  destruct (NumLit.parse_number r) as [[c x]|] eqn:P; [|discriminate].
  pose proof (parse_number_nonneg _ _ _ P) as C.
  intros H. inversion H as [H']. clear H. revert H'. unfold of_decimal.
  destruct (c =? 0) eqn:Z0.
  { intros H. inversion H. lia. }
  apply Z.eqb_neq in Z0.
  destruct (0 <=? x) eqn:X.
  - apply Z.leb_le in X. apply of_ratio_significand; [|lia].
    apply Z.mul_pos_pos; [lia|]. apply Z.pow_pos_nonneg; lia.
  - apply Z.leb_gt in X. apply of_ratio_significand; [lia|].
    apply Z.pow_pos_nonneg; lia.
Qed.

End FloatFacts.

Section ProfitFacts.
Import Soup PyFloat Extractor.

(** The profit of a candidate is what [float] made of a token *)
Lemma process_row_profit threshold row seq v :
  process_row threshold row = Ok (Some (seq, v)) ->
  exists token, of_string token = Ok v.
Proof.
  unfold process_row.
  destruct (_ <? 7)%nat; [discriminate|].
  destruct (symbols_of _) as [[[[[s b1] b2] b3]|]|e]; cbn [res_bind];
    try discriminate.
  destruct (negb _); [discriminate|].
  destruct (list_get _ 6) as [td|e]; cbn [res_bind]; [|discriminate].
  destruct (find "div" _ td) as [profit_div|]; [|discriminate].
  unfold profit_of.
  destruct (list_get (PyStr.split_ws _) 0) as [token|[[] m]]; cbn [res_bind];
    try discriminate.
  destruct (of_string token) as [p|[[] m]] eqn:E; cbn [res_bind];
    try discriminate.
  destruct (gt p threshold); [|discriminate].
  intros H. inversion H. subst. exists token. exact E.
Qed.

End ProfitFacts.

(** C2 as the specification words it fails for the extractor: the profit
    token "1.0000000000000000001" has 20 significant digits and, as a
    decimal, exceeds 1; [float] gives exactly 1.0 for it, the same as for
    "1", and the row is left out under the threshold 1. *)
Lemma profit_figure_is_a_binary_float :
  PyFloat.of_string "1.0000000000000000001" = Ok float_one
  /\ PyFloat.of_string "1" = Ok float_one
  /\ PyDecimal.of_string "1.0000000000000000001"
     = Ok (PyDecimal.Fin false 10000000000000000001 (-19))
  /\ PyDecimal.gt_int (PyDecimal.Fin false 10000000000000000001 (-19)) 1
     = Ok true
  /\ PyFloat.gt float_one (PyFloat.NInt 1) = false
  /\ Extractor.extract_opportunities
       (Soup.Parsed (page_of_rows [usdt_row "1.0000000000000000001"]))
       (PyFloat.NInt MainCheckMacroVerify.PROFIT_THRESHOLD_MACROAXIS)
       empty_world
     = (Ok [], empty_world).
Proof.
  split; [vm_compute; reflexivity|].
  split; [vm_compute; reflexivity|].
  split; [vm_compute; reflexivity|].
  split; [vm_compute; reflexivity|].
  split; vm_compute; reflexivity.
Qed.

(** C2, as the code has it.  The verifier computes in [Decimal] under a
    precision of 28 significant digits, which is at least 20: what it
    returns is [(None, None)] or decimals, every product and quotient
    has a coefficient below [10^28], and a product of at most 28 digits
    is exact.  The profit figure of the extractor is a binary
    floating-point number: a candidate's profit is what [float] made of a
    token, with a significand below [2^53]. *)
Theorem decimal_in_the_verifier_float_in_the_extractor :
  20 <= PyDecimal.prec
  /\ (forall client sequence n w,
        exists v w',
          VerifyBinance.verify_triangular_opportunity client sequence n w
          = (Ok v, w')
          /\ none_or_decimals v)
  /\ (forall a b s c e,
        well_formed a -> well_formed b ->
        PyDecimal.mul a b = Ok (PyDecimal.Fin s c e) ->
        0 <= c < 10 ^ PyDecimal.prec)
  /\ (forall a b s c e,
        well_formed a -> well_formed b ->
        PyDecimal.div a b = Ok (PyDecimal.Fin s c e) ->
        0 <= c < 10 ^ PyDecimal.prec)
  /\ (forall s1 c1 e1 s2 c2 e2,
        0 < c1 -> 0 < c2 -> c1 * c2 < 10 ^ PyDecimal.prec ->
        PyDecimal.Etiny <= e1 + e2 <= PyDecimal.Etop ->
        PyDecimal.mul (PyDecimal.Fin s1 c1 e1) (PyDecimal.Fin s2 c2 e2)
        = Ok (PyDecimal.Fin (xorb s1 s2) (c1 * c2) (e1 + e2)))
  /\ (forall threshold row seq v,
        Extractor.process_row threshold row = Ok (Some (seq, v)) ->
        exists token,
          PyFloat.of_string token = Ok v
          /\ forall s m e, v = PyFloat.FFin s m e -> 0 <= m < 2 ^ 53).
Proof.
  split; [unfold PyDecimal.prec; lia|].
  split; [intros; apply verify_total|].
  split; [exact mul_digits|].
  split; [exact div_digits|].
  split; [exact mul_exact|].
  intros threshold row seq v H.
  destruct (process_row_profit threshold row seq v H) as [token E].
  exists token. split; [exact E|].
  intros s m e ->. exact (float_significand token s m e E).
Qed.

Lemma decimal_in_the_verifier_float_in_the_extractor_witness :
  0 <= 9600000 < 10 ^ PyDecimal.prec
  /\ 0 <= 20 < 10 ^ PyDecimal.prec
  /\ PyDecimal.mul (PyDecimal.Fin false 10000000000000000001 (-19))
                   (PyDecimal.Fin false 3 0)
     = Ok (PyDecimal.Fin false 30000000000000000003 (-19))
  /\ (exists token,
        PyFloat.of_string token = Ok float_1_01
        /\ forall s m e, float_1_01 = PyFloat.FFin s m e -> 0 <= m < 2 ^ 53).
Proof.
  destruct decimal_in_the_verifier_float_in_the_extractor
    as (_ & _ & Hmul & Hdiv & Hexact & Hfloat).
  split; [|split; [|split]].
  - apply (Hmul (PyDecimal.Fin false 160 (-5)) (PyDecimal.Fin false 60000 0)
             false 9600000 (-5)); [cbn; lia | cbn; lia | reflexivity].
  - apply (Hdiv (PyDecimal.of_int 100) (PyDecimal.Fin false 5 (-2))
             false 20 2); [cbn; lia | cbn; lia | reflexivity].
  - apply (Hexact false 10000000000000000001 (-19) false 3 0);
      [lia | lia | reflexivity | unfold PyDecimal.Etiny, PyDecimal.Etop,
         PyDecimal.Emin, PyDecimal.Emax, PyDecimal.prec; lia].
  - apply (Hfloat (PyFloat.NInt 1) (usdt_row "1.01 %")
             "USDT -> GALA -> BTC -> USDT" float_1_01).
    reflexivity.
Defined.

(** ** Containment in async_arb_verify.py *)

Section ContainmentFacts.
Import PyDecimal Asyncio Scraper.

Definition not_nan (d : Decimal) : Prop :=
  match d with
  | NaN _ => False
  | _ => True
  end.

Lemma le_int_not_nan d n b : le_int d n = Ok b -> not_nan d.
Proof. destruct d as [s c e|s|sg]; cbn; auto. discriminate. Qed.

Lemma fix_fin_not_nan s c e r : fix_fin s c e = Ok r -> not_nan r.
Proof.
  unfold fix_fin. destruct (c =? 0); [intros H; inversion H; exact I|].
  destruct (_ >? Etop); [discriminate|].
  destruct (e <? _); [|intros H; inversion H; exact I].
  destruct (if _ <? 0 then _ else _) as [c1 e1].
  destruct (if ndigits _ >? prec then _ else _) as [q' em'].
  destruct (_ >? Etop); [discriminate|]. intros H; inversion H; exact I.
Qed.

Lemma div_not_nan a b r : not_nan a -> not_nan b -> div a b = Ok r -> not_nan r.
Proof.
  unfold div.
  destruct a as [s1 c1 e1|s1|g1], b as [s2 c2 e2|s2|g2];
    cbn [not_nan check_nans]; try contradiction; intros _ _.
  - destruct (c2 =? 0); [destruct (c1 =? 0); discriminate|].
    destruct (c1 =? 0); [apply fix_fin_not_nan|].
    destruct (if 0 <=? _ then _ else _) as [n d].
    destruct (if n mod d =? 0 then _ else _) as [c' e'].
    apply fix_fin_not_nan.
  - intros H; inversion H; exact I.
  - intros H; inversion H; exact I.
  - discriminate.
Qed.

Lemma mul_not_nan a b r : not_nan a -> not_nan b -> mul a b = Ok r -> not_nan r.
Proof.
  unfold mul.
  destruct a as [s1 c1 e1|s1|g1], b as [s2 c2 e2|s2|g2];
    cbn [not_nan check_nans]; try contradiction; intros _ _.
  - apply fix_fin_not_nan.
  - destruct (c1 =? 0); [discriminate|]. intros H; inversion H; exact I.
  - destruct (c2 =? 0); [discriminate|]. intros H; inversion H; exact I.
  - intros H; inversion H; exact I.
Qed.

Lemma returns_bind_lift {A B} (P : B -> Prop) (r : Res A) (k : A -> M B) :
  (forall a, r = Ok a -> returns P (k a)) -> returns P (bind (lift r) k).
Proof.
  intros H w v w' E. unfold bind, lift in E. destruct r as [a|e]; [|discriminate].
  exact (H a eq_refl w v w' E).
Qed.

Definition none_or_numbers (v : PyVal * PyVal) : Prop :=
  v = (PyNone, PyNone) \/ exists f r, v = (PyDec f, PyDec r) /\ not_nan r.

Lemma body_returns_numbers client sequence n :
  returns none_or_numbers (VerifyBinance.verify_body client sequence n).
Proof.
  unfold VerifyBinance.verify_body.
  apply returns_if.
  { apply returns_bind. intros _. apply returns_ret. left. reflexivity. }
  destruct (VerifyBinance.parse_sequence sequence)
    as [|start [|mid [|end_ [|final [|x l]]]]]; try apply returns_raise.
  apply returns_bind; intros t1.
  apply returns_bind; intros p1.
  apply returns_bind_lift; intros bad1 B1.
  destruct bad1.
  { apply returns_bind. intros _. apply returns_ret. left. reflexivity. }
  apply returns_bind_lift; intros a1 A1.
  apply returns_bind; intros t2.
  apply returns_bind; intros p2.
  apply returns_bind_lift; intros bad2 B2.
  destruct bad2.
  { apply returns_bind. intros _. apply returns_ret. left. reflexivity. }
  apply returns_bind_lift; intros a2 A2.
  apply returns_bind; intros t3.
  apply returns_bind; intros p3.
  apply returns_bind_lift; intros bad3 B3.
  destruct bad3.
  { apply returns_bind. intros _. apply returns_ret. left. reflexivity. }
  apply returns_bind_lift; intros f F.
  apply returns_bind_lift; intros r R.
  repeat (apply returns_bind; intros ?).
  apply returns_ret. right. exists f, r. split; [reflexivity|].
  apply le_int_not_nan in B1, B2, B3.
  assert (N1 : not_nan a1) by (eapply div_not_nan; [| |exact A1]; cbn; auto).
  assert (N2 : not_nan a2) by (eapply mul_not_nan; [| |exact A2]; auto).
  assert (N3 : not_nan f) by (eapply mul_not_nan; [| |exact F]; auto).
  eapply div_not_nan; [| |exact R]; cbn; auto.
Qed.

Lemma verify_returns_numbers client sequence n w :
  exists v w',
    VerifyBinance.verify_triangular_opportunity client sequence n w = (Ok v, w')
    /\ none_or_numbers v.
Proof.
  unfold VerifyBinance.verify_triangular_opportunity, try_except.
  destruct (VerifyBinance.verify_body client sequence n w) as [[v|e] w'] eqn:E.
  - exists v, w'. split; [reflexivity|].
    exact (body_returns_numbers _ _ _ _ _ _ E).
  - eexists _, _. split; [reflexivity|]. left. reflexivity.
Qed.

Lemma gt_int_not_nan d n : not_nan d -> exists b, gt_int d n = Ok b.
Proof.
  unfold gt_int. destruct d as [s c e|s|g]; cbn [not_nan]; [| |contradiction];
    intros _; cbn [cmp of_int].
  - destruct (compare_fin _ _ _ _ _ _); eauto.
  - destruct s; eauto.
Qed.

(** [verify_from_binance] of async_arb_verify.py always returns *)
Lemma async_arb_verify_returns client sequence w :
  exists w', AsyncArbVerify.verify_from_binance client sequence w = (Ok tt, w').
Proof.
  unfold AsyncArbVerify.verify_from_binance.
  change (VerifyBinance.call_verify_triangular_opportunity client sequence
            [("starting_amount", 100)])
    with (VerifyBinance.verify_triangular_opportunity client sequence 100).
  destruct (verify_returns_numbers client sequence 100 w) as (v & w' & E & N).
  unfold bind at 1. rewrite E.
  destruct N as [-> | (f & r & -> & N)].
  - eexists. reflexivity.
  - destruct (gt_int_not_nan r 1 N) as [b G].
    rewrite (bind_lift_ok _ b) by exact G.
    destruct b; eexists; reflexivity.
Qed.

Lemma async_arb_report_returns client timestamp url opportunities :
  forall w,
  exists w',
    report_each (AsyncArbVerify.verify_from_binance client) timestamp url
      opportunities w = (Ok tt, w').
Proof.
  induction opportunities as [|[seq profit] rest IH]; intros w;
    cbn [report_each].
  - eexists. reflexivity.
  - rewrite bind_print. unfold bind at 1.
    match goal with
    | |- context [AsyncArbVerify.verify_from_binance client seq ?w0] =>
        destruct (async_arb_verify_returns client seq w0) as [w1 E]
    end.
    rewrite E. apply IH.
Qed.

(** The page, once parsed, is searched and reported without an
    exception; the exception of the parser passes *)
Lemma async_arb_extract_and_verify_returns client threshold timestamp url page w :
  match page with
  | Soup.Parsed _ =>
      exists w',
        extract_and_verify (AsyncArbVerify.verify_from_binance client) threshold
          timestamp url page w = (Ok tt, w')
  | Soup.Rejected reason =>
      extract_and_verify (AsyncArbVerify.verify_from_binance client) threshold
        timestamp url page w = (Raise (Soup.parser_rejected_markup reason), w)
  end.
Proof.
  destruct page as [soup|reason]; [|reflexivity].
  unfold extract_and_verify.
  destruct (extract_total soup threshold w) as (l & lines & E).
  unfold bind. rewrite E. apply async_arb_report_returns.
Qed.

(** A coroutine that can raise nothing but the exception of the parser *)
Inductive contained {A} : Task A -> Prop :=
| ct_ret a : contained (Ret a)
| ct_rejected e : rejected_by_parser e -> contained (Throw e)
| ct_do m k : (forall w, contained (k (fst (m w)))) -> contained (Do m k)
| ct_get u k : (forall r, contained (k r)) -> contained (Get u k)
| ct_text k : (forall r, contained (k r)) -> contained (ReadText k)
| ct_sleep ms k : contained k -> contained (Sleep ms k)
| ct_acquire k : contained k -> contained (Acquire k)
| ct_release k : contained k -> contained (Release k).

Lemma async_arb_task_contained client timestamp url :
  contained (AsyncArbVerify.scrape_and_find client timestamp url).
Proof.
  unfold AsyncArbVerify.scrape_and_find, AsyncArbVerify.fetch. cbn [tbind].
  assert (Tail : forall html : option Page,
             contained
               match html with
               | Some page =>
                   do_ (extract_and_verify
                          (AsyncArbVerify.verify_from_binance client)
                          (PyFloat.NInt AsyncArbVerify.PROFIT_THRESHOLD)
                          timestamp url page) (Ret tt)
               | None => Ret tt
               end).
  { intros [page|]; [|constructor]. unfold do_. constructor. intros w.
    pose proof (async_arb_extract_and_verify_returns client
                  (PyFloat.NInt AsyncArbVerify.PROFIT_THRESHOLD)
                  timestamp url page w) as E.
    destruct page as [soup|reason].
    - destruct E as [w' E]. rewrite E. constructor.
    - rewrite E. constructor. exists reason. reflexivity. }
  constructor. intros [status|e]; cbn [tbind]; [|apply (Tail None)].
  destruct (negb (status =? 200)); cbn [tbind].
  - constructor. intros w. apply (Tail None).
  - constructor. intros [html|e]; cbn [tbind];
      [apply (Tail (Some html)) | apply (Tail None)].
Qed.

Lemma slot_step_contained s w sl s' w' sl' :
  slot_step s w sl s' w' sl' ->
  contained (task sl) -> contained (task sl').
Proof.
  intros St N. destruct St; cbn [task] in *; inversion N; subst; auto.
  match goal with
  | H : forall w, contained (k (fst (m w))), E : m w = _ |- _ =>
      specialize (H w); rewrite E in H; exact H
  end.
Qed.

Definition process_contained (p : Process) : Prop :=
  match p with
  | Polling l => Forall (fun sl => contained (task sl)) (slots l)
  | Pausing _ _ => True
  | Crashed e => rejected_by_parser e
  end.

Lemma async_arb_step_contained client urls p p' :
  main_step (AsyncArbVerify.scrape_and_find client) urls p p' ->
  process_contained p -> process_contained p'.
Proof.
  intros St C. destruct St; cbn [process_contained] in *.
  - destruct H as [pre sl post s w s' w' sl' St]. cbn [slots] in *.
    apply Forall_app in C. destruct C as [Cpre Crest].
    inversion Crest as [|x xs Csl Cpost]; subst.
    apply Forall_app. split; [assumption|]. constructor; [|assumption].
    eapply slot_step_contained; eassumption.
  - rewrite Forall_forall in C. specialize (C _ H). cbn [task] in C.
    inversion C. assumption.
  - exact I.
  - unfold spawn. cbn [slots].
    induction (combine timestamps urls) as [|[ts url] l IH]; cbn [map];
      constructor; [apply async_arb_task_contained | exact IH].
Qed.

(** In async_arb_verify.py no reply, row or quote makes the process
    leave the polling loop: only a page that the parser refuses does *)
Lemma async_arb_crashes_on_rejected_markup_only client urls timestamps w p :
  reachable (AsyncArbVerify.scrape_and_find client) urls
    (AsyncArbVerify.start client urls timestamps w) p ->
  process_contained p.
Proof.
  intros R. induction R.
  - unfold AsyncArbVerify.start, spawn. cbn [process_contained slots].
    induction (combine timestamps urls) as [|[ts url] l IH]; cbn [map];
      constructor; [apply async_arb_task_contained | exact IH].
  - eapply async_arb_step_contained; eassumption.
Qed.

End ContainmentFacts.

(** ** The list of endpoints and the start of [main] *)

(** The first field of every non-empty row, stripped, in the order of
    the file *)
Definition first_fields (rows : list (list string)) : list string :=
  flat_map (fun row => match row with
                       | [] => []
                       | field :: _ => [PyStr.strip field]
                       end) rows.

Definition read_error_line (e : exn) : string :=
  "Error reading CSV file: " ++ exn_str e.

(** The world after [lines] were printed *)
Definition after_printing (w : World) (lines : list string) : World :=
  {| lookups := lookups w; stdout := app (stdout w) lines |}.

(** A file system that holds the one file [rows], read to the end or up
    to [failure] *)
Definition one_file (rows : list (list string)) (failure : option exn)
  : UrlList.FileSystem :=
  fun _ => UrlList.Readable rows failure.

Definition no_file : UrlList.FileSystem :=
  fun path =>
    UrlList.Unreadable
      (mkExn (OtherException "FileNotFoundError")
             ("[Errno 2] No such file or directory: '" ++ path ++ "'")).

Definition decode_error : exn :=
  mkExn (OtherException "UnicodeDecodeError")
        "'utf-8' codec can't decode byte 0xff in position 40: invalid start byte".

Section UrlListFacts.
Import UrlList.

Lemma read_rows_spec rows :
  forall urls, read_rows rows urls = app urls (first_fields rows).
Proof.
  induction rows as [|row rest IH]; intros urls; cbn [read_rows first_fields flat_map].
  - rewrite app_nil_r. reflexivity.
  - destruct row as [|field fields].
    + rewrite IH. reflexivity.
    + rewrite IH, <- app_assoc. reflexivity.
Qed.

Lemma after_printing_nil w : after_printing w [] = w.
Proof. unfold after_printing. rewrite app_nil_r. destruct w. reflexivity. Qed.

Lemma after_printing_app w a b :
  after_printing (after_printing w a) b = after_printing w (a ++ b).
Proof. unfold after_printing. cbn [lookups stdout]. rewrite app_assoc. reflexivity. Qed.

(** What the function gives on each kind of file *)
Lemma load_urls_cases fs path w :
  load_urls_from_csv fs path w
  = match fs path with
    | Unreadable e => (Ok [], after_printing w [read_error_line e])
    | Readable rows None => (Ok (first_fields rows), w)
    | Readable rows (Some e) =>
        (Ok (first_fields rows), after_printing w [read_error_line e])
    end.
Proof.
  unfold load_urls_from_csv. destruct (fs path) as [e|rows [e|]].
  - reflexivity.
  - cbv zeta. rewrite read_rows_spec. reflexivity.
  - cbv zeta. rewrite read_rows_spec. reflexivity.
Qed.

End UrlListFacts.

(** X1. [load_urls_from_csv] never raises.  It returns, in the order of
    the file, the stripped first field of every non-empty row the reader
    yielded; blank rows give nothing, the other fields are dropped.  When
    the file cannot be opened the list is empty and one line is printed;
    when the reader fails part-way the URLs read before the failure are
    kept and returned, after the same line. *)
Theorem load_urls_keeps_the_rows_read :
  (forall fs path w e,
     fs path = UrlList.Unreadable e ->
     UrlList.load_urls_from_csv fs path w
     = (Ok [], after_printing w [read_error_line e]))
  /\ (forall fs path w rows,
        fs path = UrlList.Readable rows None ->
        UrlList.load_urls_from_csv fs path w = (Ok (first_fields rows), w))
  /\ (forall fs path w rows e,
        fs path = UrlList.Readable rows (Some e) ->
        UrlList.load_urls_from_csv fs path w
        = (Ok (first_fields rows), after_printing w [read_error_line e]))
  /\ (forall fs path w,
        exists urls lines,
          UrlList.load_urls_from_csv fs path w
          = (Ok urls, after_printing w lines)
          /\ (List.length lines <= 1)%nat)
  /\ (forall before after_,
        first_fields (before ++ [] :: after_)
        = first_fields (before ++ after_))
  /\ (forall before field fields after_,
        first_fields (before ++ (field :: fields) :: after_)
        = app (first_fields before)
              (PyStr.strip field :: first_fields after_)).
Proof.
  split; [|split; [|split; [|split; [|split]]]].
  - intros fs path w e H. rewrite load_urls_cases, H. reflexivity.
  - intros fs path w rows H. rewrite load_urls_cases, H. reflexivity.
  - intros fs path w rows e H. rewrite load_urls_cases, H. reflexivity.
  - intros fs path w. rewrite load_urls_cases.
    destruct (fs path) as [e|rows [e|]].
    + exists [], [read_error_line e]. split; [reflexivity|]. cbn. lia.
    + exists (first_fields rows), [read_error_line e].
      split; [reflexivity|]. cbn. lia.
    + exists (first_fields rows), []. rewrite after_printing_nil.
      split; [reflexivity|]. cbn. lia.
  - intros before after_. unfold first_fields.
    rewrite !flat_map_app. reflexivity.
  - intros before field fields after_. unfold first_fields.
    rewrite !flat_map_app. reflexivity.
Qed.

Lemma load_urls_keeps_the_rows_read_witness :
  UrlList.load_urls_from_csv no_file "usdt_url_list.csv" empty_world
  = (Ok [],
     mkWorld []
       ["Error reading CSV file: [Errno 2] No such file or directory: 'usdt_url_list.csv'"])
  /\ UrlList.load_urls_from_csv
       (one_file [[" https://a.example/x "; "note"]; []; ["https://a.example/y"]]
                 None)
       "usdt_url_list.csv" empty_world
     = (Ok ["https://a.example/x"; "https://a.example/y"], empty_world)
  /\ UrlList.load_urls_from_csv
       (one_file [["https://a.example/x"]] (Some decode_error))
       "usdt_url_list.csv" empty_world
     = (Ok ["https://a.example/x"],
        mkWorld []
          ["Error reading CSV file: 'utf-8' codec can't decode byte 0xff in position 40: invalid start byte"]).
Proof.
  split; [|split].
  - apply (proj1 load_urls_keeps_the_rows_read no_file "usdt_url_list.csv"
             empty_world
             (mkExn (OtherException "FileNotFoundError")
                "[Errno 2] No such file or directory: 'usdt_url_list.csv'")).
    reflexivity.
  - apply (proj1 (proj2 load_urls_keeps_the_rows_read)
             (one_file [[" https://a.example/x "; "note"]; [];
                        ["https://a.example/y"]] None)
             "usdt_url_list.csv" empty_world
             [[" https://a.example/x "; "note"]; []; ["https://a.example/y"]]).
    reflexivity.
  - apply (proj1 (proj2 (proj2 load_urls_keeps_the_rows_read))
             (one_file [["https://a.example/x"]] (Some decode_error))
             "usdt_url_list.csv" empty_world
             [["https://a.example/x"]] decode_error).
    reflexivity.
Defined.

(** What [main] of either script does before the loop *)
Definition no_urls_line : string := "No URLs loaded from CSV.".

Definition async_arb_start_line : string :=
  "Starting arbitrage scraper (USDT sequences only)...".

Definition main_check_start_line (urls : list string) : string :=
  "Loaded " ++ PyStr.str_of_int (Z.of_nat (List.length urls))
  ++ " URLs. Starting asynchronous scraping (USDT sequences only)...".

Section StartupFacts.
Import UrlList.

(** The URLs read and the lines printed while reading *)
Definition loaded (f : CsvFile) : list string * list string :=
  match f with
  | Unreadable e => ([], [read_error_line e])
  | Readable rows None => (first_fields rows, [])
  | Readable rows (Some e) => (first_fields rows, [read_error_line e])
  end.

Lemma load_urls_loaded fs path w :
  load_urls_from_csv fs path w
  = (Ok (fst (loaded (fs path))), after_printing w (snd (loaded (fs path)))).
Proof.
  rewrite load_urls_cases. destruct (fs path) as [e|rows [e|]]; cbn [loaded fst snd];
    rewrite ?after_printing_nil; reflexivity.
Qed.

Lemma async_arb_main_cases fs client timestamps w :
  AsyncArbVerify.main fs client timestamps w
  = let '(urls, lines) := loaded (fs AsyncArbVerify.csv_file) in
    match urls with
    | [] => Exited (after_printing w (lines ++ [no_urls_line]))
    | _ =>
        Looping urls
          (AsyncArbVerify.start client urls timestamps
             (after_printing w (lines ++ [async_arb_start_line])))
    end.
Proof.
  unfold AsyncArbVerify.main, AsyncArbVerify.startup, bind.
  rewrite load_urls_loaded.
  destruct (loaded (fs AsyncArbVerify.csv_file)) as [urls lines].
  cbn [fst snd]. destruct urls as [|u urls];
    cbn [print ret]; rewrite <- after_printing_app; reflexivity.
Qed.

Lemma main_check_main_cases fs client timestamps w :
  MainCheckMacroVerify.main fs client timestamps w
  = let '(urls, lines) := loaded (fs MainCheckMacroVerify.csv_file) in
    match urls with
    | [] => Exited (after_printing w (lines ++ [no_urls_line]))
    | _ =>
        Looping urls
          (MainCheckMacroVerify.start client urls timestamps
             (after_printing w (lines ++ [main_check_start_line urls])))
    end.
Proof.
  unfold MainCheckMacroVerify.main, MainCheckMacroVerify.startup, bind.
  rewrite load_urls_loaded.
  destruct (loaded (fs MainCheckMacroVerify.csv_file)) as [urls lines].
  cbn [fst snd]. destruct urls as [|u urls];
    cbn [print ret]; rewrite <- after_printing_app; reflexivity.
Qed.

End StartupFacts.

(** X2. In both scripts [main] reads "usdt_url_list.csv" once.  A file
    that cannot be opened, or that holds no non-empty row, does not raise:
    [main] prints "No URLs loaded from CSV." (after the read error, if
    any) and returns without polling.  As soon as one URL was read [main]
    enters the loop over the URLs read, also when the reader failed after
    them: the list is then the part read before the failure. *)
Theorem main_polls_what_was_read :
  (forall fs client timestamps w e,
     fs "usdt_url_list.csv" = UrlList.Unreadable e ->
     AsyncArbVerify.main fs client timestamps w
     = UrlList.Exited (after_printing w [read_error_line e; no_urls_line])
     /\ MainCheckMacroVerify.main fs client timestamps w
        = UrlList.Exited (after_printing w [read_error_line e; no_urls_line]))
  /\ (forall fs client timestamps w rows failure,
        fs "usdt_url_list.csv" = UrlList.Readable rows failure ->
        first_fields rows = [] ->
        exists lines,
          AsyncArbVerify.main fs client timestamps w
          = UrlList.Exited (after_printing w (lines ++ [no_urls_line]))
          /\ MainCheckMacroVerify.main fs client timestamps w
             = UrlList.Exited (after_printing w (lines ++ [no_urls_line])))
  /\ (forall fs client timestamps w rows failure,
        fs "usdt_url_list.csv" = UrlList.Readable rows failure ->
        first_fields rows <> [] ->
        exists lines,
          AsyncArbVerify.main fs client timestamps w
          = UrlList.Looping (first_fields rows)
              (AsyncArbVerify.start client (first_fields rows) timestamps
                 (after_printing w (lines ++ [async_arb_start_line])))
          /\ MainCheckMacroVerify.main fs client timestamps w
             = UrlList.Looping (first_fields rows)
                 (MainCheckMacroVerify.start client (first_fields rows) timestamps
                    (after_printing w
                       (lines ++ [main_check_start_line (first_fields rows)])))
          /\ lines = match failure with
                     | Some e => [read_error_line e]
                     | None => []
                     end).
Proof.
  split; [|split].
  - intros fs client timestamps w e H.
    rewrite async_arb_main_cases, main_check_main_cases.
    unfold AsyncArbVerify.csv_file, MainCheckMacroVerify.csv_file.
    rewrite H. split; reflexivity.
  - intros fs client timestamps w rows failure H E.
    rewrite async_arb_main_cases, main_check_main_cases.
    unfold AsyncArbVerify.csv_file, MainCheckMacroVerify.csv_file.
    rewrite H. destruct failure as [e|]; cbn [loaded]; rewrite E.
    + exists [read_error_line e]. split; reflexivity.
    + exists []. split; reflexivity.
  - intros fs client timestamps w rows failure H N.
    rewrite async_arb_main_cases, main_check_main_cases.
    unfold AsyncArbVerify.csv_file, MainCheckMacroVerify.csv_file.
    rewrite H.
    destruct failure as [e|]; cbn [loaded];
      destruct (first_fields rows) as [|u urls] eqn:E; try contradiction.
    + exists [read_error_line e]. repeat split; reflexivity.
    + exists []. repeat split; reflexivity.
Qed.

Lemma main_polls_what_was_read_witness :
  (AsyncArbVerify.main no_file example_client [] empty_world
   = UrlList.Exited
       (mkWorld []
          ["Error reading CSV file: [Errno 2] No such file or directory: 'usdt_url_list.csv'";
           "No URLs loaded from CSV."])
   /\ MainCheckMacroVerify.main no_file example_client [] empty_world
      = UrlList.Exited
          (mkWorld []
             ["Error reading CSV file: [Errno 2] No such file or directory: 'usdt_url_list.csv'";
              "No URLs loaded from CSV."]))
  /\ (exists lines,
        AsyncArbVerify.main
          (one_file [["https://a.example/x"]] (Some decode_error))
          example_client ["2025-01-01 00:00:00"] empty_world
        = UrlList.Looping ["https://a.example/x"]
            (AsyncArbVerify.start example_client ["https://a.example/x"]
               ["2025-01-01 00:00:00"]
               (after_printing empty_world (lines ++ [async_arb_start_line])))
        /\ MainCheckMacroVerify.main
             (one_file [["https://a.example/x"]] (Some decode_error))
             example_client ["2025-01-01 00:00:00"] empty_world
           = UrlList.Looping ["https://a.example/x"]
               (MainCheckMacroVerify.start example_client ["https://a.example/x"]
                  ["2025-01-01 00:00:00"]
                  (after_printing empty_world
                     (lines ++ [main_check_start_line ["https://a.example/x"]])))
        /\ lines = [read_error_line decode_error]).
Proof.
  split.
  - apply (proj1 main_polls_what_was_read no_file example_client [] empty_world
             (mkExn (OtherException "FileNotFoundError")
                "[Errno 2] No such file or directory: 'usdt_url_list.csv'")).
    reflexivity.
  - apply (proj2 (proj2 main_polls_what_was_read)
             (one_file [["https://a.example/x"]] (Some decode_error))
             example_client ["2025-01-01 00:00:00"] empty_world
             [["https://a.example/x"]] (Some decode_error)).
    + reflexivity.
    + discriminate.
Defined.

(** ** The extractor, row by row *)

(** The candidate a row gives on its own, if any *)
Definition candidate_of (threshold : PyFloat.PyNum) (row : Soup.Node)
  : list (string * PyFloat.Float) :=
  match Extractor.process_row threshold row with
  | Ok (Some x) => [x]
  | _ => []
  end.

(** The text of a candidate *)
Definition sequence_of (start buy1 buy2 buy3 : string) : string :=
  start ++ " -> " ++ buy1 ++ " -> " ++ buy2 ++ " -> " ++ buy3.

Section RowFacts.
Import Soup PyFloat Extractor.

Lemma process_rows_flat_map threshold rows :
  process_rows threshold rows = Ok (flat_map (candidate_of threshold) rows).
Proof.
  induction rows as [|row rest IH]; cbn [process_rows flat_map]; [reflexivity|].
  unfold candidate_of at 1.
  destruct (process_row_total threshold row) as [o E]. rewrite E, IH.
  cbn [res_bind]. destruct o; reflexivity.
Qed.

Lemma symbols_of_inv cells start buy1 buy2 buy3 :
  symbols_of cells = Ok (Some (start, buy1, buy2, buy3)) ->
  exists c0 c1 c3 c5,
    nth_error cells 0 = Some c0 /\ cell_symbol c0 = Ok start
    /\ nth_error cells 1 = Some c1 /\ cell_symbol c1 = Ok buy1
    /\ nth_error cells 3 = Some c3 /\ cell_symbol c3 = Ok buy2
    /\ nth_error cells 5 = Some c5 /\ cell_symbol c5 = Ok buy3.
Proof.
  unfold symbols_of, list_get.
  destruct (nth_error cells 0) as [c0|]; cbn [res_bind]; [|discriminate].
  destruct (cell_symbol c0) as [s0|[[] m0]] eqn:F0; cbn [res_bind];
    try discriminate.
  destruct (nth_error cells 1) as [c1|]; cbn [res_bind]; [|discriminate].
  destruct (cell_symbol c1) as [s1|[[] m1]] eqn:F1; cbn [res_bind];
    try discriminate.
  destruct (nth_error cells 3) as [c3|]; cbn [res_bind]; [|discriminate].
  destruct (cell_symbol c3) as [s3|[[] m3]] eqn:F3; cbn [res_bind];
    try discriminate.
  destruct (nth_error cells 5) as [c5|]; cbn [res_bind]; [|discriminate].
  destruct (cell_symbol c5) as [s5|[[] m5]] eqn:F5; cbn [res_bind];
    try discriminate.
  intros H. inversion H. subst. exists c0, c1, c3, c5. repeat split; auto.
Qed.

(** What a row that gave a candidate looked like *)
Lemma process_row_inv threshold row seq v :
  process_row threshold row = Ok (Some (seq, v)) ->
  exists start buy1 buy2 buy3,
    (7 <= List.length (find_all "td" None row))%nat
    /\ symbols_of (find_all "td" None row) = Ok (Some (start, buy1, buy2, buy3))
    /\ PyStr.upper start = "USDT"
    /\ seq = sequence_of start buy1 buy2 buy3
    /\ gt v threshold = true.
Proof.
  unfold process_row.
  destruct (_ <? 7)%nat eqn:L; [discriminate|]. apply Nat.ltb_ge in L.
  destruct (symbols_of _) as [[[[[s b1] b2] b3]|]|e]; cbn [res_bind];
    try discriminate.
  destruct (PyStr.upper s =? "USDT")%string eqn:U; cbn [negb]; [|discriminate].
  apply String.eqb_eq in U.
  destruct (list_get _ 6) as [td|e]; cbn [res_bind]; [|discriminate].
  destruct (find "div" _ td) as [profit_div|]; [|discriminate].
  destruct (profit_of _) as [[p|]|e]; cbn [res_bind]; try discriminate.
  destruct (gt p threshold) eqn:G; [|discriminate].
  intros H. inversion H. subst. exists s, b1, b2, b3. repeat split; auto.
Qed.

Lemma gt_nan threshold : gt FNaN threshold = false.
Proof. reflexivity. Qed.

Lemma few_cells_no_candidate threshold row :
  (List.length (find_all "td" None row) < 7)%nat ->
  process_row threshold row = Ok None.
Proof.
  intros H. unfold process_row. apply Nat.ltb_lt in H. rewrite H. reflexivity.
Qed.

End RowFacts.

(** X3. The only exception that leaves [extract_opportunities] is that
    of the parser, which is called outside every [try]: on a text the
    parser refuses, its exception is raised and nothing is printed.  On
    every text the parser accepts, whatever the tree holds and whatever
    the threshold, the function returns a list and prints at most one
    line; when it prints, the line is one of its three diagnostics and
    the list is empty; a table with fewer than two rows (a header alone)
    gives "Not enough rows found.".  In both cases no quote is looked
    up. *)
Theorem only_the_parser_makes_the_extractor_raise :
  (forall html threshold w,
     match html with
     | Soup.Rejected reason =>
         Extractor.extract_opportunities html threshold w
         = (Raise (Soup.parser_rejected_markup reason), w)
     | Soup.Parsed _ =>
         exists l lines,
           Extractor.extract_opportunities html threshold w
           = (Ok l, after_printing w lines)
           /\ (lines = []
               \/ (l = []
                   /\ (lines = ["No container found."]
                       \/ lines = ["No table found."]
                       \/ lines = ["Not enough rows found."])))
     end)
  /\ (forall soup threshold w container table,
        Soup.soup_find "div" (Some Extractor.container_class) soup = Some container ->
        Soup.find "table" (Some "table") container = Some table ->
        (List.length (Soup.find_all "tr" None table) < 2)%nat ->
        Extractor.extract_opportunities (Soup.Parsed soup) threshold w
        = (Ok [], after_printing w ["Not enough rows found."])).
Proof.
  split.
  - intros [soup|reason] threshold w; [|reflexivity].
    rewrite extract_parsed.
    destruct (Soup.soup_find _ _ soup) as [container|].
    2:{ exists [], ["No container found."]. split; [reflexivity|]. right. auto. }
    destruct (Soup.find "table" _ container) as [table|].
    2:{ exists [], ["No table found."]. split; [reflexivity|]. right. auto. }
    cbv zeta. destruct (_ <? 2)%nat.
    { exists [], ["Not enough rows found."]. split; [reflexivity|]. right. auto. }
    rewrite process_rows_flat_map. eexists _, []. rewrite after_printing_nil.
    split; [reflexivity|]. left. reflexivity.
  - intros soup threshold w container table Hc Ht Hr.
    rewrite extract_parsed, Hc, Ht.
    apply Nat.ltb_lt in Hr. cbv zeta. rewrite Hr. reflexivity.
Qed.

Lemma only_the_parser_makes_the_extractor_raise_witness :
  Extractor.extract_opportunities (Soup.Parsed (page_of_rows [])) (PyFloat.NInt 1)
    empty_world
  = (Ok [], after_printing empty_world ["Not enough rows found."]).
Proof.
  apply (proj2 only_the_parser_makes_the_extractor_raise (page_of_rows [])
           (PyFloat.NInt 1) empty_world
           (Soup.Tag "div" panel_class
              [Soup.Tag "table" (Some ["table"; "table-striped"]) [header_row]])
           (Soup.Tag "table" (Some ["table"; "table-striped"]) [header_row])).
  - reflexivity.
  - reflexivity.
  - cbn. lia.
Defined.

(** X4. Once the panel, the table and at least two rows are found, the
    rows after the first are judged one by one: the list returned holds,
    in the order of the page, the candidate of every row that qualifies
    on its own.  No row can make the extractor fail or change what
    another row gives; the first row is never a candidate; a row with
    fewer than seven cells gives nothing. *)
Theorem rows_are_judged_one_by_one :
  (forall soup threshold w container table,
     Soup.soup_find "div" (Some Extractor.container_class) soup = Some container ->
     Soup.find "table" (Some "table") container = Some table ->
     (2 <= List.length (Soup.find_all "tr" None table))%nat ->
     Extractor.extract_opportunities (Soup.Parsed soup) threshold w
     = (Ok (flat_map (candidate_of threshold)
                     (tl (Soup.find_all "tr" None table))), w))
  /\ (forall threshold rows1 rows2,
        Extractor.process_rows threshold (rows1 ++ rows2)
        = Ok (flat_map (candidate_of threshold) rows1
              ++ flat_map (candidate_of threshold) rows2)%list)
  /\ (forall threshold row,
        (List.length (Soup.find_all "td" None row) < 7)%nat ->
        candidate_of threshold row = [])
  /\ (forall threshold row, (List.length (candidate_of threshold row) <= 1)%nat).
Proof.
  split; [|split; [|split]].
  - intros soup threshold w container table Hc Ht Hr.
    rewrite extract_parsed, Hc, Ht.
    apply Nat.ltb_ge in Hr. cbv zeta. rewrite Hr. rewrite process_rows_flat_map.
    reflexivity.
  - intros threshold rows1 rows2.
    rewrite process_rows_flat_map, flat_map_app. reflexivity.
  - intros threshold row H. unfold candidate_of.
    rewrite (few_cells_no_candidate threshold row H). reflexivity.
  - intros threshold row. unfold candidate_of.
    destruct (Extractor.process_row threshold row) as [[x|]|e]; cbn; lia.
Qed.

Lemma rows_are_judged_one_by_one_witness :
  Extractor.extract_opportunities
    (Soup.Parsed
       (page_of_rows
          [usdt_row "1.01 %";
           Soup.Tag "tr" None [symbol_cell "USDT"; symbol_cell "GALA"];
           opportunity_row "BTC" "GALA" "USDT" "BTC" [Soup.Text "2.50 %"];
           opportunity_row "usdt" "ach" "btc" "usdt" [Soup.Text "3 %"]]))
    (PyFloat.NInt 1) empty_world
  = (Ok (flat_map (candidate_of (PyFloat.NInt 1))
           [usdt_row "1.01 %";
            Soup.Tag "tr" None [symbol_cell "USDT"; symbol_cell "GALA"];
            opportunity_row "BTC" "GALA" "USDT" "BTC" [Soup.Text "2.50 %"];
            opportunity_row "usdt" "ach" "btc" "usdt" [Soup.Text "3 %"]]),
     empty_world)
  /\ flat_map (candidate_of (PyFloat.NInt 1))
       [usdt_row "1.01 %";
        Soup.Tag "tr" None [symbol_cell "USDT"; symbol_cell "GALA"];
        opportunity_row "BTC" "GALA" "USDT" "BTC" [Soup.Text "2.50 %"];
        opportunity_row "usdt" "ach" "btc" "usdt" [Soup.Text "3 %"]]
     = [("USDT -> GALA -> BTC -> USDT", float_1_01);
        ("usdt -> ach -> btc -> usdt", PyFloat.FFin false 6755399441055744 (-51))].
Proof.
  split.
  - apply (proj1 rows_are_judged_one_by_one
             (page_of_rows
                [usdt_row "1.01 %";
                 Soup.Tag "tr" None [symbol_cell "USDT"; symbol_cell "GALA"];
                 opportunity_row "BTC" "GALA" "USDT" "BTC" [Soup.Text "2.50 %"];
                 opportunity_row "usdt" "ach" "btc" "usdt" [Soup.Text "3 %"]])
             (PyFloat.NInt 1) empty_world
             (Soup.Tag "div" panel_class
                [Soup.Tag "table" (Some ["table"; "table-striped"])
                   [header_row;
                    usdt_row "1.01 %";
                    Soup.Tag "tr" None [symbol_cell "USDT"; symbol_cell "GALA"];
                    opportunity_row "BTC" "GALA" "USDT" "BTC" [Soup.Text "2.50 %"];
                    opportunity_row "usdt" "ach" "btc" "usdt" [Soup.Text "3 %"]]])
             (Soup.Tag "table" (Some ["table"; "table-striped"])
                [header_row;
                 usdt_row "1.01 %";
                 Soup.Tag "tr" None [symbol_cell "USDT"; symbol_cell "GALA"];
                 opportunity_row "BTC" "GALA" "USDT" "BTC" [Soup.Text "2.50 %"];
                 opportunity_row "usdt" "ach" "btc" "usdt" [Soup.Text "3 %"]])).
    + reflexivity.
    + reflexivity.
    + cbn. lia.
  - vm_compute. reflexivity.
Defined.

(** X5. Every candidate [extract_opportunities] returns comes from a row
    with at least seven cells whose first symbol is USDT in any letter
    case; its text is the four symbols of the cells 0, 1, 3 and 5 joined
    by " -> ", its figure is strictly above the threshold and is not a
    NaN.  The fourth symbol is not compared with the first. *)
Theorem every_candidate_starts_at_usdt_above_threshold
        html threshold w l w' seq v :
  Extractor.extract_opportunities html threshold w = (Ok l, w') ->
  In (seq, v) l ->
  exists start buy1 buy2 buy3,
    seq = sequence_of start buy1 buy2 buy3
    /\ PyStr.upper start = "USDT"
    /\ PyFloat.gt v threshold = true
    /\ v <> PyFloat.FNaN.
Proof.
  destruct html as [soup|reason]; [|discriminate].
  rewrite extract_parsed.
  destruct (Soup.soup_find _ _ soup) as [container|].
  2:{ intros H. inversion H. subst. intros []. }
  destruct (Soup.find "table" _ container) as [table|].
  2:{ intros H. inversion H. subst. intros []. }
  cbv zeta. destruct (_ <? 2)%nat.
  { intros H. inversion H. subst. intros []. }
  rewrite process_rows_flat_map. intros H. inversion H. subst. clear H.
  intros I. apply in_flat_map in I. destruct I as (row & _ & I).
  unfold candidate_of in I.
  destruct (Extractor.process_row threshold row) as [[x|]|e] eqn:E;
    try contradiction.
  destruct I as [-> | []].
  destruct (process_row_inv _ _ _ _ E) as (s & b1 & b2 & b3 & _ & _ & U & S & G).
  exists s, b1, b2, b3. repeat split; auto.
  intros ->. rewrite gt_nan in G. discriminate.
Qed.

Lemma every_candidate_starts_at_usdt_above_threshold_witness :
  exists start buy1 buy2 buy3,
    "usdt -> ach -> btc -> eth" = sequence_of start buy1 buy2 buy3
    /\ PyStr.upper start = "USDT"
    /\ PyFloat.gt (PyFloat.FInf false) (PyFloat.NInt 1) = true
    /\ PyFloat.FInf false <> PyFloat.FNaN.
Proof.
  apply (every_candidate_starts_at_usdt_above_threshold
           (Soup.Parsed
              (page_of_rows
                 [opportunity_row "usdt" "ach" "btc" "eth" [Soup.Text "inf"]]))
           (PyFloat.NInt 1) empty_world
           [("usdt -> ach -> btc -> eth", PyFloat.FInf false)] empty_world).
  - vm_compute. reflexivity.
  - left. reflexivity.
Defined.

(** ** [fetch] on an arbitrary network *)

(** What a coroutine awaits inside [fetch] of [url] *)
Definition fetch_event (url : string) (a : Asyncio.Await) : Prop :=
  a = Asyncio.AGet url \/ a = Asyncio.AText
  \/ a = Asyncio.ASleep MainCheckMacroVerify.BACKOFF_MS.

(** The request that was answered: nothing for [None] *)
Definition answered (url : string) (r : option Asyncio.Page) : list Asyncio.Await :=
  match r with
  | Some _ => [Asyncio.AGet url]
  | None => []
  end.

(** [page] is what the network served for [url] with the status 200 *)
Definition served (net : Asyncio.Net) (url : string) (page : Asyncio.Page) : Prop :=
  exists tr,
    Asyncio.get_reply net tr url = Ok 200
    /\ Asyncio.text_reply net (tr ++ [Asyncio.AGet url]) = Ok page.

Section FetchFacts.
Import Asyncio MainCheckMacroVerify.
Variables (net : Net) (url : string).

Lemma fetch_event_app a b :
  Forall (fetch_event url) a -> Forall (fetch_event url) b ->
  Forall (fetch_event url) (a ++ b).
Proof. intros. apply Forall_app. split; assumption. Qed.

Lemma fetch_from_outcome left :
  forall attempt w tr,
  exists r lines evs failed,
    run (fetch_from left attempt url) net w tr
    = (Ok r, after_printing w lines, app tr evs)
    /\ (failed <= left)%nat
    /\ List.length lines = failed
    /\ requests evs
       = app (attempts_and_pauses url BACKOFF_MS failed) (answered url r)
    /\ Forall (fetch_event url) evs
    /\ match r with
       | None => failed = left
       | Some page => (failed < left)%nat /\ served net url page
       end.
Proof.
  induction left as [|left IH]; intros attempt w tr.
  - exists None, [], [], 0%nat. cbn [fetch_from run].
    rewrite after_printing_nil, app_nil_r. repeat split; auto.
  - cbn [fetch_from run]. unfold do_. cbn [run].
    assert (Retry : forall msg mid,
               Forall (fetch_event url) mid ->
               requests mid = [AGet url] ->
               exists r lines evs failed,
                 run (fetch_from left (attempt + 1) url) net
                   (snd (print msg w)) (app (app tr mid) [ASleep BACKOFF_MS])
                 = (Ok r, after_printing w lines, app tr evs)
                 /\ (failed <= S left)%nat
                 /\ List.length lines = failed
                 /\ requests evs
                    = app (attempts_and_pauses url BACKOFF_MS failed)
                          (answered url r)
                 /\ Forall (fetch_event url) evs
                 /\ match r with
                    | None => failed = S left
                    | Some page => (failed < S left)%nat /\ served net url page
                    end).
    { intros msg mid Fm Rm.
      destruct (IH (attempt + 1) (snd (print msg w))
                   (app (app tr mid) [ASleep BACKOFF_MS]))
        as (r & lines & evs & failed & E & Le & Len & Rq & Fe & Out).
      exists r, (msg :: lines), (app mid (ASleep BACKOFF_MS :: evs)), (S failed).
      rewrite E. split.
      { unfold after_printing. cbn [print snd lookups stdout].
        rewrite <- !app_assoc. reflexivity. }
      split; [lia|]. split; [cbn [List.length]; lia|]. split.
      { rewrite requests_app, Rm. unfold requests in *.
        cbn [filter attempts_and_pauses app]. rewrite Rq. reflexivity. }
      split.
      { apply fetch_event_app; [assumption|].
        constructor; [right; right; reflexivity | assumption]. }
      destruct r as [page|]; [|lia]. destruct Out as [Lt Sv].
      split; [lia | exact Sv]. }
    destruct (get_reply net tr url) as [status|e] eqn:G.
    + destruct (negb (status =? 200)) eqn:St.
      * cbn [run]. apply (Retry (failed_msg url status attempt) [AGet url]).
        -- constructor; [left; reflexivity | constructor].
        -- reflexivity.
      * apply negb_false_iff, Z.eqb_eq in St. subst status. cbn [run].
        destruct (text_reply net (app tr [AGet url])) as [page|e] eqn:T.
        -- exists (Some page), [], [AGet url; AText], 0%nat. cbn [run].
           rewrite after_printing_nil, <- app_assoc.
           split; [reflexivity|]. split; [lia|]. split; [reflexivity|].
           split; [reflexivity|]. split.
           { constructor; [left; reflexivity|].
             constructor; [right; left; reflexivity | constructor]. }
           split; [lia|]. exists tr. split; assumption.
        -- cbn [run].
           destruct (Retry (error_msg url attempt e) [AGet url; AText])
             as (r & lines & evs & failed & E & Rest).
           { constructor; [left; reflexivity|].
             constructor; [right; left; reflexivity | constructor]. }
           { reflexivity. }
           exists r, lines, evs, failed. split; [|exact Rest].
           rewrite <- E. cbn [print run snd]. rewrite <- !app_assoc. reflexivity.
    + cbn [run]. apply (Retry (error_msg url attempt e) [AGet url]).
      * constructor; [left; reflexivity | constructor].
      * reflexivity.
Qed.

(** The single attempt of async_arb_verify.py *)
Lemma async_arb_fetch_outcome w tr :
  run (AsyncArbVerify.fetch url) net w tr
  = match get_reply net tr url with
    | Raise _ => (Ok None, w, app tr [AGet url])
    | Ok status =>
        if status =? 200 then
          match text_reply net (app tr [AGet url]) with
          | Ok page => (Ok (Some page), w, app tr [AGet url; AText])
          | Raise _ => (Ok None, w, app tr [AGet url; AText])
          end
        else
          (Ok None,
           after_printing w
             ["Failed to retrieve URL " ++ url ++ ": " ++ PyStr.str_of_int status],
           app tr [AGet url])
    end.
Proof.
  unfold AsyncArbVerify.fetch. cbn [run].
  destruct (get_reply net tr url) as [status|e]; [|reflexivity].
  destruct (status =? 200); cbn [negb run].
  - destruct (text_reply net (app tr [AGet url])); cbn [run];
      rewrite <- app_assoc; reflexivity.
  - reflexivity.
Qed.

End FetchFacts.

(** X6. [fetch] of main_check_macro_verify.py, on any network: it never
    raises and makes at most [MAX_RETRIES] = 3 requests.  Every attempt
    that fails (an exception, a status other than 200, a body that cannot
    be read) prints one line and is followed by the pause of 0.5 s; the
    first attempt answered with the status 200 and a readable body ends
    the loop, without a pause, and its page is returned.  [None] is
    returned only after three failed attempts. *)
Theorem fetch_stops_at_the_first_page net url w :
  exists r lines evs failed,
    Asyncio.run (MainCheckMacroVerify.fetch url) net w []
    = (Ok r, after_printing w lines, evs)
    /\ (failed <= 3)%nat
    /\ List.length lines = failed
    /\ requests evs
       = app (attempts_and_pauses url 500 failed) (answered url r)
    /\ Forall (fetch_event url) evs
    /\ match r with
       | None => failed = 3%nat
       | Some page => (failed < 3)%nat /\ served net url page
       end.
Proof.
  destruct (fetch_from_outcome net url MainCheckMacroVerify.MAX_RETRIES 1 w [])
    as (r & lines & evs & failed & E & Rest).
  exists r, lines, evs, failed. split; [exact E | exact Rest].
Qed.

(** X7. [fetch] of async_arb_verify.py, on any network: one request, no
    pause, no exception.  The page is returned exactly when the status is
    200 and the body can be read; a line is printed only for a status
    other than 200, an exception being swallowed without a word (the
    [print] of the handler stands after its [return]). *)
Theorem async_arb_fetch_is_one_silent_attempt net url w :
  exists r lines evs,
    Asyncio.run (AsyncArbVerify.fetch url) net w []
    = (Ok r, after_printing w lines, evs)
    /\ requests evs = [Asyncio.AGet url]
    /\ (forall page,
          r = Some page
          <-> Asyncio.get_reply net [] url = Ok 200
              /\ Asyncio.text_reply net [Asyncio.AGet url] = Ok page)
    /\ (forall line,
          In line lines
          <-> exists status,
                Asyncio.get_reply net [] url = Ok status
                /\ status <> 200
                /\ line = "Failed to retrieve URL " ++ url ++ ": "
                          ++ PyStr.str_of_int status).
Proof.
  rewrite async_arb_fetch_outcome. cbn [app].
  destruct (Asyncio.get_reply net [] url) as [status|e].
  - destruct (status =? 200) eqn:St.
    + apply Z.eqb_eq in St. subst status.
      destruct (Asyncio.text_reply net [Asyncio.AGet url]) as [page|e].
      * exists (Some page), [], [Asyncio.AGet url; Asyncio.AText].
        rewrite after_printing_nil. split; [reflexivity|]. split; [reflexivity|].
        split.
        -- intros p. split.
           ++ intros H. inversion H. subst. split; reflexivity.
           ++ intros [_ H]. inversion H. reflexivity.
        -- intros line. split; [intros []|].
           intros (status & H & N & _). inversion H. subst. contradiction.
      * exists None, [], [Asyncio.AGet url; Asyncio.AText].
        rewrite after_printing_nil. split; [reflexivity|]. split; [reflexivity|].
        split.
        -- intros p. split; [discriminate|]. intros [_ H]. discriminate.
        -- intros line. split; [intros []|].
           intros (status & H & N & _). inversion H. subst. contradiction.
    + apply Z.eqb_neq in St.
      eexists None, [_], [Asyncio.AGet url].
      split; [reflexivity|]. split; [reflexivity|]. split.
      * intros p. split; [discriminate|]. intros [H _]. inversion H.
        subst. contradiction.
      * intros line. split.
        -- intros [<- | []]. exists status. repeat split; auto.
        -- intros (status' & H & N & ->). inversion H. subst. left. reflexivity.
  - exists None, [], [Asyncio.AGet url].
    rewrite after_printing_nil. split; [reflexivity|]. split; [reflexivity|].
    split.
    + intros p. split; [discriminate|]. intros [H _]. discriminate.
    + intros line. split; [intros []|]. intros (status & H & _). discriminate.
Qed.

(** ** A task of main_check_macro_verify.py on an arbitrary network *)

Section TaskFacts.
Import Asyncio Scraper.
Variables (net : Net) (client : Client) (timestamp url : string).

(** The task from the fetched page on *)
Lemma main_check_task_after_fetch w r w1 tr1 :
  run (MainCheckMacroVerify.fetch url) net w [AAcquire] = (Ok r, w1, tr1) ->
  run (MainCheckMacroVerify.scrape_and_find client timestamp url) net w []
  = match r with
    | None => (Ok tt, w1, app tr1 [ARelease])
    | Some page =>
        match extract_and_verify (MainCheckMacroVerify.verify_from_binance client)
                (PyFloat.NInt MainCheckMacroVerify.PROFIT_THRESHOLD_MACROAXIS)
                timestamp url page w1 with
        | (Ok _, w2) => (Ok tt, w2, app tr1 [ARelease])
        | (Raise e, w2) => (Raise e, w2, app tr1 [ARelease])
        end
    end.
Proof.
  intros E. unfold MainCheckMacroVerify.scrape_and_find.
  rewrite run_tbind, run_async_with_sem. cbn [app]. rewrite E.
  destruct r as [page|]; [|reflexivity].
  unfold do_. cbn [run].
  destruct (extract_and_verify _ _ _ _ _ _) as [[[]|e] w2]; reflexivity.
Qed.

(** The exception of the parser passes through [scrape_and_find] *)
Lemma extract_and_verify_rejected verify threshold reason w :
  extract_and_verify verify threshold timestamp url (Soup.Rejected reason) w
  = (Raise (Soup.parser_rejected_markup reason), w).
Proof. reflexivity. Qed.

(** Extraction and report in main_check_macro_verify.py, once the page
    is parsed: no quote is looked up; the first candidate, if any,
    raises *)
Lemma main_check_extract_and_verify soup w :
  exists l lines,
    Extractor.extract_opportunities (Soup.Parsed soup)
      (PyFloat.NInt MainCheckMacroVerify.PROFIT_THRESHOLD_MACROAXIS) w
    = (Ok l, after_printing w lines)
    /\ extract_and_verify (MainCheckMacroVerify.verify_from_binance client)
         (PyFloat.NInt MainCheckMacroVerify.PROFIT_THRESHOLD_MACROAXIS)
         timestamp url (Soup.Parsed soup) w
       = match l with
         | [] => (Ok tt, after_printing w lines)
         | (seq, profit) :: _ =>
             (Raise unexpected_keyword,
              after_printing w
                (lines ++ [timestamp ++ " | Opportunity: " ++ seq
                           ++ " | Profit Ratio: " ++ PyFloat.format_2f profit
                           ++ "% | url: " ++ url]))
         end.
Proof.
  destruct (extract_total soup
              (PyFloat.NInt MainCheckMacroVerify.PROFIT_THRESHOLD_MACROAXIS) w)
    as (l & lines & E).
  exists l, lines. fold (after_printing w lines) in E. split; [exact E|].
  unfold extract_and_verify, bind. rewrite E.
  destruct l as [|[seq profit] rest]; [reflexivity|].
  rewrite main_check_report_raises. unfold after_printing.
  cbn [lookups stdout]. rewrite <- app_assoc. reflexivity.
Qed.

End TaskFacts.

(** X8. A task of main_check_macro_verify.py, on any network and any
    page: it acquires the semaphore once, awaits only the requests,
    bodies and pauses of [fetch] while it holds the permit, and releases
    it once, before the page is looked at; this also when the task then
    raises.  It never looks a quote up.  It ends in one of three ways:
    it returns, it raises the [TypeError] of the misspelt keyword, or it
    raises the exception with which the parser refused the page that
    the network served. *)
Theorem main_check_task_returns_the_permit net client timestamp url w :
  exists r w' evs,
    Asyncio.run (MainCheckMacroVerify.scrape_and_find client timestamp url)
      net w []
    = (r, w', app (Asyncio.AAcquire :: evs) [Asyncio.ARelease])
    /\ Forall (fetch_event url) evs
    /\ lookups w' = lookups w
    /\ (r = Ok tt
        \/ r = Raise unexpected_keyword
        \/ exists reason,
             served net url (Soup.Rejected reason)
             /\ r = Raise (Soup.parser_rejected_markup reason)).
Proof.
  destruct (fetch_from_outcome net url MainCheckMacroVerify.MAX_RETRIES 1 w
              [Asyncio.AAcquire])
    as (r & lines & evs & failed & E & _ & _ & _ & Fe & Out).
  rewrite (main_check_task_after_fetch net client timestamp url w r _ _ E).
  destruct r as [[soup|reason]|].
  - destruct (main_check_extract_and_verify client timestamp url soup
                (after_printing w lines)) as (l & lines' & _ & V).
    rewrite V. destruct l as [|[seq profit] rest].
    + eexists _, _, evs. split; [reflexivity|]. split; [exact Fe|].
      split; [reflexivity|]. left. reflexivity.
    + eexists _, _, evs. split; [reflexivity|]. split; [exact Fe|].
      split; [reflexivity|]. right. left. reflexivity.
  - rewrite extract_and_verify_rejected.
    eexists _, _, evs. split; [reflexivity|]. split; [exact Fe|].
    split; [reflexivity|]. right. right. exists reason.
    split; [apply Out | reflexivity].
  - eexists _, _, evs. split; [reflexivity|]. split; [exact Fe|].
    split; [reflexivity|]. left. reflexivity.
Qed.

(** X9. What ends a task of main_check_macro_verify.py, on any network.
    When [fetch] gave no page, or the page yields no candidate, the task
    returns normally, having printed at most a diagnostic of the
    extractor.  When the page yields candidates, the task prints the line
    of the first one and raises at its verification: the later
    candidates are neither printed nor verified.  When the parser
    refuses the page, the task raises the exception of the parser and
    prints nothing. *)
Theorem main_check_task_raises_on_its_first_candidate :
  (forall net client timestamp url w w1 tr1,
     Asyncio.run (MainCheckMacroVerify.fetch url) net w [Asyncio.AAcquire]
     = (Ok None, w1, tr1) ->
     Asyncio.run (MainCheckMacroVerify.scrape_and_find client timestamp url)
       net w []
     = (Ok tt, w1, app tr1 [Asyncio.ARelease]))
  /\ (forall net client timestamp url w page w1 tr1 w2,
        Asyncio.run (MainCheckMacroVerify.fetch url) net w [Asyncio.AAcquire]
        = (Ok (Some page), w1, tr1) ->
        Extractor.extract_opportunities page
          (PyFloat.NInt MainCheckMacroVerify.PROFIT_THRESHOLD_MACROAXIS) w1
        = (Ok [], w2) ->
        Asyncio.run (MainCheckMacroVerify.scrape_and_find client timestamp url)
          net w []
        = (Ok tt, w2, app tr1 [Asyncio.ARelease]))
  /\ (forall net client timestamp url w page w1 tr1 w2 seq profit rest,
        Asyncio.run (MainCheckMacroVerify.fetch url) net w [Asyncio.AAcquire]
        = (Ok (Some page), w1, tr1) ->
        Extractor.extract_opportunities page
          (PyFloat.NInt MainCheckMacroVerify.PROFIT_THRESHOLD_MACROAXIS) w1
        = (Ok ((seq, profit) :: rest), w2) ->
        Asyncio.run (MainCheckMacroVerify.scrape_and_find client timestamp url)
          net w []
        = (Raise unexpected_keyword,
           after_printing w2
             [timestamp ++ " | Opportunity: " ++ seq ++ " | Profit Ratio: "
              ++ PyFloat.format_2f profit ++ "% | url: " ++ url],
           app tr1 [Asyncio.ARelease]))
  /\ (forall net client timestamp url w reason w1 tr1,
        Asyncio.run (MainCheckMacroVerify.fetch url) net w [Asyncio.AAcquire]
        = (Ok (Some (Soup.Rejected reason)), w1, tr1) ->
        Asyncio.run (MainCheckMacroVerify.scrape_and_find client timestamp url)
          net w []
        = (Raise (Soup.parser_rejected_markup reason), w1,
           app tr1 [Asyncio.ARelease])).
Proof.
  split; [|split; [|split]].
  - intros net client timestamp url w w1 tr1 E.
    rewrite (main_check_task_after_fetch net client timestamp url w _ _ _ E).
    reflexivity.
  - intros net client timestamp url w page w1 tr1 w2 E X.
    rewrite (main_check_task_after_fetch net client timestamp url w _ _ _ E).
    unfold Scraper.extract_and_verify, bind. rewrite X. reflexivity.
  - intros net client timestamp url w page w1 tr1 w2 seq profit rest E X.
    rewrite (main_check_task_after_fetch net client timestamp url w _ _ _ E).
    unfold Scraper.extract_and_verify, bind. rewrite X.
    rewrite main_check_report_raises. reflexivity.
  - intros net client timestamp url w reason w1 tr1 E.
    rewrite (main_check_task_after_fetch net client timestamp url w _ _ _ E).
    reflexivity.
Qed.

Lemma main_check_task_raises_on_its_first_candidate_witness :
  Asyncio.run
    (MainCheckMacroVerify.scrape_and_find example_client "2025-01-01 00:00:00"
       "https://a.example/x")
    dead_net empty_world []
  = (Ok tt,
     mkWorld []
       ["Error fetching https://a.example/x on attempt 1: ";
        "Error fetching https://a.example/x on attempt 2: ";
        "Error fetching https://a.example/x on attempt 3: "],
     app [Asyncio.AAcquire;
          Asyncio.AGet "https://a.example/x"; Asyncio.ASleep 500;
          Asyncio.AGet "https://a.example/x"; Asyncio.ASleep 500;
          Asyncio.AGet "https://a.example/x"; Asyncio.ASleep 500]
         [Asyncio.ARelease])
  /\ Asyncio.run
       (MainCheckMacroVerify.scrape_and_find example_client
          "2025-01-01 00:00:00" "https://a.example/x")
       (serving (Soup.Parsed (page_of_rows [usdt_row "0.40 %"]))) empty_world []
     = (Ok tt, empty_world,
        app [Asyncio.AAcquire; Asyncio.AGet "https://a.example/x"; Asyncio.AText]
            [Asyncio.ARelease])
  /\ Asyncio.run
       (MainCheckMacroVerify.scrape_and_find example_client
          "2025-01-01 00:00:00" "https://a.example/x")
       (serving (Soup.Parsed (page_of_rows [usdt_row "1.01 %"; usdt_row "2.50 %"])))
       empty_world []
     = (Raise unexpected_keyword,
        after_printing empty_world
          ["2025-01-01 00:00:00" ++ " | Opportunity: "
           ++ "USDT -> GALA -> BTC -> USDT" ++ " | Profit Ratio: "
           ++ PyFloat.format_2f float_1_01 ++ "% | url: "
           ++ "https://a.example/x"],
        app [Asyncio.AAcquire; Asyncio.AGet "https://a.example/x"; Asyncio.AText]
            [Asyncio.ARelease])
  /\ Asyncio.run
       (MainCheckMacroVerify.scrape_and_find example_client
          "2025-01-01 00:00:00" "https://a.example/x")
       (serving (Soup.Rejected "rejected")) empty_world []
     = (Raise (Soup.parser_rejected_markup "rejected"), empty_world,
        app [Asyncio.AAcquire; Asyncio.AGet "https://a.example/x"; Asyncio.AText]
            [Asyncio.ARelease]).
Proof.
  split; [|split; [|split]].
  - apply (proj1 main_check_task_raises_on_its_first_candidate dead_net
             example_client "2025-01-01 00:00:00" "https://a.example/x"
             empty_world).
    reflexivity.
  - apply (proj1 (proj2 main_check_task_raises_on_its_first_candidate)
             (serving (Soup.Parsed (page_of_rows [usdt_row "0.40 %"])))
             example_client "2025-01-01 00:00:00" "https://a.example/x"
             empty_world (Soup.Parsed (page_of_rows [usdt_row "0.40 %"]))
             empty_world).
    + reflexivity.
    + vm_compute. reflexivity.
  - apply (proj1 (proj2 (proj2 main_check_task_raises_on_its_first_candidate))
             (serving
                (Soup.Parsed (page_of_rows [usdt_row "1.01 %"; usdt_row "2.50 %"])))
             example_client "2025-01-01 00:00:00" "https://a.example/x"
             empty_world
             (Soup.Parsed (page_of_rows [usdt_row "1.01 %"; usdt_row "2.50 %"]))
             empty_world
             _ empty_world "USDT -> GALA -> BTC -> USDT" float_1_01
             [("USDT -> GALA -> BTC -> USDT",
               PyFloat.FFin false 5629499534213120 (-51))]).
    + reflexivity.
    + vm_compute. reflexivity.
  - apply (proj2 (proj2 (proj2 main_check_task_raises_on_its_first_candidate))
             (serving (Soup.Rejected "rejected"))
             example_client "2025-01-01 00:00:00" "https://a.example/x"
             empty_world "rejected" empty_world).
    reflexivity.
Defined.

(** ** The event loop never blocks on the semaphore *)

Section ProgressFacts.
Import Asyncio Scraper.

(** A task that is neither over nor waiting for a permit can be resumed *)
Lemma slot_progress sl s w :
  bracketed (holding sl) (task sl) ->
  (finished (task sl) = true /\ holding sl = false)
  \/ (exists e, sl = mkSlot (Throw e) false)
  \/ (exists k, sl = mkSlot (Acquire k) false)
  \/ (exists s' w' sl', slot_step s w sl s' w' sl').
Proof.
  destruct sl as [t h]. cbn [task holding]. intros Br.
  destruct t as [a|e|m k|u k|k|ms k|k|k].
  - left. inversion Br. subst. split; reflexivity.
  - right. left. inversion Br. subst. exists e. reflexivity.
  - right. right. right. destruct (m w) as [r w'] eqn:E.
    eexists _, _, _. eapply step_do. exact E.
  - right. right. right. eexists _, _, _. eapply (step_get _ _ _ _ _ (Ok 200)).
  - right. right. right. eexists _, _, _. eapply (step_text _ _ _ _ (Ok (Soup.Parsed []))).
  - right. right. right. eexists _, _, _. eapply step_sleep.
  - right. right. left. inversion Br. subst. exists k. reflexivity.
  - right. right. right. eexists _, _, _. eapply step_release.
Qed.

(** The tasks of a cycle: all over, or one has raised, or one can be
    resumed whatever the semaphore, or no permit is held and one waits
    for a permit *)
Lemma cycle_survey sls s w :
  well_bracketed sls ->
  forallb (fun sl => finished (task sl)) sls = true
  \/ (exists e h, In (mkSlot (Throw e) h) sls)
  \/ (exists pre sl post s' w' sl',
        sls = app pre (sl :: post) /\ slot_step s w sl s' w' sl')
  \/ (permits_held sls = 0
      /\ exists pre k post, sls = app pre (mkSlot (Acquire k) false :: post)).
Proof.
  induction 1 as [|sl rest Br Wb IH].
  - left. reflexivity.
  - destruct (slot_progress sl s w Br)
      as [[F H] | [[e ->] | [[k ->] | (s' & w' & sl' & St)]]].
    + destruct IH as [A | [(e & h & I) | [(pre & x & post & s' & w' & x' & -> & St)
                                         | (P & pre & k & post & ->)]]].
      * left. cbn [forallb]. rewrite F, A. reflexivity.
      * right. left. exists e, h. right. exact I.
      * right. right. left. exists (sl :: pre), x, post, s', w', x'.
        split; [reflexivity | exact St].
      * right. right. right. split.
        -- cbn [permits_held]. rewrite H, P. reflexivity.
        -- exists (sl :: pre), k, post. reflexivity.
    + right. left. exists e, false. left. reflexivity.
    + destruct IH as [A | [(e & h & I) | [(pre & x & post & s' & w' & x' & -> & St)
                                         | (P & _)]]].
      * right. right. right. split.
        -- cbn [permits_held holding permit].
           rewrite (finished_hold_nothing rest Wb A). reflexivity.
        -- exists [], k, rest. reflexivity.
      * right. left. exists e, h. right. exact I.
      * right. right. left.
        exists (mkSlot (Acquire k) false :: pre), x, post, s', w', x'.
        split; [reflexivity | exact St].
      * right. right. right. split.
        -- cbn [permits_held holding permit]. rewrite P. reflexivity.
        -- exists [], k, rest. reflexivity.
    + right. right. left. exists [], sl, rest, s', w', sl'.
      split; [reflexivity | exact St].
Qed.

Lemma balanced_progress limit l :
  0 < limit -> balanced limit l ->
  forallb (fun sl => finished (task sl)) (slots l) = true
  \/ (exists e h, In (mkSlot (Throw e) h) (slots l))
  \/ (exists l', loop_step l l').
Proof.
  intros L (Wb & Cnt & Pos). destruct l as [sls s w]. cbn [slots sem] in *.
  destruct (cycle_survey sls s w Wb)
    as [A | [T | [(pre & x & post & s' & w' & x' & -> & St)
                 | (P & pre & k & post & ->)]]].
  - left. exact A.
  - right. left. exact T.
  - right. right. eexists. apply (loop_step_at pre x post s w s' w' x' St).
  - right. right. eexists.
    apply (loop_step_at pre _ post s w (s - 1) w (mkSlot k true)).
    apply step_acquire. lia.
Qed.

Lemma main_check_start_balanced client urls timestamps w :
  process_balanced MainCheckMacroVerify.CONCURRENCY_LIMIT
    (MainCheckMacroVerify.start client urls timestamps w).
Proof.
  unfold MainCheckMacroVerify.start. cbn [process_balanced].
  destruct (spawn_bracketed client urls timestamps) as [W P].
  split; [|split]; cbn [slots sem]; auto.
  - rewrite P. lia.
  - unfold MainCheckMacroVerify.CONCURRENCY_LIMIT. lia.
Qed.

End ProgressFacts.

(** X10. In main_check_macro_verify.py the semaphore neither leaks nor
    blocks, over all cycles and whatever the network replies.  Whenever a
    cycle is over all 50 permits are back; during a cycle the permits
    held and the permits left add up to 50; and the process is never
    stuck: as long as no exception has left it, a task can be resumed,
    or [gather] is over, or an exception is there for [gather] to raise,
    or the next cycle can start. *)
Theorem semaphore_neither_leaks_nor_blocks client urls timestamps w p :
  Scraper.reachable (MainCheckMacroVerify.scrape_and_find client) urls
    (MainCheckMacroVerify.start client urls timestamps w) p ->
  match p with
  | Scraper.Pausing s _ => s = MainCheckMacroVerify.CONCURRENCY_LIMIT
  | Scraper.Polling l =>
      Asyncio.sem l + permits_held (Asyncio.slots l)
      = MainCheckMacroVerify.CONCURRENCY_LIMIT
      /\ 0 <= Asyncio.sem l
  | Scraper.Crashed _ => True
  end
  /\ ((exists e, p = Scraper.Crashed e)
      \/ exists p',
           Scraper.main_step (MainCheckMacroVerify.scrape_and_find client) urls
             p p').
Proof.
  intros R.
  assert (B : process_balanced MainCheckMacroVerify.CONCURRENCY_LIMIT p).
  { apply (reachable_balanced client urls MainCheckMacroVerify.CONCURRENCY_LIMIT
             (MainCheckMacroVerify.start client urls timestamps w) p);
      [unfold MainCheckMacroVerify.CONCURRENCY_LIMIT; lia
      | apply main_check_start_balanced | exact R]. }
  destruct p as [l|s w0|e]; cbn [process_balanced] in B.
  - split; [destruct B as (_ & C & P); split; assumption|].
    right.
    destruct (balanced_progress MainCheckMacroVerify.CONCURRENCY_LIMIT l)
      as [A | [(e & h & I) | [l' St]]];
      [unfold MainCheckMacroVerify.CONCURRENCY_LIMIT; lia | exact B | | |].
    + eexists. apply Scraper.main_gathered. exact A.
    + eexists. eapply Scraper.main_raise. exact I.
    + eexists. apply Scraper.main_resume. exact St.
  - split; [exact B|]. right.
    exists (Scraper.Polling
              (Asyncio.mkLoop
                 (Scraper.spawn (MainCheckMacroVerify.scrape_and_find client)
                    urls (repeat "" (List.length urls))) s w0)).
    apply Scraper.main_next. apply repeat_length.
  - split; [exact I|]. left. exists e. reflexivity.
Qed.

Lemma semaphore_neither_leaks_nor_blocks_witness :
  (Asyncio.sem
     (Asyncio.mkLoop
        (Scraper.spawn (MainCheckMacroVerify.scrape_and_find example_client)
           ["https://a.example/x"] ["2025-01-01 00:00:00"])
        MainCheckMacroVerify.CONCURRENCY_LIMIT empty_world)
   + permits_held
       (Asyncio.slots
          (Asyncio.mkLoop
             (Scraper.spawn (MainCheckMacroVerify.scrape_and_find example_client)
                ["https://a.example/x"] ["2025-01-01 00:00:00"])
             MainCheckMacroVerify.CONCURRENCY_LIMIT empty_world))
   = MainCheckMacroVerify.CONCURRENCY_LIMIT
   /\ 0 <= Asyncio.sem
             (Asyncio.mkLoop
                (Scraper.spawn
                   (MainCheckMacroVerify.scrape_and_find example_client)
                   ["https://a.example/x"] ["2025-01-01 00:00:00"])
                MainCheckMacroVerify.CONCURRENCY_LIMIT empty_world))
  /\ ((exists e,
         MainCheckMacroVerify.start example_client ["https://a.example/x"]
           ["2025-01-01 00:00:00"] empty_world
         = Scraper.Crashed e)
      \/ exists p',
           Scraper.main_step (MainCheckMacroVerify.scrape_and_find example_client)
             ["https://a.example/x"]
             (MainCheckMacroVerify.start example_client ["https://a.example/x"]
                ["2025-01-01 00:00:00"] empty_world)
             p').
Proof.
  exact (semaphore_neither_leaks_nor_blocks example_client
           ["https://a.example/x"] ["2025-01-01 00:00:00"] empty_world
           (MainCheckMacroVerify.start example_client ["https://a.example/x"]
              ["2025-01-01 00:00:00"] empty_world)
           (Scraper.reach_start _ _ _)).
Defined.

(** ** What ends the loop of async_arb_verify.py *)

Section AsyncArbLoopFacts.
Import Asyncio Scraper.

(** A task that can raise nothing but the exception of the parser, and
    never waits for a permit: it is over, it has raised, or it can be
    resumed *)
Inductive unhindered {A} : Task A -> Prop :=
| un_ret a : unhindered (Ret a)
| un_rejected e : rejected_by_parser e -> unhindered (Throw e)
| un_do m k : (forall w, unhindered (k (fst (m w)))) -> unhindered (Do m k)
| un_get u k : (forall r, unhindered (k r)) -> unhindered (Get u k)
| un_text k : (forall r, unhindered (k r)) -> unhindered (ReadText k)
| un_sleep ms k : unhindered k -> unhindered (Sleep ms k).

Lemma async_arb_task_unhindered client timestamp url :
  unhindered (AsyncArbVerify.scrape_and_find client timestamp url).
Proof.
  unfold AsyncArbVerify.scrape_and_find, AsyncArbVerify.fetch. cbn [tbind].
  assert (Tail : forall html : option Page,
             unhindered
               match html with
               | Some page =>
                   do_ (extract_and_verify
                          (AsyncArbVerify.verify_from_binance client)
                          (PyFloat.NInt AsyncArbVerify.PROFIT_THRESHOLD)
                          timestamp url page) (Ret tt)
               | None => Ret tt
               end).
  { intros [page|]; [|constructor]. unfold do_. constructor. intros w.
    pose proof (async_arb_extract_and_verify_returns client
                  (PyFloat.NInt AsyncArbVerify.PROFIT_THRESHOLD)
                  timestamp url page w) as E.
    destruct page as [soup|reason].
    - destruct E as [w' E]. rewrite E. constructor.
    - rewrite E. constructor. exists reason. reflexivity. }
  constructor. intros [status|e]; cbn [tbind]; [|apply (Tail None)].
  destruct (negb (status =? 200)); cbn [tbind].
  - constructor. intros w. apply (Tail None).
  - constructor. intros [html|e]; cbn [tbind];
      [apply (Tail (Some html)) | apply (Tail None)].
Qed.

Lemma slot_step_unhindered s w sl s' w' sl' :
  slot_step s w sl s' w' sl' ->
  unhindered (task sl) -> unhindered (task sl').
Proof.
  intros St N. destruct St; cbn [task] in *; inversion N; subst; auto.
  match goal with
  | H : forall w, unhindered (k (fst (m w))), E : m w = _ |- _ =>
      specialize (H w); rewrite E in H; exact H
  end.
Qed.

Definition process_unhindered (p : Process) : Prop :=
  match p with
  | Polling l => Forall (fun sl => unhindered (task sl)) (slots l)
  | Pausing _ _ => True
  | Crashed e => rejected_by_parser e
  end.

Lemma spawn_unhindered client urls timestamps :
  Forall (fun sl => unhindered (task sl))
    (spawn (AsyncArbVerify.scrape_and_find client) urls timestamps).
Proof.
  unfold spawn.
  induction (combine timestamps urls) as [|[ts url] l IH]; cbn [map];
    constructor; [apply async_arb_task_unhindered | exact IH].
Qed.

Lemma async_arb_step_unhindered client urls p p' :
  main_step (AsyncArbVerify.scrape_and_find client) urls p p' ->
  process_unhindered p -> process_unhindered p'.
Proof.
  intros St C. destruct St; cbn [process_unhindered] in *.
  - destruct H as [pre sl post s w s' w' sl' St]. cbn [slots] in *.
    apply Forall_app in C. destruct C as [Cpre Crest].
    inversion Crest as [|x xs Csl Cpost]; subst.
    apply Forall_app. split; [assumption|]. constructor; [|assumption].
    eapply slot_step_unhindered; eassumption.
  - rewrite Forall_forall in C. specialize (C _ H). cbn [task] in C.
    inversion C. assumption.
  - exact I.
  - apply spawn_unhindered.
Qed.

Lemma async_arb_reachable_unhindered client urls timestamps w p :
  reachable (AsyncArbVerify.scrape_and_find client) urls
    (AsyncArbVerify.start client urls timestamps w) p ->
  process_unhindered p.
Proof.
  intros R. induction R.
  - apply spawn_unhindered.
  - eapply async_arb_step_unhindered; eassumption.
Qed.

(** Tasks that are all unhindered: [gather] is over, or one of them
    has raised, or one of them can be resumed *)
Lemma unhindered_progress sls s w :
  Forall (fun sl => unhindered (task sl)) sls ->
  forallb (fun sl => finished (task sl)) sls = true
  \/ (exists e h, In (mkSlot (Throw e) h) sls)
  \/ exists l', loop_step (mkLoop sls s w) l'.
Proof.
  induction 1 as [|sl rest U _ IH].
  - left. reflexivity.
  - destruct sl as [t h]. cbn [task] in U.
    assert (Step : forall s' w' sl',
               slot_step s w (mkSlot t h) s' w' sl' ->
               exists l', loop_step (mkLoop (mkSlot t h :: rest) s w) l').
    { intros s' w' sl' St. eexists.
      apply (loop_step_at [] (mkSlot t h) rest s w s' w' sl' St). }
    destruct U as [a|e _|m k _|u k _|k _|ms k _].
    + destruct IH as [A | [(e & h' & I) | [l' St]]].
      * left. cbn [forallb task finished]. exact A.
      * right. left. exists e, h'. right. exact I.
      * right. right.
        inversion St as [pre sl post s0 w0 s' w' sl' St' E1 E2]. subst.
        eexists.
        apply (loop_step_at (mkSlot (Ret a) h :: pre) sl post s w s' w' sl' St').
    + right. left. exists e, h. left. reflexivity.
    + right. right. destruct (m w) as [r w'] eqn:E.
      eapply Step. eapply step_do. exact E.
    + right. right. eapply Step. eapply (step_get _ _ _ _ _ (Ok 200)).
    + right. right. eapply Step.
      eapply (step_text _ _ _ _ (Ok (Soup.Parsed []))).
    + right. right. eapply Step. eapply step_sleep.
Qed.

(** A page that the parser refuses does end the process *)
Lemma async_arb_rejected_page_crashes client url timestamp reason w :
  reachable (AsyncArbVerify.scrape_and_find client) [url]
    (AsyncArbVerify.start client [url] [timestamp] w)
    (Crashed (Soup.parser_rejected_markup reason)).
Proof.
  unfold AsyncArbVerify.start, spawn. cbn [combine map].
  eapply reach_first.
  { apply single_slot_step. eapply step_get with (r := Ok 200). }
  eapply reach_first.
  { apply single_slot_step.
    eapply step_text with (r := Ok (Soup.Rejected reason)). }
  eapply reach_first.
  { apply single_slot_step. eapply step_do. reflexivity. }
  eapply reach_first.
  { eapply main_raise with (h := false). left. reflexivity. }
  apply reach_start.
Qed.

End AsyncArbLoopFacts.

(** X11. What can end the polling of async_arb_verify.py.  Once [main]
    has entered the loop, whatever the replies of the network, the rows
    of the pages and the quotes: the only exception that leaves a task,
    and with it [gather] and [main], is that of the parser on a page it
    refuses.  As long as that has not happened the process is never
    stuck: a task can be resumed, or [gather] is over or has an
    exception to raise, or the next cycle can start. *)
Theorem async_arb_stops_on_rejected_markup_only fs client timestamps w urls p q :
  AsyncArbVerify.main fs client timestamps w = UrlList.Looping urls p ->
  Scraper.reachable (AsyncArbVerify.scrape_and_find client) urls p q ->
  match q with
  | Scraper.Crashed e => rejected_by_parser e
  | _ =>
      exists q',
        Scraper.main_step (AsyncArbVerify.scrape_and_find client) urls q q'
  end.
Proof.
  rewrite async_arb_main_cases.
  destruct (loaded (fs AsyncArbVerify.csv_file)) as [[|u us] lines];
    [discriminate|].
  intros H R. inversion H. subst urls p. clear H.
  pose proof (async_arb_reachable_unhindered _ _ _ _ _ R) as U.
  destruct q as [l|s w0|e]; cbn [process_unhindered] in U.
  - destruct l as [sls s w0]. cbn [Asyncio.slots] in U.
    destruct (unhindered_progress sls s w0 U) as [A | [(e & h & I) | [l' St]]].
    + eexists. apply Scraper.main_gathered. exact A.
    + eexists. eapply Scraper.main_raise. exact I.
    + eexists. apply Scraper.main_resume. exact St.
  - exists (Scraper.Polling
              (Asyncio.mkLoop
                 (Scraper.spawn (AsyncArbVerify.scrape_and_find client)
                    (u :: us) (repeat "" (List.length (u :: us)))) s w0)).
    apply Scraper.main_next. apply repeat_length.
  - exact U.
Qed.

Lemma async_arb_stops_on_rejected_markup_only_witness :
  (exists q',
     Scraper.main_step (AsyncArbVerify.scrape_and_find example_client)
       ["https://a.example/x"]
       (AsyncArbVerify.start example_client ["https://a.example/x"]
          ["2025-01-01 00:00:00"]
          (after_printing empty_world [async_arb_start_line]))
       q')
  /\ rejected_by_parser (Soup.parser_rejected_markup "rejected").
Proof.
  split.
  - exact (async_arb_stops_on_rejected_markup_only
             (one_file [["https://a.example/x"]] None) example_client
             ["2025-01-01 00:00:00"] empty_world ["https://a.example/x"]
             (AsyncArbVerify.start example_client ["https://a.example/x"]
                ["2025-01-01 00:00:00"]
                (after_printing empty_world [async_arb_start_line]))
             (AsyncArbVerify.start example_client ["https://a.example/x"]
                ["2025-01-01 00:00:00"]
                (after_printing empty_world [async_arb_start_line]))
             eq_refl (Scraper.reach_start _ _ _)).
  - exact (async_arb_stops_on_rejected_markup_only
             (one_file [["https://a.example/x"]] None) example_client
             ["2025-01-01 00:00:00"] empty_world ["https://a.example/x"]
             (AsyncArbVerify.start example_client ["https://a.example/x"]
                ["2025-01-01 00:00:00"]
                (after_printing empty_world [async_arb_start_line]))
             (Scraper.Crashed (Soup.parser_rejected_markup "rejected"))
             eq_refl
             (async_arb_rejected_page_crashes example_client
                "https://a.example/x" "2025-01-01 00:00:00" "rejected"
                (after_printing empty_world [async_arb_start_line]))).
Defined.

(** ** The quotes the verifier asks for *)

(** The three pairs of a cycle [start, mid, end, start], in the order of
    the legs; nothing for a list of another length *)
Definition pairs_of (parts : list string) : list string :=
  match parts with
  | [start; mid; end_; _] => [mid ++ start; mid ++ end_; end_ ++ start]
  | _ => []
  end.

(** [m] only prints and asks for quotes: the symbols [l] in this order,
    all of them when it returns, a first part of them when it raises *)
Definition asks {A} (l : list string) (m : M A) : Prop :=
  forall w,
  exists lines asked rest,
    snd (m w) = {| lookups := app (lookups w) asked;
                   stdout := app (stdout w) lines |}
    /\ l = app asked rest
    /\ (forall a, fst (m w) = Ok a -> rest = []).

(** [m] only prints and asks for a first part of [l]; when it returns
    before it has asked for all of [l], what it returns is [early] *)
Definition asks_within {A} (l : list string) (early : A -> Prop) (m : M A)
  : Prop :=
  forall w,
  exists lines asked rest,
    snd (m w) = {| lookups := app (lookups w) asked;
                   stdout := app (stdout w) lines |}
    /\ l = app asked rest
    /\ (forall a, fst (m w) = Ok a -> early a \/ rest = []).

Definition none_none (v : PyVal * PyVal) : Prop := v = (PyNone, PyNone).

(** The line [scrape_and_find] prints for a candidate *)
Definition report_line (timestamp seq : string) (profit : PyFloat.Float)
           (url : string) : string :=
  timestamp ++ " | Opportunity: " ++ seq ++ " | Profit Ratio: "
  ++ PyFloat.format_2f profit ++ "% | url: " ++ url.

Section LookupFacts.
Import PyDecimal VerifyBinance.

Lemma asks_lift {A} (r : Res A) : asks [] (lift r).
Proof.
  intros w. exists [], [], []. cbn [lift snd]. rewrite !app_nil_r.
  destruct w. auto.
Qed.

Lemma asks_print line : asks [] (print line).
Proof.
  intros w. exists [line], [], []. cbn [print snd]. rewrite app_nil_r. auto.
Qed.

Lemma asks_lookup client symbol :
  asks [symbol] (get_orderbook_ticker client symbol).
Proof.
  intros w. exists [], [symbol], []. cbn [get_orderbook_ticker snd].
  rewrite app_nil_r. auto.
Qed.

Lemma asks_then {B} line (b : B) : asks [] (print line ;;; ret b).
Proof.
  intros w. exists [line], [], []. cbn [print ret bind snd].
  rewrite app_nil_r. auto.
Qed.

Lemma within_early {A} l (early : A -> Prop) (a : A) :
  early a -> asks_within l early (ret a).
Proof.
  intros H w. exists [], [], l. cbn [ret snd fst]. rewrite !app_nil_r.
  destruct w. repeat split; auto.
  intros a0 E. inversion E. subst. left. exact H.
Qed.

Lemma within_done {A} (early : A -> Prop) (a : A) : asks_within [] early (ret a).
Proof.
  intros w. exists [], [], []. cbn [ret snd fst]. rewrite !app_nil_r.
  destruct w. repeat split; auto.
Qed.

Lemma within_raise {A} l (early : A -> Prop) e :
  asks_within l early (raise_ e).
Proof.
  intros w. exists [], [], l. cbn [raise_ snd fst]. rewrite !app_nil_r.
  destruct w. repeat split; auto. discriminate.
Qed.

Lemma within_bind {A B} l1 l2 (early : B -> Prop) (m : M A) (k : A -> M B) :
  asks l1 m -> (forall a, asks_within l2 early (k a)) ->
  asks_within (l1 ++ l2) early (bind m k).
Proof.
  intros Hm Hk w. destruct (Hm w) as (lines & asked & rest & E & L & Done).
  unfold bind. destruct (m w) as [[a|e] w1]; cbn [fst snd] in *.
  - rewrite (Done a eq_refl), app_nil_r in L. subst l1 w1.
    destruct (Hk a {| lookups := app (lookups w) asked;
                      stdout := app (stdout w) lines |})
      as (lines2 & asked2 & rest2 & E2 & L2 & D2).
    cbn [lookups stdout] in E2.
    exists (lines ++ lines2)%list, (asked ++ asked2)%list, rest2.
    rewrite E2, !app_assoc. split; [reflexivity|]. split; [|exact D2].
    rewrite L2, app_assoc. reflexivity.
  - exists lines, asked, (rest ++ l2)%list. split; [exact E|]. split.
    + rewrite L, app_assoc. reflexivity.
    + discriminate.
Qed.

Lemma within_quiet {A B} l (early : B -> Prop) (m : M A) (k : A -> M B) :
  asks [] m -> (forall a, asks_within l early (k a)) ->
  asks_within l early (bind m k).
Proof. apply (within_bind [] l). Qed.

Lemma within_lookup {B} client symbol l (early : B -> Prop) (k : Ticker -> M B) :
  (forall t, asks_within l early (k t)) ->
  asks_within (symbol :: l) early (bind (get_orderbook_ticker client symbol) k).
Proof. apply (within_bind [symbol] l). apply asks_lookup. Qed.

Lemma within_if {A} l (early : A -> Prop) (b : bool) (x y : M A) :
  asks_within l early x -> asks_within l early y ->
  asks_within l early (if b then x else y).
Proof. destruct b; auto. Qed.

(** What follows a computation that asked within [l], when it asks for
    nothing itself *)
Lemma within_then {A B} l (early : A -> Prop) (early' : B -> Prop)
      (m : M A) (k : A -> M B) (handler : exn -> M B) :
  asks_within l early m ->
  (forall a, asks [] (k a)) ->
  (forall e, asks [] (handler e)) ->
  (forall a w b, early a -> fst (k a w) = Ok b -> early' b) ->
  (forall e w b, fst (handler e w) = Ok b -> early' b) ->
  asks_within l early'
    (fun w => match m w with
              | (Ok a, w1) => k a w1
              | (Raise e, w1) => handler e w1
              end).
Proof.
  intros Hm Hk Hh Ek Eh w.
  destruct (Hm w) as (lines & asked & rest & E & L & D).
  assert (Quiet : forall m' : M B, asks [] m' ->
            exists lines0,
              snd (m' {| lookups := app (lookups w) asked;
                         stdout := app (stdout w) lines |})
              = {| lookups := app (lookups w) asked;
                   stdout := app (stdout w) lines0 |}).
  { intros m' Hm'.
    destruct (Hm' {| lookups := app (lookups w) asked;
                     stdout := app (stdout w) lines |})
      as (lines2 & asked2 & rest2 & E2 & L2 & _).
    symmetry in L2. apply app_eq_nil in L2. destruct L2 as [-> ->].
    cbn [lookups stdout] in E2. rewrite app_nil_r in E2.
    exists (lines ++ lines2)%list. rewrite E2, app_assoc. reflexivity. }
  destruct (m w) as [[a|e] w1]; cbn [fst snd] in *; subst w1.
  - destruct (Quiet (k a) (Hk a)) as [lines0 E0].
    exists lines0, asked, rest. split; [exact E0|]. split; [exact L|].
    intros b Hb. destruct (D a eq_refl) as [Ea | ->]; [|right; reflexivity].
    left. exact (Ek a _ b Ea Hb).
  - destruct (Quiet (handler e) (Hh e)) as [lines0 E0].
    exists lines0, asked, rest. split; [exact E0|]. split; [exact L|].
    intros b Hb. left. exact (Eh e _ b Hb).
Qed.

Lemma asks_ret {A} (a : A) : asks [] (ret a).
Proof.
  intros w. exists [], [], []. cbn [ret snd]. rewrite !app_nil_r.
  destruct w. auto.
Qed.

Lemma asks_raise {A} e : asks [] (raise_ (A := A) e).
Proof.
  intros w. exists [], [], []. cbn [raise_ snd]. rewrite !app_nil_r.
  destruct w. auto.
Qed.

Lemma body_asks client sequence n :
  asks_within (pairs_of (parse_sequence sequence)) none_none
    (verify_body client sequence n).
Proof.
  unfold verify_body.
  apply within_if.
  { apply within_quiet; [apply asks_print | intros _].
    apply within_early. reflexivity. }
  destruct (parse_sequence sequence) as [|start [|mid [|end_ [|final [|x l]]]]];
    try apply within_raise.
  cbn [pairs_of].
  apply within_lookup; intros t1.
  apply within_quiet; [apply asks_lift | intros p1].
  apply within_quiet; [apply asks_lift | intros bad1].
  apply within_if.
  { apply within_quiet; [apply asks_print | intros _].
    apply within_early. reflexivity. }
  apply within_quiet; [apply asks_lift | intros a1].
  apply within_lookup; intros t2.
  apply within_quiet; [apply asks_lift | intros p2].
  apply within_quiet; [apply asks_lift | intros bad2].
  apply within_if.
  { apply within_quiet; [apply asks_print | intros _].
    apply within_early. reflexivity. }
  apply within_quiet; [apply asks_lift | intros a2].
  apply within_lookup; intros t3.
  apply within_quiet; [apply asks_lift | intros p3].
  apply within_quiet; [apply asks_lift | intros bad3].
  apply within_if.
  { apply within_quiet; [apply asks_print | intros _].
    apply within_early. reflexivity. }
  repeat (apply within_quiet;
          [first [apply asks_lift | apply asks_print] | intros ?]).
  apply within_done.
Qed.

Lemma verify_asks client sequence n :
  asks_within (pairs_of (parse_sequence sequence)) none_none
    (verify_triangular_opportunity client sequence n).
Proof.
  unfold verify_triangular_opportunity, try_except.
  apply (within_then _ none_none none_none (verify_body client sequence n)
           ret
           (fun e =>
              print ("Error verifying triangular opportunity for sequence '"
                     ++ sequence ++ "': " ++ exn_str e) ;;;
              ret (PyNone, PyNone))).
  - apply body_asks.
  - intros a. apply asks_ret.
  - intros e. apply asks_then.
  - intros a w b Ea Hb. inversion Hb. subst. exact Ea.
  - intros e w b Hb. inversion Hb. reflexivity.
Qed.

(** [verify_from_binance] of async_arb_verify.py asks for no more *)
Lemma async_arb_verify_asks client sequence :
  asks_within (pairs_of (parse_sequence sequence)) (fun _ => True)
    (AsyncArbVerify.verify_from_binance client sequence).
Proof.
  unfold AsyncArbVerify.verify_from_binance.
  change (call_verify_triangular_opportunity client sequence
            [("starting_amount", 100)])
    with (verify_triangular_opportunity client sequence 100).
  unfold bind at 1.
  apply (within_then _ none_none (fun _ => True)
           (verify_triangular_opportunity client sequence 100)
           (fun res : PyVal * PyVal =>
              match res with
              | (PyNone, _) => ret tt
              | (PyDec _, PyNone) =>
                  raise_ (mkExn TypeError
                    "'>' not supported between instances of 'NoneType' and 'int'")
              | (PyDec _, PyDec arb_ratio) =>
                  confirmed <- lift (gt_int arb_ratio 1) ;;
                  if (confirmed : bool)
                  then print "Arbitrage opportunity confirmed!"
                  else print "No arbitrage opportunity found on Binance."
              end)
           (fun e => raise_ e)).
  - apply verify_asks.
  - intros [[|d1] [|d2]]; try apply asks_ret; try apply asks_raise.
    intros w. unfold bind, lift.
    destruct (gt_int d2 1) as [[|]|e]; cbn [snd fst print].
    + eexists [_], [], []. rewrite app_nil_r. repeat split; auto.
    + eexists [_], [], []. rewrite app_nil_r. repeat split; auto.
    + exists [], [], []. rewrite !app_nil_r. destruct w. repeat split; auto.
  - intros e. apply asks_raise.
  - auto.
  - auto.
Qed.

Lemma pairs_of_length parts : (List.length (pairs_of parts) <= 3)%nat.
Proof.
  destruct parts as [|a [|b [|c [|d [|x l]]]]]; cbn; lia.
Qed.

(** The report of the candidates of a page, in async_arb_verify.py *)
Lemma async_arb_report_asks client timestamp url opportunities :
  forall w,
  exists lines asked,
    Scraper.report_each (AsyncArbVerify.verify_from_binance client)
      timestamp url opportunities w
    = (Ok tt, {| lookups := app (lookups w) asked;
                 stdout := app (stdout w) lines |})
    /\ (List.length asked <= 3 * List.length opportunities)%nat
    /\ (forall seq profit,
          In (seq, profit) opportunities ->
          In (report_line timestamp seq profit url) lines).
Proof.
  induction opportunities as [|[seq profit] rest IH]; intros w;
    cbn [Scraper.report_each].
  - exists [], []. cbn [ret]. rewrite !app_nil_r. destruct w.
    split; [reflexivity|]. split; [cbn; lia|]. intros ? ? [].
  - rewrite bind_print. unfold bind at 1.
    match goal with
    | |- context [AsyncArbVerify.verify_from_binance client seq ?w0] =>
        destruct (async_arb_verify_asks client seq w0)
          as (lines1 & asked1 & rest1 & E1 & L1 & _);
        destruct (async_arb_verify_returns client seq w0) as [w1 R1]
    end.
    rewrite R1 in *. cbn [snd lookups stdout] in E1. subst w1.
    match goal with
    | |- context [Scraper.report_each _ _ _ rest ?w0] =>
        destruct (IH w0) as (lines2 & asked2 & E2 & L2 & I2)
    end.
    cbn [lookups stdout] in E2.
    exists (report_line timestamp seq profit url :: app lines1 lines2),
           (app asked1 asked2).
    rewrite E2. split; [|split].
    + unfold report_line. rewrite <- !app_assoc. reflexivity.
    + pose proof (pairs_of_length (parse_sequence seq)) as P.
      rewrite L1 in P. rewrite !length_app in *. cbn [List.length]. lia.
    + intros seq' profit' [H | H].
      * inversion H. subst. left. reflexivity.
      * right. apply in_or_app. right. exact (I2 _ _ H).
Qed.

Lemma async_arb_page_asks client timestamp url soup w :
  exists l lines lines' asked,
    Extractor.extract_opportunities (Soup.Parsed soup)
      (PyFloat.NInt AsyncArbVerify.PROFIT_THRESHOLD) w
    = (Ok l, after_printing w lines)
    /\ Scraper.extract_and_verify (AsyncArbVerify.verify_from_binance client)
         (PyFloat.NInt AsyncArbVerify.PROFIT_THRESHOLD) timestamp url
         (Soup.Parsed soup) w
       = (Ok tt, {| lookups := app (lookups w) asked;
                    stdout := app (stdout w) lines' |})
    /\ (List.length asked <= 3 * List.length l)%nat
    /\ (forall seq profit,
          In (seq, profit) l ->
          In (report_line timestamp seq profit url) lines').
Proof.
  destruct (extract_total soup (PyFloat.NInt AsyncArbVerify.PROFIT_THRESHOLD) w)
    as (l & lines & E).
  destruct (async_arb_report_asks client timestamp url l
              {| lookups := lookups w; stdout := app (stdout w) lines |})
    as (lines2 & asked & R & L & I).
  cbn [lookups stdout] in R.
  exists l, lines, (app lines lines2), asked.
  split; [exact E|]. split; [|split; [exact L|]].
  - unfold Scraper.extract_and_verify, bind. rewrite E, R, app_assoc.
    reflexivity.
  - intros seq profit H. apply in_or_app. right. exact (I _ _ H).
Qed.

End LookupFacts.

(** X12. [verify_triangular_opportunity] asks for at most three quotes:
    whatever the client answers, the sequence and the amount, the symbols
    it looks up are a first part of [mid+start], [mid+end], [end+start],
    in this order, of the upper-cased, stripped parts of the sequence.
    It asks for nothing when the sequence is malformed, and for all three
    whenever it returns a result other than [(None, None)].  It only adds
    lines to the output and it never raises. *)
Theorem verifier_asks_for_its_three_pairs_only :
  (forall client sequence n w,
     exists v lines asked rest,
       VerifyBinance.verify_triangular_opportunity client sequence n w
       = (Ok v, {| lookups := app (lookups w) asked;
                   stdout := app (stdout w) lines |})
       /\ pairs_of (VerifyBinance.parse_sequence sequence) = app asked rest
       /\ (List.length asked <= 3)%nat
       /\ (v = (PyNone, PyNone) \/ rest = []))
  /\ (forall client sequence n w,
        malformed sequence ->
        looked_up (VerifyBinance.verify_triangular_opportunity client sequence n w)
        = lookups w).
Proof.
  split.
  - intros client sequence n w.
    destruct (verify_asks client sequence n w)
      as (lines & asked & rest & E & L & D).
    destruct (verify_total client sequence n w) as (v & w' & R & V).
    rewrite R in E, D. cbn [snd fst] in E, D. subst w'.
    exists v, lines, asked, rest. split; [exact R|]. split; [exact L|].
    pose proof (pairs_of_length (VerifyBinance.parse_sequence sequence)) as P.
    rewrite L, length_app in P. split; [lia|].
    exact (D v eq_refl).
  - intros client sequence n w H.
    rewrite (malformed_rejected client sequence n w H). reflexivity.
Qed.

Lemma verifier_asks_for_its_three_pairs_only_witness :
  looked_up (VerifyBinance.verify_triangular_opportunity example_client
               "USDT -> GALA -> BTC -> ETH" 100 empty_world)
  = [].
Proof.
  apply (proj2 verifier_asks_for_its_three_pairs_only example_client
           "USDT -> GALA -> BTC -> ETH" 100 empty_world).
  right. vm_compute. discriminate.
Defined.

(** X13. In async_arb_verify.py a fetched page costs at most three quote
    lookups for each candidate it yields, and none when it yields none;
    the line of every candidate is printed, and the extraction and the
    report of a page that the parser accepts never raise.  A page that
    the parser refuses costs no lookup and no line: the exception of the
    parser leaves the extraction and the report. *)
Theorem a_page_costs_three_lookups_a_candidate client timestamp url page w :
  match page with
  | Soup.Parsed _ =>
      exists l lines lines' asked,
        Extractor.extract_opportunities page
          (PyFloat.NInt AsyncArbVerify.PROFIT_THRESHOLD) w
        = (Ok l, after_printing w lines)
        /\ Scraper.extract_and_verify (AsyncArbVerify.verify_from_binance client)
             (PyFloat.NInt AsyncArbVerify.PROFIT_THRESHOLD) timestamp url page w
           = (Ok tt, {| lookups := app (lookups w) asked;
                        stdout := app (stdout w) lines' |})
        /\ (List.length asked <= 3 * List.length l)%nat
        /\ (forall seq profit,
              In (seq, profit) l ->
              In (report_line timestamp seq profit url) lines')
  | Soup.Rejected reason =>
      Scraper.extract_and_verify (AsyncArbVerify.verify_from_binance client)
        (PyFloat.NInt AsyncArbVerify.PROFIT_THRESHOLD) timestamp url page w
      = (Raise (Soup.parser_rejected_markup reason), w)
  end.
Proof.
  destruct page as [soup|reason]; [apply async_arb_page_asks | reflexivity].
Qed.

(** ** Edges of the arithmetic *)

Definition is_zero (d : PyDecimal.Decimal) : Prop :=
  match d with
  | PyDecimal.Fin _ c _ => c = 0
  | _ => False
  end.

Section ZeroFacts.
Import PyDecimal VerifyBinance.

Lemma fix_fin_zero s e r : fix_fin s 0 e = Ok r -> is_zero r.
Proof. unfold fix_fin. cbn [Z.eqb]. intros H. inversion H. reflexivity. Qed.

Lemma zero_div p a : not_nan p -> div (of_int 0) p = Ok a -> is_zero a.
Proof.
  unfold div, of_int. cbn [Z.ltb Z.compare Z.abs].
  destruct p as [s2 c2 e2|s2|g2]; cbn [not_nan check_nans]; [| |contradiction];
    intros _.
  - destruct (c2 =? 0); cbn [Z.eqb]; [discriminate|]. apply fix_fin_zero.
  - intros H. inversion H. reflexivity.
Qed.

Lemma zero_mul a p r : is_zero a -> not_nan p -> mul a p = Ok r -> is_zero r.
Proof.
  unfold mul. destruct a as [s1 c1 e1|s1|g1]; cbn [is_zero]; try contradiction.
  intros ->. destruct p as [s2 c2 e2|s2|g2]; cbn [not_nan check_nans];
    [| |contradiction]; intros _.
  - cbn [Z.mul]. apply fix_fin_zero.
  - cbn [Z.eqb]. discriminate.
Qed.

Lemma zero_div_zero f r : is_zero f -> div f (of_int 0) = Ok r -> False.
Proof.
  unfold div, of_int. cbn [Z.ltb Z.compare Z.abs].
  destruct f as [s1 c1 e1|s1|g1]; cbn [is_zero]; try contradiction.
  intros ->. cbn [check_nans Z.eqb]. discriminate.
Qed.

Lemma zero_body_returns client sequence :
  returns none_none (verify_body client sequence 0).
Proof.
  unfold verify_body.
  apply returns_if.
  { apply returns_bind. intros _. apply returns_ret. reflexivity. }
  destruct (parse_sequence sequence)
    as [|start [|mid [|end_ [|final [|x l]]]]]; try apply returns_raise.
  apply returns_bind; intros t1.
  apply returns_bind; intros p1.
  apply returns_bind_lift; intros bad1 B1.
  destruct bad1.
  { apply returns_bind. intros _. apply returns_ret. reflexivity. }
  apply returns_bind_lift; intros a1 A1.
  apply returns_bind; intros t2.
  apply returns_bind; intros p2.
  apply returns_bind_lift; intros bad2 B2.
  destruct bad2.
  { apply returns_bind. intros _. apply returns_ret. reflexivity. }
  apply returns_bind_lift; intros a2 A2.
  apply returns_bind; intros t3.
  apply returns_bind; intros p3.
  apply returns_bind_lift; intros bad3 B3.
  destruct bad3.
  { apply returns_bind. intros _. apply returns_ret. reflexivity. }
  apply returns_bind_lift; intros f F.
  apply returns_bind_lift; intros r R.
  exfalso.
  apply le_int_not_nan in B1, B2, B3.
  apply (zero_div_zero f r); [|exact R].
  apply (zero_mul a2 p3 f); [|exact B3|exact F].
  apply (zero_mul a1 p2 a2); [|exact B2|exact A2].
  apply (zero_div p1 a1); [exact B1|exact A1].
Qed.

End ZeroFacts.

(** X14. With a starting amount of 0 [verify_triangular_opportunity]
    never returns a result: whatever the sequence and the quotes, the
    pair returned is [(None, None)].  (The three amounts are then zero
    and the ratio is the division of zero by zero, which the decimal
    context traps.) *)
Theorem zero_amount_verifies_nothing client sequence w :
  returned (VerifyBinance.verify_triangular_opportunity client sequence 0 w)
  = Ok (PyNone, PyNone).
Proof.
  unfold VerifyBinance.verify_triangular_opportunity, try_except, returned.
  destruct (VerifyBinance.verify_body client sequence 0 w) as [[v|e] w'] eqn:E.
  - cbn [fst]. rewrite (zero_body_returns client sequence w v w' E). reflexivity.
  - reflexivity.
Qed.

Section ShownFacts.
Import PyDecimal VerifyBinance.

Lemma q8_shown d s : q8 d = (fun w0 => (Ok s, w0)) -> shown 8 d.
Proof.
  unfold q8, lift, shown. cbn [Z.opp Pos.succ].
  destruct (quantize d (-8)) as [q|e]; cbn [res_bind]; [eauto|].
  intros H. apply (f_equal (fun m => fst (m empty_world))) in H.
  cbn [fst] in H. discriminate.
Qed.

Lemma q4_shown d s : q4 d = (fun w0 => (Ok s, w0)) -> shown 4 d.
Proof.
  unfold q4, lift, shown. cbn [Z.opp Pos.succ].
  destruct (quantize d (-4)) as [q|e]; cbn [res_bind]; [eauto|].
  intros H. apply (f_equal (fun m => fst (m empty_world))) in H.
  cbn [fst] in H. discriminate.
Qed.

(** Twenty integer digits or more do not fit the 28 digits of the
    context once eight decimals are asked for *)
Lemma quantize_refuses s c e :
  0 < c -> 20 <= e + ndigits c - 1 ->
  quantize (Fin s c e) (-8) = invalid_operation.
Proof.
  intros C A. unfold quantize.
  change (negb ((Etiny <=? -8) && (-8 <=? Emax))) with false. cbv iota.
  destruct (c =? 0) eqn:Z0; [apply Z.eqb_eq in Z0; lia|].
  destruct (e + ndigits c - 1 >? Emax); [reflexivity|].
  destruct (e + ndigits c - 1 - -8 + 1 >? prec) eqn:G; [reflexivity|].
  exfalso. rewrite Z.gtb_ltb in G. apply Z.ltb_ge in G. unfold prec in G. lia.
Qed.

Section Breakdown.
Variable client : Client.
Variables (sequence start mid end_ : string) (n : Z) (w : World).
Hypothesis well_formed_sequence :
  parse_sequence sequence = [start; mid; end_; start].

(** With the legs valid and the arithmetic done, a pair of decimals is
    returned only if every figure of the breakdown could be printed *)
Lemma returned_pair_was_shown p1 p2 p3 a1 a2 f r v1 v2 :
  quote client (lookups w) (mid ++ start) "askPrice" = Ok p1 ->
  above_zero p1 ->
  quote client (app (lookups w) [mid ++ start]) (mid ++ end_) "bidPrice"
    = Ok p2 ->
  above_zero p2 ->
  quote client (app (lookups w) [mid ++ start; mid ++ end_])
        (end_ ++ start) "bidPrice" = Ok p3 ->
  above_zero p3 ->
  div (of_int n) p1 = Ok a1 ->
  mul a1 p2 = Ok a2 ->
  mul a2 p3 = Ok f ->
  div f (of_int n) = Ok r ->
  returned (verify_triangular_opportunity client sequence n w)
  = Ok (PyDec v1, PyDec v2) ->
  shown 8 p1 /\ shown 8 p2 /\ shown 8 p3
  /\ shown 8 a1 /\ shown 8 a2 /\ shown 8 f /\ shown 4 r.
Proof.
  intros Hq1 Hpos1 Hq2 Hpos2 Hq3 Hpos3 Ha1 Ha2 Hf Hr.
  destruct (quote_lookup _ _ _ _ _ Hq1) as (t1 & Hc1 & Hd1).
  destruct (quote_lookup _ _ _ _ _ Hq2) as (t2 & Hc2 & Hd2).
  destruct (quote_lookup _ _ _ _ _ Hq3) as (t3 & Hc3 & Hd3).
  unfold above_zero in *.
  assert (Hc3' : client (app (app (lookups w) [mid ++ start]) [mid ++ end_])
                        (end_ ++ start) = Ok t3)
    by (rewrite <- app_assoc; exact Hc3).
  unfold verify_triangular_opportunity, try_except, verify_body, returned.
  rewrite well_formed_sequence, well_formed_guard.
  exec.
  repeat
    (match goal with
     | |- context [bind (q8 ?d) _ _] =>
         let E := fresh "S" in
         destruct (q8_cases d) as [[? E] | [? E]];
         [ erewrite bind_q8 by exact E; apply q8_shown in E
         | erewrite bind_q_raise by exact E;
           cbn [print bind ret fst]; discriminate ]
     | |- context [bind (q4 ?d) _ _] =>
         let E := fresh "S" in
         destruct (q4_cases d) as [[? E] | [? E]];
         [ erewrite bind_q4 by exact E; apply q4_shown in E
         | erewrite bind_q_raise by exact E;
           cbn [print bind ret fst]; discriminate ]
     end; exec).
  intros _. repeat split; assumption.
Qed.

End Breakdown.

End ShownFacts.

(** X15. The result of a verification depends on its breakdown being
    printable.  With the three legs valid and the arithmetic done, the
    pair [(final, ratio)] is returned if and only if each of the seven
    figures printed (the three prices, the three amounts, the ratio) can
    be quantized; otherwise the function returns [(None, None)], after
    its three lookups.  A finite figure of twenty integer digits or more
    (1e20 and above) cannot be quantized to eight decimals under the
    precision of 28. *)
Theorem unprintable_breakdown_voids_the_result :
  (forall client sequence start mid end_ n w p1 p2 p3 a1 a2 f r,
     VerifyBinance.parse_sequence sequence = [start; mid; end_; start] ->
     quote client (lookups w) (mid ++ start) "askPrice" = Ok p1 ->
     above_zero p1 ->
     quote client (app (lookups w) [mid ++ start]) (mid ++ end_) "bidPrice"
       = Ok p2 ->
     above_zero p2 ->
     quote client (app (lookups w) [mid ++ start; mid ++ end_])
           (end_ ++ start) "bidPrice" = Ok p3 ->
     above_zero p3 ->
     PyDecimal.div (PyDecimal.of_int n) p1 = Ok a1 ->
     PyDecimal.mul a1 p2 = Ok a2 ->
     PyDecimal.mul a2 p3 = Ok f ->
     PyDecimal.div f (PyDecimal.of_int n) = Ok r ->
     let out := VerifyBinance.verify_triangular_opportunity client sequence n w in
     looked_up out
     = app (lookups w) [mid ++ start; mid ++ end_; end_ ++ start]
     /\ (returned out = Ok (PyDec f, PyDec r)
         \/ returned out = Ok (PyNone, PyNone))
     /\ (returned out = Ok (PyDec f, PyDec r)
         <-> shown 8 p1 /\ shown 8 p2 /\ shown 8 p3
             /\ shown 8 a1 /\ shown 8 a2 /\ shown 8 f /\ shown 4 r))
  /\ (forall s c e,
        0 < c -> 20 <= e + PyDecimal.ndigits c - 1 ->
        ~ shown 8 (PyDecimal.Fin s c e)).
Proof.
  split.
  - intros client sequence start mid end_ n w p1 p2 p3 a1 a2 f r
      Hp Hq1 Hpos1 Hq2 Hpos2 Hq3 Hpos3 Ha1 Ha2 Hf Hr. cbv zeta.
    destruct (arithmetic_path client sequence start mid end_ n w Hp
                p1 p2 p3 a1 a2 f r Hq1 Hpos1 Hq2 Hpos2 Hq3 Hpos3 Ha1 Ha2 Hf Hr)
      as (v & lines & E & V).
    split; [rewrite E; reflexivity|]. split.
    { rewrite E. destruct V as [-> | ->]; [left | right]; reflexivity. }
    split.
    + intros R.
      exact (returned_pair_was_shown client sequence start mid end_ n w Hp
               p1 p2 p3 a1 a2 f r f r
               Hq1 Hpos1 Hq2 Hpos2 Hq3 Hpos3 Ha1 Ha2 Hf Hr R).
    + intros (S1 & S2 & S3 & S4 & S5 & S6 & S7).
      destruct (success_path client sequence start mid end_ n w Hp
                  p1 p2 p3 a1 a2 f r Hq1 Hpos1 Hq2 Hpos2 Hq3 Hpos3
                  Ha1 Ha2 Hf Hr S1 S2 S3 S4 S5 S6 S7) as [lines' E'].
      rewrite E'. reflexivity.
  - intros s c e C A [q Q]. cbn [Z.opp] in Q.
    rewrite (quantize_refuses s c e C A) in Q. discriminate.
Qed.

Lemma unprintable_breakdown_voids_the_result_witness :
  (let out :=
     VerifyBinance.verify_triangular_opportunity
       (client_with "BTCUSDT" "bidPrice" "1e24") example_sequence 100
       empty_world in
   looked_up out = ["GALAUSDT"; "GALABTC"; "BTCUSDT"]
   /\ (returned out
       = Ok (PyDec (PyDecimal.Fin false 160 19), PyDec (PyDecimal.Fin false 16 18))
       \/ returned out = Ok (PyNone, PyNone))
   /\ (returned out
       = Ok (PyDec (PyDecimal.Fin false 160 19), PyDec (PyDecimal.Fin false 16 18))
       <-> shown 8 (PyDecimal.Fin false 5 (-2))
           /\ shown 8 (PyDecimal.Fin false 8 (-7))
           /\ shown 8 (PyDecimal.Fin false 1 24)
           /\ shown 8 (PyDecimal.Fin false 20 2)
           /\ shown 8 (PyDecimal.Fin false 160 (-5))
           /\ shown 8 (PyDecimal.Fin false 160 19)
           /\ shown 4 (PyDecimal.Fin false 16 18)))
  /\ ~ shown 8 (PyDecimal.Fin false 1 24).
Proof.
  split.
  - apply (proj1 unprintable_breakdown_voids_the_result
             (client_with "BTCUSDT" "bidPrice" "1e24") example_sequence
             "USDT" "GALA" "BTC" 100 empty_world
             (PyDecimal.Fin false 5 (-2)) (PyDecimal.Fin false 8 (-7))
             (PyDecimal.Fin false 1 24)
             (PyDecimal.Fin false 20 2) (PyDecimal.Fin false 160 (-5))
             (PyDecimal.Fin false 160 19) (PyDecimal.Fin false 16 18));
      vm_compute; reflexivity.
  - apply (proj2 unprintable_breakdown_voids_the_result false 1 24);
      vm_compute; [reflexivity | discriminate].
Defined.

(** ** From the extractor to the verifier

    The extractor writes a candidate as its four symbols joined by
    " -> "; the verifier splits this text at "->", strips the parts and
    upper-cases them. *)

(** A text that holds no "->": splitting leaves it whole *)
Definition whole (s : string) : Prop := PyStr.split_arrow s = [s].

Section SplitFacts.
Import PyStr.

Lemma cons_head_not_nil c l : cons_head c l <> [].
Proof. destruct l; discriminate. Qed.

Lemma split_arrow_not_nil s : split_arrow s <> [].
Proof.
  destruct s as [|c [|d r]]; cbn [split_arrow]; try discriminate.
  destruct ((c =? "-")%char && (d =? ">")%char); [discriminate|].
  apply cons_head_not_nil.
Qed.

Lemma whole_tail c s : whole (String c s) -> whole s.
Proof.
  unfold whole. destruct s as [|d r]; [reflexivity|].
  cbn [split_arrow].
  destruct ((c =? "-")%char && (d =? ">")%char); [discriminate|].
  change (match r with
          | "" => [String d ""]
          | String d0 r' =>
              if ((d =? "-")%char && (d0 =? ">")%char)%bool
              then "" :: split_arrow r'
              else cons_head d (split_arrow r)
          end) with (split_arrow (String d r)).
  destruct (split_arrow (String d r)) as [|p ps] eqn:E.
  - exfalso. exact (split_arrow_not_nil _ E).
  - cbn [cons_head]. intros H. inversion H. reflexivity.
Qed.

Lemma whole_head c d s :
  whole (String c (String d s)) -> (c =? "-")%char && (d =? ">")%char = false.
Proof.
  unfold whole. cbn [split_arrow].
  destruct ((c =? "-")%char && (d =? ">")%char); [discriminate|reflexivity].
Qed.

(** The first "->" after a text that holds none is where the text is
    cut *)
Lemma split_arrow_cut a r :
  whole a ->
  split_arrow (a ++ String " " (String "-" (String ">" r)))
  = (a ++ " ") :: split_arrow r.
Proof.
  induction a as [|c a IH]; intros W.
  - reflexivity.
  - pose proof (whole_tail c a W) as Wa. specialize (IH Wa).
    destruct a as [|d a'].
    + cbn [append] in *. cbn [split_arrow].
      destruct c as [[] [] [] [] [] [] [] []]; reflexivity.
    + pose proof (whole_head c d a' W) as Hd.
      change (String c (String d a') ++ String " " (String "-" (String ">" r)))
        with (String c (String d (a' ++ String " " (String "-" (String ">" r))))).
      change (split_arrow
                (String c (String d (a' ++ String " " (String "-" (String ">" r))))))
        with (if ((c =? "-")%char && (d =? ">")%char)%bool
              then "" :: split_arrow (a' ++ String " " (String "-" (String ">" r)))
              else cons_head c
                     (split_arrow
                        (String d (a' ++ String " " (String "-" (String ">" r)))))).
      rewrite Hd.
      change (String d (a' ++ String " " (String "-" (String ">" r))))
        with (String d a' ++ String " " (String "-" (String ">" r))).
      rewrite IH. reflexivity.
Qed.

Lemma whole_after_space s : whole s -> whole (String " " s).
Proof.
  unfold whole. intros W. destruct s as [|d r]; [reflexivity|].
  change (split_arrow (String " " (String d r)))
    with (cons_head " " (split_arrow (String d r))).
  rewrite W. reflexivity.
Qed.

Lemma is_space_upper c : is_space (upper_char c) = is_space c.
Proof. destruct c as [[] [] [] [] [] [] [] []]; reflexivity. Qed.

Lemma lstrip_upper s : lstrip (upper s) = upper (lstrip s).
Proof.
  induction s as [|c r IH]; [reflexivity|].
  cbn [upper lstrip]. rewrite is_space_upper.
  destruct (is_space c); [exact IH | reflexivity].
Qed.

Lemma rstrip_upper s : rstrip (upper s) = upper (rstrip s).
Proof.
  induction s as [|c r IH]; [reflexivity|].
  cbn [upper rstrip]. rewrite IH, is_space_upper.
  destruct (rstrip r); cbn [upper]; [|reflexivity].
  destruct (is_space c); reflexivity.
Qed.

Lemma strip_upper s : strip (upper s) = upper (strip s).
Proof. unfold strip. rewrite lstrip_upper, rstrip_upper. reflexivity. Qed.

Lemma rstrip_space s : rstrip (s ++ " ") = rstrip s.
Proof.
  induction s as [|c r IH]; [reflexivity|].
  cbn [append rstrip]. rewrite IH. reflexivity.
Qed.

Lemma strip_space_after s : strip (s ++ " ") = strip s.
Proof.
  unfold strip. induction s as [|c r IH]; [reflexivity|].
  cbn [append lstrip]. destruct (is_space c); [exact IH|].
  apply (rstrip_space (String c r)).
Qed.

Lemma strip_space_before s : strip (String " " s) = strip s.
Proof. reflexivity. Qed.

End SplitFacts.

(** *** The symbols of a row carry no blank on either side *)

Section TrimFacts.
Import PyStr Soup.

Definition starts_clean (s : string) : Prop :=
  match s with
  | String c _ => is_space c = false
  | EmptyString => True
  end.

Lemma lstrip_starts_clean s : starts_clean (lstrip s).
Proof.
  induction s as [|c r IH]; cbn [lstrip]; [exact I|].
  destruct (is_space c) eqn:E; [exact IH | exact E].
Qed.

Lemma rstrip_starts_clean s : starts_clean s -> starts_clean (rstrip s).
Proof.
  destruct s as [|c r]; cbn [rstrip starts_clean]; [auto|].
  intros E. destruct (rstrip r); [rewrite E|]; exact E.
Qed.

Lemma rstrip_idempotent s : rstrip (rstrip s) = rstrip s.
Proof.
  induction s as [|c r IH]; [reflexivity|].
  cbn [rstrip]. destruct (rstrip r) as [|d r'] eqn:E.
  - destruct (is_space c) eqn:Sp; [reflexivity|].
    cbn [rstrip]. rewrite Sp. reflexivity.
  - cbn [rstrip] in *. rewrite IH. reflexivity.
Qed.

Lemma lstrip_clean s : starts_clean s -> lstrip s = s.
Proof.
  destruct s as [|c r]; cbn [starts_clean lstrip]; [reflexivity|].
  intros ->. reflexivity.
Qed.

(** A piece as [get_text(strip=True)] keeps it *)
Definition piece (x : string) : Prop :=
  x <> "" /\ starts_clean x /\ rstrip x = x.

Lemma strip_piece s : strip s <> "" -> piece (strip s).
Proof.
  intros N. split; [exact N|]. unfold strip. split.
  - apply rstrip_starts_clean, lstrip_starts_clean.
  - apply rstrip_idempotent.
Qed.

Lemma rstrip_app a b : b <> "" -> rstrip b = b -> rstrip (a ++ b) = a ++ b.
Proof.
  intros N R. induction a as [|c a IH]; [exact R|].
  cbn [append rstrip]. rewrite IH.
  destruct (a ++ b) eqn:E; [|reflexivity].
  destruct a; cbn [append] in E; [contradiction | discriminate].
Qed.

Lemma starts_clean_app a b : a <> "" -> starts_clean a -> starts_clean (a ++ b).
Proof. destruct a; [contradiction|]. auto. Qed.

Lemma join_pieces l :
  Forall piece l -> l <> [] -> piece (join "" l).
Proof.
  induction 1 as [|x l Px _ IH]; [contradiction|]. intros _.
  destruct l as [|y l'].
  - exact Px.
  - change (join "" (x :: y :: l')) with (x ++ join "" (y :: l')).
    destruct IH as (N & S & R); [discriminate|].
    destruct Px as (Nx & Sx & Rx). split; [|split].
    + destruct x; [contradiction | discriminate].
    + apply starts_clean_app; assumption.
    + apply rstrip_app; assumption.
Qed.

Lemma stripped_strings_pieces n : Forall piece (stripped_strings n).
Proof.
  unfold stripped_strings. induction (descendants n) as [|d ds IH];
    cbn [flat_map]; [constructor|].
  apply Forall_app. split; [|exact IH].
  destruct d as [t|t|nm cl cs]; try constructor.
  destruct (strip t) as [|c r] eqn:E; [constructor|].
  constructor; [|constructor]. rewrite <- E. apply strip_piece.
  rewrite E. discriminate.
Qed.

Lemma get_text_trimmed n : strip (get_text "" n) = get_text "" n.
Proof.
  unfold get_text. destruct (stripped_strings n) as [|x l] eqn:E;
    [reflexivity|].
  destruct (join_pieces (x :: l)) as (_ & S & R);
    [rewrite <- E; apply stripped_strings_pieces | discriminate |].
  unfold strip. rewrite (lstrip_clean _ S). exact R.
Qed.

Lemma cell_symbol_trimmed cell s :
  Extractor.cell_symbol cell = Ok s -> strip s = s.
Proof.
  unfold Extractor.cell_symbol.
  destruct (find "span" (Some "p-5") cell) as [sp|]; [|discriminate].
  intros H. inversion H. apply get_text_trimmed.
Qed.

End TrimFacts.

Section RoundTripFacts.
Import PyStr VerifyBinance.

Lemma split_sequence_of start buy1 buy2 buy3 :
  whole start -> whole buy1 -> whole buy2 -> whole buy3 ->
  split_arrow (sequence_of start buy1 buy2 buy3)
  = [start ++ " "; String " " buy1 ++ " "; String " " buy2 ++ " ";
     String " " buy3].
Proof.
  intros W0 W1 W2 W3. unfold sequence_of.
  change (start ++ " -> " ++ buy1 ++ " -> " ++ buy2 ++ " -> " ++ buy3)
    with (start ++ String " " (String "-" (String ">"
            (String " " buy1 ++ String " " (String "-" (String ">"
               (String " " buy2 ++ String " " (String "-" (String ">"
                  (String " " buy3)))))))))).
  rewrite (split_arrow_cut start _ W0).
  rewrite (split_arrow_cut (String " " buy1) _ (whole_after_space _ W1)).
  rewrite (split_arrow_cut (String " " buy2) _ (whole_after_space _ W2)).
  rewrite (whole_after_space _ W3). reflexivity.
Qed.

Lemma parse_sequence_of start buy1 buy2 buy3 :
  whole start -> whole buy1 -> whole buy2 -> whole buy3 ->
  parse_sequence (sequence_of start buy1 buy2 buy3)
  = [upper (strip start); upper (strip buy1); upper (strip buy2);
     upper (strip buy3)].
Proof.
  intros W0 W1 W2 W3. unfold parse_sequence.
  rewrite (split_sequence_of _ _ _ _ W0 W1 W2 W3). cbn [map].
  rewrite !strip_space_after, !strip_space_before. reflexivity.
Qed.

End RoundTripFacts.

(** X16. The text of a candidate parses back to its symbols.  For four
    symbols that hold no "->", the verifier reads the text the extractor
    writes, [start -> buy1 -> buy2 -> buy3], as exactly four parts: the
    symbols stripped and in upper case.  Stripping and upper-casing
    commute, so a start symbol the extractor accepted (USDT in any letter
    case) is read as "USDT". *)
Theorem candidate_text_parses_back :
  (forall start buy1 buy2 buy3,
     whole start -> whole buy1 -> whole buy2 -> whole buy3 ->
     VerifyBinance.parse_sequence (sequence_of start buy1 buy2 buy3)
     = [PyStr.upper (PyStr.strip start); PyStr.upper (PyStr.strip buy1);
        PyStr.upper (PyStr.strip buy2); PyStr.upper (PyStr.strip buy3)])
  /\ (forall s, PyStr.upper (PyStr.strip s) = PyStr.strip (PyStr.upper s))
  /\ (forall start,
        PyStr.upper start = "USDT" -> PyStr.upper (PyStr.strip start) = "USDT").
Proof.
  split; [|split].
  - exact parse_sequence_of.
  - intros s. symmetry. apply strip_upper.
  - intros start U. rewrite <- strip_upper, U. reflexivity.
Qed.

Lemma candidate_text_parses_back_witness :
  VerifyBinance.parse_sequence (sequence_of "usdt" "Gala" "btc" "USDT")
  = [PyStr.upper (PyStr.strip "usdt"); PyStr.upper (PyStr.strip "Gala");
     PyStr.upper (PyStr.strip "btc"); PyStr.upper (PyStr.strip "USDT")]
  /\ PyStr.upper (PyStr.strip "usdt") = "USDT".
Proof.
  split.
  - apply (proj1 candidate_text_parses_back "usdt" "Gala" "btc" "USDT");
      reflexivity.
  - apply (proj2 (proj2 candidate_text_parses_back) "usdt"). reflexivity.
Defined.

(** X17. What the verifier makes of a candidate of the extractor.  The
    symbols the extractor reads carry no blank on either side, and the
    first one is USDT in any letter case; when the four symbols hold no
    "->", the verifier reads the candidate as ["USDT"; B1; B2; B3], the
    symbols in upper case.  The extractor does not compare the fourth
    symbol with the first: when B3 is not "USDT" the verifier rejects the
    candidate as malformed without asking for a quote, and when it is, the
    quotes it may ask for are B1+"USDT", B1+B2 and B2+"USDT". *)
Theorem verifier_reads_the_candidate
        threshold row seq v start buy1 buy2 buy3 :
  Extractor.process_row threshold row = Ok (Some (seq, v)) ->
  Extractor.symbols_of (Soup.find_all "td" None row)
  = Ok (Some (start, buy1, buy2, buy3)) ->
  whole start -> whole buy1 -> whole buy2 -> whole buy3 ->
  let B1 := PyStr.upper buy1 in
  let B2 := PyStr.upper buy2 in
  let B3 := PyStr.upper buy3 in
  seq = sequence_of start buy1 buy2 buy3
  /\ PyStr.strip start = start /\ PyStr.strip buy1 = buy1
  /\ PyStr.strip buy2 = buy2 /\ PyStr.strip buy3 = buy3
  /\ VerifyBinance.parse_sequence seq = ["USDT"; B1; B2; B3]
  /\ (B3 <> "USDT" ->
      forall client n w,
        VerifyBinance.verify_triangular_opportunity client seq n w
        = (Ok (PyNone, PyNone),
           after_printing w [VerifyBinance.invalid_format_msg]))
  /\ (B3 = "USDT" ->
      ~ malformed seq
      /\ pairs_of (VerifyBinance.parse_sequence seq)
         = [B1 ++ "USDT"; B1 ++ B2; B2 ++ "USDT"]).
Proof.
  intros P S W0 W1 W2 W3. cbv zeta.
  destruct (process_row_inv threshold row seq v P)
    as (start' & b1 & b2 & b3 & _ & S' & U & -> & _).
  rewrite S in S'. inversion S'. subst start' b1 b2 b3. clear S'.
  destruct (symbols_of_inv _ _ _ _ _ S)
    as (c0 & c1 & c3 & c5 & _ & T0 & _ & T1 & _ & T2 & _ & T3).
  apply cell_symbol_trimmed in T0, T1, T2, T3.
  split; [reflexivity|].
  split; [exact T0|]. split; [exact T1|]. split; [exact T2|].
  split; [exact T3|].
  assert (E : VerifyBinance.parse_sequence (sequence_of start buy1 buy2 buy3)
              = ["USDT"; PyStr.upper buy1; PyStr.upper buy2; PyStr.upper buy3]).
  { rewrite (parse_sequence_of _ _ _ _ W0 W1 W2 W3).
    rewrite T0, T1, T2, T3, U. reflexivity. }
  split; [exact E|]. split.
  - intros N client n w.
    apply (malformed_rejected client _ n w).
    unfold malformed. rewrite E. right. cbn [hd last].
    intros H. apply N. symmetry. exact H.
  - intros B. split.
    + unfold malformed. rewrite E. cbn [List.length hd last].
      intros [H | H]; [apply H; reflexivity | apply H; symmetry; exact B].
    + rewrite E. reflexivity.
Qed.

Lemma verifier_reads_the_candidate_witness :
  let B1 := PyStr.upper "ach" in
  let B2 := PyStr.upper "btc" in
  let B3 := PyStr.upper "eth" in
  "usdt -> ach -> btc -> eth" = sequence_of "usdt" "ach" "btc" "eth"
  /\ PyStr.strip "usdt" = "usdt" /\ PyStr.strip "ach" = "ach"
  /\ PyStr.strip "btc" = "btc" /\ PyStr.strip "eth" = "eth"
  /\ VerifyBinance.parse_sequence "usdt -> ach -> btc -> eth"
     = ["USDT"; B1; B2; B3]
  /\ (B3 <> "USDT" ->
      forall client n w,
        VerifyBinance.verify_triangular_opportunity client
          "usdt -> ach -> btc -> eth" n w
        = (Ok (PyNone, PyNone),
           after_printing w [VerifyBinance.invalid_format_msg]))
  /\ (B3 = "USDT" ->
      ~ malformed "usdt -> ach -> btc -> eth"
      /\ pairs_of (VerifyBinance.parse_sequence "usdt -> ach -> btc -> eth")
         = [B1 ++ "USDT"; B1 ++ B2; B2 ++ "USDT"]).
Proof.
  apply (verifier_reads_the_candidate (PyFloat.NInt 1)
           (opportunity_row "usdt" "ach" "btc" "eth" [Soup.Text "3 %"])
           "usdt -> ach -> btc -> eth"
           (PyFloat.FFin false 6755399441055744 (-51))
           "usdt" "ach" "btc" "eth"); reflexivity.
Defined.

(** ** The verdict and the task of async_arb_verify.py *)

Definition verdict (confirmed : bool) : string :=
  if confirmed then "Arbitrage opportunity confirmed!"
  else "No arbitrage opportunity found on Binance.".

(** X18. [verify_from_binance] of async_arb_verify.py never raises and
    asks for no quote of its own.  When the verifier returned
    [(None, None)] it prints nothing more; when the verifier returned a
    pair it prints one verdict after the breakdown: "Arbitrage
    opportunity confirmed!" when the ratio is strictly greater than 1,
    "No arbitrage opportunity found on Binance." otherwise, a ratio of
    exactly 1 included. *)
Theorem verdict_follows_the_ratio client sequence w :
  let inner :=
    VerifyBinance.verify_triangular_opportunity client sequence 100 w in
  let out := AsyncArbVerify.verify_from_binance client sequence w in
  returned out = Ok tt
  /\ looked_up out = looked_up inner
  /\ ((returned inner = Ok (PyNone, PyNone) /\ printed out = printed inner)
      \/ exists f r confirmed,
           returned inner = Ok (PyDec f, PyDec r)
           /\ PyDecimal.gt_int r 1 = Ok confirmed
           /\ (confirmed = true
               <-> PyDecimal.cmp r (PyDecimal.of_int 1) = Some Gt)
           /\ printed out = app (printed inner) [verdict confirmed]).
Proof.
  cbv zeta. unfold AsyncArbVerify.verify_from_binance.
  change (VerifyBinance.call_verify_triangular_opportunity client sequence
            [("starting_amount", 100)])
    with (VerifyBinance.verify_triangular_opportunity client sequence 100).
  destruct (verify_returns_numbers client sequence 100 w) as (v & w' & E & N).
  unfold returned, looked_up, printed, bind, lift. rewrite E.
  cbn [fst snd].
  destruct N as [-> | (f & r & -> & N)].
  - split; [reflexivity|]. split; [reflexivity|]. left. split; reflexivity.
  - destruct (gt_int_not_nan r 1 N) as [b G].
    rewrite G.
    assert (C : b = true <-> PyDecimal.cmp r (PyDecimal.of_int 1) = Some Gt).
    { revert G. unfold PyDecimal.gt_int.
      destruct (PyDecimal.cmp r (PyDecimal.of_int 1)) as [[| |]|];
        intros G; inversion G; split; congruence. }
    destruct b; cbn [print fst snd lookups stdout].
    + split; [reflexivity|]. split; [reflexivity|]. right.
      exists f, r, true. repeat split; auto; apply C.
    + split; [reflexivity|]. split; [reflexivity|]. right.
      exists f, r, false. repeat split; auto; apply C.
Qed.

(** X19. A task of async_arb_verify.py, on any network, any page and any
    quotes: it makes a single request (and reads its body), without a
    pause and without touching a semaphore.  It returns normally, unless
    the network served, with the status 200, a page that the parser
    refuses: then the exception of the parser leaves the task, and
    nothing was printed or asked.  It asks for quotes only when the
    network served a page with the status 200, and then for at most
    three for each candidate of that page. *)
Theorem async_arb_task_makes_one_request net client timestamp url w :
  exists r lines asked evs,
    Asyncio.run (AsyncArbVerify.scrape_and_find client timestamp url) net w []
    = (r,
       {| lookups := app (lookups w) asked; stdout := app (stdout w) lines |},
       evs)
    /\ (evs = [Asyncio.AGet url] \/ evs = [Asyncio.AGet url; Asyncio.AText])
    /\ (r = Ok tt
        \/ exists reason,
             served net url (Soup.Rejected reason)
             /\ r = Raise (Soup.parser_rejected_markup reason)
             /\ asked = [] /\ lines = [])
    /\ (asked <> [] ->
        exists page l w1,
          served net url page
          /\ Extractor.extract_opportunities page
               (PyFloat.NInt AsyncArbVerify.PROFIT_THRESHOLD) w
             = (Ok l, w1)
          /\ (List.length asked <= 3 * List.length l)%nat).
Proof.
  unfold AsyncArbVerify.scrape_and_find.
  rewrite run_tbind, async_arb_fetch_outcome. cbn [app].
  assert (Id : w = {| lookups := app (lookups w) [];
                      stdout := app (stdout w) [] |}).
  { rewrite !app_nil_r. destruct w. reflexivity. }
  destruct (Asyncio.get_reply net [] url) as [status|e] eqn:G.
  - destruct (status =? 200) eqn:St.
    + apply Z.eqb_eq in St. subst status.
      destruct (Asyncio.text_reply net [Asyncio.AGet url])
        as [[soup|reason]|e] eqn:T.
      * destruct (async_arb_page_asks client timestamp url soup w)
          as (l & lines0 & lines & asked & X & V & L & _).
        unfold Asyncio.do_. cbn [Asyncio.run]. rewrite V. cbn [Asyncio.run].
        exists (Ok tt), lines, asked, [Asyncio.AGet url; Asyncio.AText].
        split; [reflexivity|]. split; [right; reflexivity|].
        split; [left; reflexivity|].
        intros _. exists (Soup.Parsed soup), l, (after_printing w lines0).
        split; [|split; [exact X | exact L]].
        exists []. split; assumption.
      * unfold Asyncio.do_. cbn [Asyncio.run].
        exists (Raise (Soup.parser_rejected_markup reason)), [], [],
               [Asyncio.AGet url; Asyncio.AText].
        split; [rewrite Id at 1; reflexivity|]. split; [right; reflexivity|].
        split; [|intros C; contradiction].
        right. exists reason. split; [|repeat split].
        exists []. split; assumption.
      * exists (Ok tt), [], [], [Asyncio.AGet url; Asyncio.AText].
        cbn [Asyncio.run].
        split; [rewrite Id at 1; reflexivity|]. split; [right; reflexivity|].
        split; [left; reflexivity | intros C; contradiction].
    + eexists (Ok tt), [_], [], [Asyncio.AGet url]. rewrite app_nil_r.
      split; [reflexivity|]. split; [left; reflexivity|].
      split; [left; reflexivity | intros C; contradiction].
  - exists (Ok tt), [], [], [Asyncio.AGet url]. cbn [Asyncio.run].
    split; [rewrite Id at 1; reflexivity|]. split; [left; reflexivity|].
    split; [left; reflexivity | intros C; contradiction].
Qed.

(** ** What main_check_macro_verify.py can and cannot do *)

Section ConfinementFacts.
Import Asyncio Scraper.

(** A coroutine whose synchronous stretches ask for no quote and which
    can raise nothing but [e0] and the exception of the parser *)
Inductive confined (e0 : exn) {A} : Task A -> Prop :=
| cf_ret a : confined e0 (Ret a)
| cf_throw : confined e0 (Throw e0)
| cf_rejected e : rejected_by_parser e -> confined e0 (Throw e)
| cf_do m k :
    (forall w, lookups (snd (m w)) = lookups w) ->
    (forall w, confined e0 (k (fst (m w)))) ->
    confined e0 (Do m k)
| cf_get u k : (forall r, confined e0 (k r)) -> confined e0 (Get u k)
| cf_text k : (forall r, confined e0 (k r)) -> confined e0 (ReadText k)
| cf_sleep ms k : confined e0 k -> confined e0 (Sleep ms k)
| cf_acquire k : confined e0 k -> confined e0 (Acquire k)
| cf_release k : confined e0 k -> confined e0 (Release k).

Lemma confined_tbind e0 {A B} (t : Task A) (k : A -> Task B) :
  confined e0 t -> (forall a, confined e0 (k a)) -> confined e0 (tbind t k).
Proof.
  intros Ht Hk. induction Ht; cbn [tbind]; try (constructor; auto); auto.
Qed.

Lemma confined_release_after e0 {A} (t : Task A) :
  confined e0 t -> confined e0 (release_after t).
Proof.
  induction 1; cbn [release_after]; repeat constructor; auto.
Qed.

Lemma confined_print e0 {A} msg (k : Task A) :
  confined e0 k -> confined e0 (do_ (print msg) k).
Proof.
  intros Hk. unfold do_. constructor; intros w; cbn [print fst snd lookups];
    [reflexivity | exact Hk].
Qed.

Lemma fetch_from_confined e0 left :
  forall attempt url,
    confined e0 (MainCheckMacroVerify.fetch_from left attempt url).
Proof.
  induction left as [|left IH]; intros attempt url;
    cbn [MainCheckMacroVerify.fetch_from].
  - constructor.
  - constructor. intros [status|e].
    + destruct (negb (status =? 200)).
      * apply confined_print. constructor. apply IH.
      * constructor. intros [html|e]; [constructor|].
        apply confined_print. constructor. apply IH.
    + apply confined_print. constructor. apply IH.
Qed.

Lemma main_check_task_confined client timestamp url :
  confined unexpected_keyword
    (MainCheckMacroVerify.scrape_and_find client timestamp url).
Proof.
  unfold MainCheckMacroVerify.scrape_and_find. apply confined_tbind.
  - unfold async_with_sem. constructor. apply confined_release_after.
    apply fetch_from_confined.
  - intros [[soup|reason]|]; [| |constructor]; unfold do_.
    + constructor; intros w;
        destruct (main_check_extract_and_verify client timestamp url soup w)
          as (l & lines & _ & V);
        rewrite V; destruct l as [|[seq profit] rest]; cbn [fst snd];
        try reflexivity; constructor.
    + constructor; intros w; [reflexivity|].
      cbn [fst]. apply cf_rejected. exists reason. reflexivity.
Qed.

Lemma slot_step_confined e0 s w sl s' w' sl' :
  slot_step s w sl s' w' sl' ->
  confined e0 (task sl) ->
  confined e0 (task sl') /\ lookups w' = lookups w.
Proof.
  intros St C. destruct St; cbn [task] in *; inversion C; subst; auto.
  match goal with
  | L : forall w, lookups (snd (m w)) = lookups w,
    K : forall w, confined _ (k (fst (m w))), E : m w = _ |- _ =>
      specialize (L w); specialize (K w); rewrite E in L, K;
      cbn [fst snd] in L, K; split; assumption
  end.
Qed.

(** The quotes asked for so far are those of [w0], and nothing but [e0]
    and the exception of the parser has been raised *)
Definition process_confined (e0 : exn) (w0 : World) (p : Process) : Prop :=
  match p with
  | Polling l =>
      Forall (fun sl => confined e0 (task sl)) (slots l)
      /\ lookups (world l) = lookups w0
  | Pausing _ w => lookups w = lookups w0
  | Crashed e => e = e0 \/ rejected_by_parser e
  end.

Lemma main_check_spawn_confined client urls timestamps :
  Forall (fun sl => confined unexpected_keyword (task sl))
    (spawn (MainCheckMacroVerify.scrape_and_find client) urls timestamps).
Proof.
  unfold spawn.
  induction (combine timestamps urls) as [|[ts url] l IH]; cbn [map];
    constructor; [apply main_check_task_confined | exact IH].
Qed.

Lemma main_check_step_confined client urls w0 p p' :
  main_step (MainCheckMacroVerify.scrape_and_find client) urls p p' ->
  process_confined unexpected_keyword w0 p ->
  process_confined unexpected_keyword w0 p'.
Proof.
  intros St C. destruct St; cbn [process_confined] in *.
  - destruct C as [F L].
    destruct H as [pre sl post s w s' w' sl' St]. cbn [slots world] in *.
    apply Forall_app in F. destruct F as [Fpre Frest].
    inversion Frest as [|x xs Fsl Fpost]; subst.
    destruct (slot_step_confined _ _ _ _ _ _ _ St Fsl) as [Fsl' L'].
    split; [|congruence].
    apply Forall_app. split; [assumption|]. constructor; assumption.
  - destruct C as [F _]. rewrite Forall_forall in F. specialize (F _ H).
    cbn [task] in F. inversion F; [left; reflexivity | right; assumption].
  - destruct C as [_ L]. exact L.
  - split; [apply main_check_spawn_confined | exact C].
Qed.

Lemma main_check_reachable_confined client urls timestamps w p :
  reachable (MainCheckMacroVerify.scrape_and_find client) urls
    (MainCheckMacroVerify.start client urls timestamps w) p ->
  process_confined unexpected_keyword w p.
Proof.
  intros R. induction R.
  - split; [apply main_check_spawn_confined | reflexivity].
  - eapply main_check_step_confined; eassumption.
Qed.

(** A page that the parser refuses ends the process, as a candidate
    does *)
Lemma main_check_rejected_page_crashes client url timestamp reason w :
  reachable (MainCheckMacroVerify.scrape_and_find client) [url]
    (MainCheckMacroVerify.start client [url] [timestamp] w)
    (Crashed (Soup.parser_rejected_markup reason)).
Proof.
  unfold MainCheckMacroVerify.start, spawn. cbn [combine map].
  eapply reach_first.
  { apply single_slot_step. eapply step_acquire.
    unfold MainCheckMacroVerify.CONCURRENCY_LIMIT. lia. }
  eapply reach_first.
  { apply single_slot_step. eapply step_get with (r := Ok 200). }
  eapply reach_first.
  { apply single_slot_step.
    eapply step_text with (r := Ok (Soup.Rejected reason)). }
  eapply reach_first.
  { apply single_slot_step. eapply step_release. }
  eapply reach_first.
  { apply single_slot_step. eapply step_do. reflexivity. }
  eapply reach_first.
  { eapply main_raise with (h := false). left. reflexivity. }
  apply reach_start.
Qed.

End ConfinementFacts.

(** X20. main_check_macro_verify.py never asks Binance for a quote, and
    only two exceptions can end it.  Once [main] has entered the loop,
    in every state the process reaches, over all cycles and whatever the
    network serves, the quotes looked up are those that had been looked
    up before [main] started; and if an exception has left a task, it is
    the [TypeError] of the keyword [PROFIT_THRESHOLD_VEIRFY] or the
    exception with which the parser refuses a page: no reply of the
    network and no row of a page raises anything else. *)
Theorem main_check_asks_for_no_quote fs client timestamps w urls p q :
  MainCheckMacroVerify.main fs client timestamps w = UrlList.Looping urls p ->
  Scraper.reachable (MainCheckMacroVerify.scrape_and_find client) urls p q ->
  match q with
  | Scraper.Polling l => lookups (Asyncio.world l) = lookups w
  | Scraper.Pausing _ w' => lookups w' = lookups w
  | Scraper.Crashed e => e = unexpected_keyword \/ rejected_by_parser e
  end.
Proof.
  rewrite main_check_main_cases.
  destruct (loaded (fs MainCheckMacroVerify.csv_file)) as [[|u us] lines];
    [discriminate|].
  intros H R. inversion H. subst urls p. clear H.
  pose proof (main_check_reachable_confined _ _ _ _ _ R) as C.
  destruct q as [l|s w0|e]; cbn [process_confined] in C.
  - destruct C as [_ L]. exact L.
  - exact C.
  - exact C.
Qed.

Lemma main_check_asks_for_no_quote_witness :
  lookups
    (Asyncio.world
       (Asyncio.mkLoop
          (Scraper.spawn (MainCheckMacroVerify.scrape_and_find example_client)
             ["https://a.example/x"] ["2025-01-01 00:00:00"])
          MainCheckMacroVerify.CONCURRENCY_LIMIT
          (after_printing empty_world
             [main_check_start_line ["https://a.example/x"]])))
  = lookups empty_world
  /\ (Soup.parser_rejected_markup "rejected" = unexpected_keyword
      \/ rejected_by_parser (Soup.parser_rejected_markup "rejected")).
Proof.
  split.
  - exact (main_check_asks_for_no_quote
             (one_file [["https://a.example/x"]] None) example_client
             ["2025-01-01 00:00:00"] empty_world ["https://a.example/x"]
             (MainCheckMacroVerify.start example_client ["https://a.example/x"]
                ["2025-01-01 00:00:00"]
                (after_printing empty_world
                   [main_check_start_line ["https://a.example/x"]]))
             (MainCheckMacroVerify.start example_client ["https://a.example/x"]
                ["2025-01-01 00:00:00"]
                (after_printing empty_world
                   [main_check_start_line ["https://a.example/x"]]))
             eq_refl (Scraper.reach_start _ _ _)).
  - exact (main_check_asks_for_no_quote
             (one_file [["https://a.example/x"]] None) example_client
             ["2025-01-01 00:00:00"] empty_world ["https://a.example/x"]
             (MainCheckMacroVerify.start example_client ["https://a.example/x"]
                ["2025-01-01 00:00:00"]
                (after_printing empty_world
                   [main_check_start_line ["https://a.example/x"]]))
             (Scraper.Crashed (Soup.parser_rejected_markup "rejected"))
             eq_refl
             (main_check_rejected_page_crashes example_client
                "https://a.example/x" "2025-01-01 00:00:00" "rejected"
                (after_printing empty_world
                   [main_check_start_line ["https://a.example/x"]]))).
Defined.

(** ** The threshold *)

Section ThresholdFacts.
Import Soup PyFloat Extractor.

Lemma gt_int_monotone v t1 t2 :
  t1 <= t2 -> gt v (NInt t2) = true -> gt v (NInt t1) = true.
Proof.
  intros T. destruct v as [|s|s m e]; cbn [gt]; auto.
  unfold compare_fin_int. destruct (0 <=? e).
  - destruct (signed s m * 2 ^ e ?= t2) eqn:C; try discriminate. intros _.
    rewrite Z.compare_gt_iff in C.
    destruct (signed s m * 2 ^ e ?= t1) eqn:C1; [| |reflexivity].
    + rewrite Z.compare_eq_iff in C1. lia.
    + rewrite Z.compare_lt_iff in C1. lia.
  - destruct (signed s m ?= t2 * 2 ^ (- e)) eqn:C; try discriminate. intros _.
    rewrite Z.compare_gt_iff in C.
    assert (P : 0 <= 2 ^ (- e)) by apply Z.pow_nonneg, Z.le_0_2.
    assert (M : t1 * 2 ^ (- e) <= t2 * 2 ^ (- e))
      by (apply Z.mul_le_mono_nonneg_r; assumption).
    destruct (signed s m ?= t1 * 2 ^ (- e)) eqn:C1; [| |reflexivity].
    + rewrite Z.compare_eq_iff in C1. lia.
    + rewrite Z.compare_lt_iff in C1. lia.
Qed.

Lemma process_row_monotone t1 t2 row x :
  t1 <= t2 ->
  process_row (NInt t2) row = Ok (Some x) ->
  process_row (NInt t1) row = Ok (Some x).
Proof.
  intros T. unfold process_row.
  destruct (_ <? 7)%nat; [discriminate|].
  destruct (symbols_of _) as [[[[[s b1] b2] b3]|]|e]; cbn [res_bind];
    try discriminate.
  destruct (negb _); [discriminate|].
  destruct (list_get _ 6) as [td|e]; cbn [res_bind]; [|discriminate].
  destruct (find "div" _ td) as [profit_div|]; [|discriminate].
  destruct (profit_of _) as [[p|]|e]; cbn [res_bind]; try discriminate.
  destruct (gt p (NInt t2)) eqn:G; [|discriminate].
  rewrite (gt_int_monotone p t1 t2 T G). auto.
Qed.

Lemma candidate_of_monotone t1 t2 row x :
  t1 <= t2 ->
  In x (candidate_of (NInt t2) row) -> In x (candidate_of (NInt t1) row).
Proof.
  intros T. unfold candidate_of.
  destruct (process_row (NInt t2) row) as [[y|]|e] eqn:E; try contradiction.
  rewrite (process_row_monotone t1 t2 row y T E). auto.
Qed.

End ThresholdFacts.

(** X21. Raising the threshold can only remove candidates.  On the same
    page, every candidate [extract_opportunities] returns under an
    integer threshold is also returned, with the same text and figure,
    under any lower one; and what is printed does not depend on the
    threshold. *)
Theorem higher_threshold_only_removes_candidates
        html t1 t2 w l1 l2 w1 w2 :
  t1 <= t2 ->
  Extractor.extract_opportunities html (PyFloat.NInt t1) w = (Ok l1, w1) ->
  Extractor.extract_opportunities html (PyFloat.NInt t2) w = (Ok l2, w2) ->
  incl l2 l1 /\ w1 = w2.
Proof.
  intros T. destruct html as [soup|reason]; [|discriminate].
  rewrite !extract_parsed.
  destruct (Soup.soup_find _ _ soup) as [container|].
  2:{ intros H1 H2. inversion H1. inversion H2. subst.
      split; [intros x []|reflexivity]. }
  destruct (Soup.find "table" _ container) as [table|].
  2:{ intros H1 H2. inversion H1. inversion H2. subst.
      split; [intros x []|reflexivity]. }
  cbv zeta. destruct (_ <? 2)%nat.
  { intros H1 H2. inversion H1. inversion H2. subst.
    split; [intros x []|reflexivity]. }
  rewrite !process_rows_flat_map. intros H1 H2.
  inversion H1. inversion H2. subst. split; [|reflexivity].
  intros x I. apply in_flat_map in I. destruct I as (row & R & I).
  apply in_flat_map. exists row. split; [exact R|].
  exact (candidate_of_monotone t1 t2 row x T I).
Qed.

Lemma higher_threshold_only_removes_candidates_witness :
  incl [("USDT -> GALA -> BTC -> USDT",
         PyFloat.FFin false 5629499534213120 (-51))]
       [("USDT -> GALA -> BTC -> USDT", float_1_01);
        ("USDT -> GALA -> BTC -> USDT",
         PyFloat.FFin false 5629499534213120 (-51))]
  /\ empty_world = empty_world.
Proof.
  apply (higher_threshold_only_removes_candidates
           (Soup.Parsed (page_of_rows [usdt_row "1.01 %"; usdt_row "2.50 %"]))
           1 2 empty_world).
  - lia.
  - vm_compute. reflexivity.
  - vm_compute. reflexivity.
Defined.

(** ** The library models on known values

    The right-hand sides are what CPython 3.11 gives. *)

Example third_is_rounded_to_28_digits :
  PyDecimal.div (PyDecimal.of_int 1) (PyDecimal.of_int 3)
  = Ok (PyDecimal.Fin false 3333333333333333333333333333 (-28))
  /\ PyDecimal.div (PyDecimal.of_int 2) (PyDecimal.of_int 3)
     = Ok (PyDecimal.Fin false 6666666666666666666666666667 (-28)).
Proof. split; vm_compute; reflexivity. Qed.

Example ties_go_to_even :
  PyDecimal.mul (PyDecimal.of_int 12345678901234567890123456785)
                (PyDecimal.of_int 1)
  = Ok (PyDecimal.Fin false 1234567890123456789012345678 1)
  /\ PyDecimal.mul (PyDecimal.of_int 12345678901234567890123456775)
                   (PyDecimal.of_int 1)
     = Ok (PyDecimal.Fin false 1234567890123456789012345678 1).
Proof. split; vm_compute; reflexivity. Qed.

Example quantize_refuses_twenty_integer_digits :
  PyDecimal.quantize (PyDecimal.Fin false 1 19) (-8)
  = Ok (PyDecimal.Fin false 1000000000000000000000000000 (-8))
  /\ PyDecimal.quantize (PyDecimal.Fin false 1 20) (-8)
     = PyDecimal.invalid_operation.
Proof. split; vm_compute; reflexivity. Qed.

Example division_traps :
  PyDecimal.div (PyDecimal.of_int 1) (PyDecimal.of_int 0)
  = PyDecimal.division_by_zero
  /\ PyDecimal.div (PyDecimal.of_int 0) (PyDecimal.of_int 0)
     = PyDecimal.division_undefined
  /\ PyDecimal.div (PyDecimal.of_int 100) (PyDecimal.Fin false 3 (-999999))
     = PyDecimal.overflow
  /\ PyDecimal.div (PyDecimal.of_int 100) (PyDecimal.Inf false)
     = Ok (PyDecimal.Fin false 0 (-1000026)).
Proof. repeat split; vm_compute; reflexivity. Qed.

Example decimal_literals :
  PyDecimal.of_string " 1_0__.5_e1 " = Ok (PyDecimal.Fin false 105 0)
  /\ PyDecimal.of_string "-inFinity" = Ok (PyDecimal.Inf true)
  /\ PyDecimal.of_string "nan12" = Ok (PyDecimal.NaN false)
  /\ PyDecimal.of_string "1.01%" = PyDecimal.conversion_syntax
  /\ PyDecimal.of_string "1e1000000000000000000" = PyDecimal.invalid_operation
  /\ PyDecimal.to_string (PyDecimal.Fin false 8 (-7)) = "8E-7"
  /\ PyDecimal.to_string (PyDecimal.Fin false 80 (-8)) = "8.0E-7"
  /\ PyDecimal.to_string (PyDecimal.Fin false 20 2) = "2.0E+3".
Proof. repeat split; vm_compute; reflexivity. Qed.

Example float_literals :
  PyFloat.of_string "0.1" = Ok (PyFloat.FFin false 7205759403792794 (-56))
  /\ PyFloat.of_string "9007199254740993"
     = Ok (PyFloat.FFin false 4503599627370496 1)
  /\ PyFloat.of_string "1e309" = Ok (PyFloat.FInf false)
  /\ PyFloat.of_string "4.9e-324" = Ok (PyFloat.FFin false 1 (-1074))
  /\ PyFloat.of_string "1_0.5" = Ok (PyFloat.FFin false 5910974510923776 (-49))
  /\ PyFloat.of_string "1__0" = Raise (PyFloat.value_error "1__0")
  /\ PyFloat.of_string "1.005" = Ok (PyFloat.FFin false 4526117625507348 (-52))
  /\ PyFloat.format_2f (PyFloat.FFin false 4526117625507348 (-52)) = "1.00"
  /\ PyFloat.format_2f float_1_01 = "1.01".
Proof. repeat split; vm_compute; reflexivity. Qed.

Example sequence_is_split_stripped_and_uppercased :
  VerifyBinance.parse_sequence "usdt->gala ->  BTC ->USDT"
  = ["USDT"; "GALA"; "BTC"; "USDT"]
  /\ VerifyBinance.parse_sequence "USDT -> GALA -> BTC" = ["USDT"; "GALA"; "BTC"]
  /\ PyStr.split_arrow "a-->b->" = ["a-"; "b"; ""]
  /\ PyStr.split_ws "  1.01   %  " = ["1.01"; "%"].
Proof. repeat split; reflexivity. Qed.
